(** * Page-transcription pipelines: a shallow embedding

    The repository is a set of batch scripts that download PDF documents,
    split them into page groups, send every group to a generative model
    for transcription and store the results in a document database.

    This development embeds the scripts

    - [process-processed/transcribe_error_page6.py]   (module [ErrorPage6])
    - [process-unprocessed/transcribe_documents_onepage_6.py] (module [OnePage6])
    - [transcribe_documents_twopage.py]               (module [TwoPage])
    - [transcribe_document.py]                        (module [Document])
    - [transcribe_workbook.py]                        (module [Workbook])
    - [number_huriwake.py]                            (module [NumberHuriwake])

    as functions over an explicit database state.  Remote collaborators
    (the database, the object store, the generative model) are an
    environment [Env]: every remote call may raise, as decided by the
    environment, and the [try]/[except] blocks of the scripts are kept.
    The environment answers a call from its arguments: the same call is
    answered the same way throughout a run.

    The worker threads of a page batch only call the model and never
    touch the database, and the scripts collect the futures in the order
    of submission; a batch is therefore embedded sequentially.  [print]
    calls are left out, except for the usage line of the workbook entry
    point. *)

From stdpp Require Import base option list numbers strings pretty sorting gmap.

Open Scope string_scope.
Open Scope list_scope.
Open Scope Z_scope.

(** * Python built-ins used by the scripts *)

Module Py.

(** [len(l)] *)
Definition len {A} (l : list A) : Z := Z.of_nat (length l).

(** [l[i]]: a negative index counts from the end, anything outside
    [-len(l) .. len(l)-1] raises [IndexError] (here [None]). *)
Definition getitem {A} (l : list A) (i : Z) : option A :=
  if bool_decide (0 ≤ i) then l !! Z.to_nat i
  else if bool_decide (- len l ≤ i) then l !! Z.to_nat (len l + i)
  else None.

(** [range(start, stop)] and [range(start, stop, step)] for [step > 0]. *)
Definition range (start stop : Z) : list Z := seqZ start (stop - start).

Definition range_step (start stop step : Z) : list Z :=
  (λ k, start + k * step) <$> seqZ 0 ((stop - start + step - 1) `div` step).

(** [l[i:j]] for [0 <= i <= j]. *)
Definition slice {A} (l : list A) (i j : nat) : list A :=
  take (j - i) (drop i l).

(** Truth value of a [str]: the empty string is false. *)
Definition truthy (s : string) : bool := negb (String.eqb s "").

(** Truth value of an optional [int] ([None] and [0] are false). *)
Definition truthy_int (o : option Z) : bool :=
  match o with
  | Some n => negb (n =? 0)
  | None => false
  end.

(** A [for] loop that threads the loop-carried variables [s] and stops at
    the first exception. *)
Fixpoint for_ {A S} (l : list A) (body : S → A → option S) (s : S) : option S :=
  match l with
  | [] => Some s
  | x :: l' => s' ← body s x; for_ l' body s'
  end.

End Py.

(** * Page groups

    The splitters return a list of dicts.  A PDF is the list of its pages;
    what [PdfWriter.write] serialises is the list of pages added to the
    writer. *)

(** [{"name": ..., "data": ..., "page": ...}] *)
Record PagePdf (Page : Type) := mkPagePdf {
  name : string;
  data : list Page;
  page : Z;
}.
Arguments mkPagePdf {Page}.
Arguments name {Page}.
Arguments data {Page}.
Arguments page {Page}.

(** [{"name": ..., "data": ..., "page_start": ..., "page_end": ...}] *)
Record RangePdf (Page : Type) := mkRangePdf {
  rname : string;
  rdata : list Page;
  page_start : Z;
  page_end : Z;
}.
Arguments mkRangePdf {Page}.
Arguments rname {Page}.
Arguments rdata {Page}.
Arguments page_start {Page}.
Arguments page_end {Page}.

(** An entry of the workbook's problems file. *)
Record Problem := mkProblem {
  problem_number : Z;
  start_page : Z;
  end_page : Z;
}.

(** * The document database and the remote collaborators *)

(** A row of [document_metadata]; the key of the table is the document id. *)
Record Metadata := mkMetadata {
  md_file_name : string;
  md_path : string;
  md_bucket : string;
  md_status : string;
  md_total_pages : option Z;
  md_random : option Z;
}.

(** A row of [document_transcriptions].  The scripts write different
    subsets of the columns; a column a script does not write is [None]. *)
Record Transcription := mkTranscription {
  t_transcription : string;
  t_page : option Z;
  t_start_page : option Z;
  t_end_page : option Z;
  t_file_name : string;
  t_document_id : option string;
}.

(** A row of [workbook_transcriptions]; the structured analysis is kept as
    its JSON text, ["{}"] for the empty dict. *)
Record WorkbookRow := mkWorkbookRow {
  wb_question : string;
  wb_answer : string;
  wb_analysis : string;
  wb_structured_analysis : string;
  wb_problem_number : Z;
  wb_file_name : string;
  wb_document_id : string;
}.

(** The state the scripts act on: the three tables, and the trace of the
    page groups handed to the transcription workers, as
    (document id, page). *)
Record World := mkWorld {
  document_metadata : gmap string Metadata;
  document_transcriptions : gmap nat Transcription;
  workbook_transcriptions : gmap nat WorkbookRow;
  dispatched : list (string * Z);
}.

(** A condition of a query on [document_metadata]:
    [.where('status', '==', s)], [.eq('status', s)] and the like. *)
Inductive Cond :=
  | Status_is (status : string)
  | Random_is (random : Z)
  | File_name_is (file_name : string).

Definition holds (c : Cond) (md : Metadata) : bool :=
  match c with
  | Status_is status => bool_decide (md_status md = status)
  | Random_is random => bool_decide (md_random md = Some random)
  | File_name_is file_name => bool_decide (md_file_name md = file_name)
  end.

(** The remote calls on the database. *)
Inductive Call :=
  | Query_metadata (conds : list Cond)
  | Query_transcriptions (document_id : string)
  | Delete_transcription (id : nat)
  | Delete_transcriptions (document_id : string)
  | Update_status (key status : string)
  | Add_transcription (row : Transcription)
  | Add_workbook (row : WorkbookRow).

(** [response.candidates], [response.text] *)
Record Response := mkResponse {
  candidates : list string;
  text : string;
}.

(** The environment of a run.  [raises c] tells whether the database call
    [c] raises; [download bucket path] is the downloaded document, already
    read into its pages ([None]: the download or [PdfReader] raised);
    [generate_content data] is the model's response ([None]: the call
    raised).  The last four fields are the workbook script's file and
    model calls. *)
Record Env (Page : Type) := mkEnv {
  raises : Call → bool;
  download : string → string → option (list Page);
  generate_content : list Page → option Response;
  load_problems : string → option (list Problem);
  generate_question_answer : list Page → option (option (string * string));
  generate_analysis : string → string → option string;
  generate_structure : string → option (option string);
}.
Arguments mkEnv {Page}.
Arguments raises {Page}.
Arguments download {Page}.
Arguments generate_content {Page}.
Arguments load_problems {Page}.
Arguments generate_question_answer {Page}.
Arguments generate_analysis {Page}.
Arguments generate_structure {Page}.

(** ** Computations: state and exceptions *)

Inductive Outcome (A : Type) :=
  | Return (a : A)
  | Raise.
Arguments Return {A}.
Arguments Raise {A}.

Definition M (A : Type) : Type := World → Outcome A * World.

Definition ret {A} (a : A) : M A := λ w, (Return a, w).

Definition raise {A} : M A := λ w, (Raise, w).

Definition bind {A B} (m : M A) (k : A → M B) : M B := λ w,
  match m w with
  | (Return a, w') => k a w'
  | (Raise, w') => (Raise, w')
  end.

(** [try: m  except Exception: handler] *)
Definition try_except {A} (m : M A) (handler : M A) : M A := λ w,
  match m w with
  | (Return a, w') => (Return a, w')
  | (Raise, w') => handler w'
  end.

Notation "x <- m ;; k" := (bind m (λ x, k))
  (at level 100, m at next level, right associativity).
Notation "m ;;; k" := (bind m (λ _, k))
  (at level 100, right associativity).

(** A value that may have raised. *)
Definition lift {A} (o : option A) : M A :=
  match o with
  | Some a => ret a
  | None => raise
  end.

(** [for x in l: body] *)
Fixpoint for_each {A} (l : list A) (body : A → M unit) : M unit :=
  match l with
  | [] => ret tt
  | x :: l' => body x ;;; for_each l' body
  end.

(** [[f(x) for x in l]] with effects. *)
Fixpoint map_m {A B} (f : A → M B) (l : list A) : M (list B) :=
  match l with
  | [] => ret []
  | x :: l' => y <- f x ;; ys <- map_m f l' ;; ret (y :: ys)
  end.

(** ** Database primitives *)

Module Db.
Section db.
Context {Page : Type} (E : Env Page).

Definition call (c : Call) : M unit := λ w,
  if raises E c then (Raise, w) else (Return tt, w).

(** [document_metadata.where(...).stream()] and
    [table('document_metadata').select(...).eq(...).execute().data] *)
Definition metadata_where (conds : list Cond) : M (list (string * Metadata)) :=
  call (Query_metadata conds) ;;;
  λ w, (Return (filter (λ doc, forallb (λ c, holds c doc.2) conds)
                       (map_to_list (document_metadata w))), w).

(** [document_transcriptions.where('document_id', '==', id).stream()] *)
Definition transcriptions_where (document_id : string) : M (list (nat * Transcription)) :=
  call (Query_transcriptions document_id) ;;;
  λ w, (Return (filter (λ tdoc, bool_decide (t_document_id tdoc.2 = Some document_id))
                       (map_to_list (document_transcriptions w))), w).

(** [document_transcriptions.document(id).delete()] *)
Definition delete_transcription (id : nat) : M unit :=
  call (Delete_transcription id) ;;;
  λ w, (Return tt,
        mkWorld (document_metadata w) (delete id (document_transcriptions w))
                (workbook_transcriptions w) (dispatched w)).

(** [table('document_transcriptions').delete().eq('document_id', id).execute()] *)
Definition delete_transcriptions (document_id : string) : M unit :=
  call (Delete_transcriptions document_id) ;;;
  λ w, (Return tt,
        mkWorld (document_metadata w)
                (filter (λ tdoc, t_document_id tdoc.2 ≠ Some document_id)
                        (document_transcriptions w))
                (workbook_transcriptions w) (dispatched w)).

Definition set_status (status : string) (md : Metadata) : Metadata :=
  mkMetadata (md_file_name md) (md_path md) (md_bucket md) status
             (md_total_pages md) (md_random md).

(** [document_metadata.document(id).update({'status': status})]; Firestore
    raises when the document does not exist. *)
Definition update_status (doc_id status : string) : M unit :=
  call (Update_status doc_id status) ;;;
  λ w, match document_metadata w !! doc_id with
       | Some md =>
           (Return tt,
            mkWorld (<[doc_id := set_status status md]> (document_metadata w))
                    (document_transcriptions w) (workbook_transcriptions w)
                    (dispatched w))
       | None => (Raise, w)
       end.

(** [table('document_metadata').update({'status': status}).eq('id', id).execute()] *)
Definition update_status_eq_id (doc_id status : string) : M unit :=
  call (Update_status doc_id status) ;;;
  λ w, (Return tt,
        mkWorld (alter (set_status status) doc_id (document_metadata w))
                (document_transcriptions w) (workbook_transcriptions w)
                (dispatched w)).

(** [table('document_metadata').update({'status': status}).eq('file_name', f).execute()] *)
Definition update_status_eq_file_name (file_name status : string) : M unit :=
  call (Update_status file_name status) ;;;
  λ w, (Return tt,
        mkWorld ((λ md, if bool_decide (md_file_name md = file_name)
                        then set_status status md else md)
                   <$> document_metadata w)
                (document_transcriptions w) (workbook_transcriptions w)
                (dispatched w)).

(** [document_transcriptions.add(data)] and
    [table('document_transcriptions').insert(data).execute()]: the row
    gets an id not in use. *)
Definition add_transcription (row : Transcription) : M unit :=
  call (Add_transcription row) ;;;
  λ w, (Return tt,
        mkWorld (document_metadata w)
                (<[fresh (dom (document_transcriptions w)) := row]>
                   (document_transcriptions w))
                (workbook_transcriptions w) (dispatched w)).

(** [table('workbook_transcriptions').insert(data).execute()] *)
Definition add_workbook (row : WorkbookRow) : M unit :=
  call (Add_workbook row) ;;;
  λ w, (Return tt,
        mkWorld (document_metadata w) (document_transcriptions w)
                (<[fresh (dom (workbook_transcriptions w)) := row]>
                   (workbook_transcriptions w))
                (dispatched w)).

(** [executor.submit(f, pdf['data'], pdf['page'])]: the call is recorded;
    the future holds what the worker function returned or that it raised. *)
Definition submit (f : list Page → Z → M string) (doc_id : string)
    (pdf : PagePdf Page) : M (Outcome string) := λ w,
  let '(future, w') := f (data pdf) (page pdf) w in
  (Return future,
   mkWorld (document_metadata w') (document_transcriptions w')
           (workbook_transcriptions w') (dispatched w' ++ [(doc_id, page pdf)])).

(** [future.result()]: the worker's result, or its exception raised again. *)
Definition result (future : Outcome string) : M string := λ w, (future, w).

End db.
End Db.

(** The storage bucket the Firestore scripts are initialised with. *)
Definition firebase_bucket : string := "studyfellow-42d35.firebasestorage.app".

(** [split_pdfs[i:i + batch_size]] for [i in range(0, len(split_pdfs), batch_size)] *)
Definition batches {A} (split_pdfs : list A) (batch_size : Z) : list (list A) :=
  (λ i, Py.slice split_pdfs (Z.to_nat i) (Z.to_nat (i + batch_size)))
    <$> Py.range_step 0 (Py.len split_pdfs) batch_size.

(** * process-processed/transcribe_error_page6.py *)

Module ErrorPage6.
Section script.
Context {Page : Type} (E : Env Page).

Definition extract_specific_pages_from_pdf
    (pdf_data : list Page) (missing_pages : list Z) : option (list (PagePdf Page)) :=
  let reader_pages := pdf_data in
  Py.for_ missing_pages (λ split_pdfs page_num,
    if bool_decide (page_num ≤ Py.len reader_pages) then
      pg ← Py.getitem reader_pages (page_num - 1);
      let writer := [pg] in
      Some (split_pdfs ++
            [mkPagePdf ("page_" +:+ pretty page_num) writer page_num])
    else Some split_pdfs) [].

Definition transcribe_pdf (pdf_data : list Page) (page : Z) : M string :=
  try_except
    (response <- lift (generate_content E pdf_data) ;;
     match candidates response with
     | [] => ret ""
     | _ :: _ =>
         if negb (Py.truthy (text response)) then ret "内容なし"
         else ret (text response)
     end)
    (ret "内容なし").

Definition save_to_firestore (transcription : string) (page : Z)
    (file_name document_id : string) : M unit :=
  try_except
    (let data := mkTranscription transcription (Some page) None None
                                 file_name (Some document_id) in
     Db.add_transcription E data)
    (ret tt).

Definition process_page_batch (pdf_batch : list (PagePdf Page))
    (file_name doc_id : string) : M unit :=
  futures <- map_m (λ pdf,
               future <- Db.submit transcribe_pdf doc_id pdf ;; ret (future, pdf))
             pdf_batch ;;
  for_each futures (λ '(future, pdf),
    transcription <- Db.result future ;;
    if Py.truthy transcription
    then save_to_firestore transcription (page pdf) file_name doc_id
    else ret tt).

Definition get_missing_pages (document_id : string) (total_pages : Z) : M (list Z) :=
  try_except
    (trans_docs <- Db.transcriptions_where E document_id ;;
     let existing_pages : gset Z :=
       foldl (λ existing_pages doc,
                match t_page doc.2 with
                | Some page_num =>
                    if negb (page_num =? 0) then existing_pages ∪ {[page_num]}
                    else existing_pages
                | None => existing_pages
                end) ∅ trans_docs in
     let all_pages : gset Z := list_to_set (Py.range 1 (total_pages + 1)) in
     let missing_pages := merge_sort Z.le (elements (all_pages ∖ existing_pages)) in
     ret missing_pages)
    (ret []).

(** The body of [for doc in docs] in [process_error_pages]. *)
Definition process_doc (doc : string * Metadata) : M unit :=
  let file_name := md_file_name doc.2 in
  let doc_id := doc.1 in
  let file_path := md_path doc.2 in
  let total_pages := md_total_pages doc.2 in
  if negb (Py.truthy_int total_pages) then ret tt
  else
    missing_pages <- get_missing_pages doc_id (default 0 total_pages) ;;
    match missing_pages with
    | [] => ret tt
    | _ :: _ =>
        try_except
          (pdf_data <- lift (download E firebase_bucket file_path) ;;
           split_pdfs <- lift (extract_specific_pages_from_pdf pdf_data missing_pages) ;;
           let batch_size := 100 in
           for_each (batches split_pdfs batch_size) (λ batch,
             process_page_batch batch file_name doc_id))
          (ret tt)
    end.

Definition process_error_pages : M unit :=
  try_except
    (docs <- Db.metadata_where E [Status_is "processed"; Random_is 6] ;;
     match docs with
     | [] => ret tt
     | _ :: _ => for_each docs process_doc
     end)
    (ret tt).

End script.
End ErrorPage6.

(** * process-unprocessed/transcribe_documents_onepage_6.py *)

Module OnePage6.
Section script.
Context {Page : Type} (E : Env Page).

Definition split_pdf_in_memory (pdf_data : list Page) : option (list (PagePdf Page)) :=
  let reader_pages := pdf_data in
  let total_pages := Py.len reader_pages in
  Py.for_ (Py.range 0 total_pages) (λ split_pdfs i,
    pg ← Py.getitem reader_pages i;
    let writer := [pg] in
    Some (split_pdfs ++ [mkPagePdf ("page_" +:+ pretty (i + 1)) writer (i + 1)])) [].

Definition transcribe_pdf (pdf_data : list Page) (page : Z) : M string :=
  try_except
    (response <- lift (generate_content E pdf_data) ;;
     match candidates response with
     | [] => ret ""
     | _ :: _ =>
         if negb (Py.truthy (text response)) then ret ""
         else ret (text response)
     end)
    (ret "").

Definition save_to_firestore (transcription : string) (page : Z)
    (file_name document_id : string) : M unit :=
  try_except
    (let data := mkTranscription transcription (Some page) None None
                                 file_name (Some document_id) in
     Db.add_transcription E data)
    (ret tt).

Definition process_page_batch (pdf_batch : list (PagePdf Page))
    (file_name doc_id : string) : M unit :=
  futures <- map_m (λ pdf,
               future <- Db.submit transcribe_pdf doc_id pdf ;; ret (future, pdf))
             pdf_batch ;;
  for_each futures (λ '(future, pdf),
    transcription <- Db.result future ;;
    if Py.truthy transcription
    then save_to_firestore transcription (page pdf) file_name doc_id
    else ret tt).

(** Deleting every transcription of one document, row by row. *)
Definition delete_transcriptions_of (doc_id : string) : M unit :=
  trans_docs <- Db.transcriptions_where E doc_id ;;
  for_each trans_docs (λ tdoc, Db.delete_transcription E tdoc.1).

(** The first part of [process_documents]: documents marked [deleted],
    then documents still [unprocessed]. *)
Definition deletion_sweep : M unit :=
  deleted_docs <- Db.metadata_where E [Status_is "deleted"] ;;
  (match deleted_docs with
   | [] => ret tt
   | _ :: _ =>
       for_each deleted_docs (λ doc,
         let doc_id := doc.1 in
         delete_transcriptions_of doc_id ;;;
         Db.update_status E doc_id "deleted_applied")
   end) ;;;
  unprocessed_docs <- Db.metadata_where E [Status_is "unprocessed"] ;;
  let unprocessed_ids := fst <$> unprocessed_docs in
  for_each unprocessed_ids delete_transcriptions_of.

(** The body of [for doc in docs] in [process_documents]. *)
Definition process_doc (doc : string * Metadata) : M unit :=
  let file_name := md_file_name doc.2 in
  let doc_id := doc.1 in
  let file_path := md_path doc.2 in
  try_except
    (pdf_data <- lift (download E firebase_bucket file_path) ;;
     split_pdfs <- lift (split_pdf_in_memory pdf_data) ;;
     let batch_size := 100 in
     for_each (batches split_pdfs batch_size) (λ batch,
       process_page_batch batch file_name doc_id) ;;;
     Db.update_status E doc_id "processed")
    (ret tt).

(** The second part of [process_documents]: selection and transcription. *)
Definition process_unprocessed : M unit :=
  docs <- Db.metadata_where E [Status_is "unprocessed"; Random_is 6] ;;
  match docs with
  | [] => ret tt
  | _ :: _ => for_each docs process_doc
  end.

Definition process_documents : M unit :=
  try_except (deletion_sweep ;;; process_unprocessed) (ret tt).

End script.
End OnePage6.

(** * transcribe_documents_twopage.py *)

Module TwoPage.
Section script.
Context {Page : Type} (E : Env Page).

Definition split_pdf_in_memory (pdf_data : list Page) : option (list (PagePdf Page)) :=
  let reader_pages := pdf_data in
  let total_pages := Py.len reader_pages in
  cover ← Py.getitem reader_pages 0;
  let split_pdfs := [mkPagePdf "cover" [cover] 1] in
  Py.for_ (Py.range_step 1 total_pages 2) (λ split_pdfs i,
    pg ← Py.getitem reader_pages i;
    let writer := [pg] in
    writer ← (if bool_decide (i + 1 < total_pages) then
                pg' ← Py.getitem reader_pages (i + 1); Some (writer ++ [pg'])
              else Some writer);
    Some (split_pdfs ++ [mkPagePdf ("pages_" +:+ pretty (i + 1)) writer (i + 1)]))
    split_pdfs.

Definition transcribe_pdf (pdf_data : list Page) (page : Z) : M string :=
  try_except
    (response <- lift (generate_content E pdf_data) ;;
     match candidates response with
     | [] => ret ""
     | _ :: _ =>
         if negb (Py.truthy (text response)) then ret ""
         else ret (text response)
     end)
    (ret "").

Definition save_to_supabase (transcription : string) (page : Z)
    (file_name document_id : string) : M unit :=
  try_except
    (let data := mkTranscription transcription (Some page) None None
                                 file_name (Some document_id) in
     Db.add_transcription E data)
    (ret tt).

(** The first part of [process_documents]: documents marked [deleted]. *)
Definition deletion_sweep : M unit :=
  deleted_docs <- Db.metadata_where E [Status_is "deleted"] ;;
  match deleted_docs with
  | [] => ret tt
  | _ :: _ =>
      for_each deleted_docs (λ doc,
        let doc_id := doc.1 in
        Db.delete_transcriptions E doc_id ;;;
        Db.update_status_eq_id E doc_id "deleted_applied")
  end.

(** The body of [for doc in response.data] in [process_documents]. *)
Definition process_doc (doc : string * Metadata) : M unit :=
  let file_name := md_file_name doc.2 in
  let doc_id := doc.1 in
  let bucket := md_bucket doc.2 in
  try_except
    (pdf_data <- lift (download E bucket file_name) ;;
     split_pdfs <- lift (split_pdf_in_memory pdf_data) ;;
     for_each split_pdfs (λ pdf,
       transcription <- transcribe_pdf (data pdf) (page pdf) ;;
       save_to_supabase transcription (page pdf) file_name doc_id) ;;;
     Db.update_status_eq_file_name E file_name "processed")
    (ret tt).

(** The second part of [process_documents]: selection and transcription. *)
Definition process_unprocessed : M unit :=
  response <- Db.metadata_where E [Status_is "unprocessed"] ;;
  match response with
  | [] => ret tt
  | _ :: _ => for_each response process_doc
  end.

Definition process_documents : M unit :=
  try_except (deletion_sweep ;;; process_unprocessed) (ret tt).

End script.
End TwoPage.

(** * transcribe_document.py *)

Module Document.
Section script.
Context {Page : Type} (E : Env Page).

Definition split_pdf_in_memory (pdf_data : list Page) : option (list (RangePdf Page)) :=
  let reader_pages := pdf_data in
  let total_pages := Py.len reader_pages in
  cover ← Py.getitem reader_pages 0;
  let split_pdfs := [mkRangePdf "cover" [cover] 1 1] in
  Py.for_ (Py.range_step 1 total_pages 2) (λ split_pdfs i,
    pg ← Py.getitem reader_pages i;
    let writer := [pg] in
    let page_end := i + 1 in
    '(writer, page_end) ←
      (if bool_decide (i + 1 < total_pages) then
         pg' ← Py.getitem reader_pages (i + 1); Some (writer ++ [pg'], i + 2)
       else Some (writer, page_end));
    Some (split_pdfs ++
          [mkRangePdf ("pages_" +:+ pretty (i + 1) +:+ "-" +:+ pretty page_end)
                      writer (i + 1) page_end]))
    split_pdfs.

Definition transcribe_pdf (pdf_data : list Page) (page_start page_end : Z) : M string :=
  try_except
    (response <- lift (generate_content E pdf_data) ;;
     match candidates response with
     | [] => ret ""
     | _ :: _ =>
         if negb (Py.truthy (text response)) then ret ""
         else ret (text response)
     end)
    (ret "").

Definition save_to_supabase (transcription : string) (start_page end_page : Z)
    (file_name : string) : M unit :=
  try_except
    (let data := mkTranscription transcription None (Some start_page)
                                 (Some end_page) file_name None in
     Db.add_transcription E data)
    (ret tt).

(** The first part of [process_documents]: documents marked [deleted]. *)
Definition deletion_sweep : M unit :=
  deleted_docs <- Db.metadata_where E [Status_is "deleted"] ;;
  match deleted_docs with
  | [] => ret tt
  | _ :: _ =>
      for_each deleted_docs (λ doc,
        let doc_id := doc.1 in
        Db.delete_transcriptions E doc_id ;;;
        Db.update_status_eq_id E doc_id "deleted_applied")
  end.

(** The body of [for doc in response.data] in [process_documents]. *)
Definition process_doc (doc : string * Metadata) : M unit :=
  let file_name := md_file_name doc.2 in
  try_except
    (pdf_data <- lift (download E "documents" file_name) ;;
     split_pdfs <- lift (split_pdf_in_memory pdf_data) ;;
     for_each split_pdfs (λ pdf,
       transcription <- transcribe_pdf (rdata pdf) (page_start pdf) (page_end pdf) ;;
       save_to_supabase transcription (page_start pdf) (page_end pdf) file_name) ;;;
     Db.update_status_eq_file_name E file_name "processed")
    (ret tt).

(** The second part of [process_documents]: selection and transcription. *)
Definition process_unprocessed : M unit :=
  response <- Db.metadata_where E [Status_is "unprocessed"] ;;
  match response with
  | [] => ret tt
  | _ :: _ => for_each response process_doc
  end.

Definition process_documents : M unit :=
  try_except (deletion_sweep ;;; process_unprocessed) (ret tt).

End script.
End Document.

(** * transcribe_workbook.py *)

Module Workbook.
Section script.
Context {Page : Type} (E : Env Page).

Definition transcribe_pdf (pdf_data : list Page) (problem_number : Z)
    : M (string * string) :=
  try_except
    (response <- lift (generate_question_answer E pdf_data) ;;
     match response with
     | None => ret ("", "")
     | Some json_data => ret json_data
     end)
    (ret ("", "")).

Definition analyze_problem (question answer : string) : M string :=
  try_except
    (response_text <- lift (generate_analysis E question answer) ;;
     if negb (Py.truthy response_text) then ret "" else ret response_text)
    (ret "").

Definition structure_analysis (analysis : string) : M string :=
  try_except
    (response <- lift (generate_structure E analysis) ;;
     match response with
     | None => ret "{}"
     | Some result => ret result
     end)
    (ret "{}").

Definition save_to_supabase (question answer analysis structured_analysis : string)
    (problem_number : Z) (file_name document_id : string) : M unit :=
  try_except
    (let data := mkWorkbookRow question answer analysis structured_analysis
                               problem_number file_name document_id in
     Db.add_workbook E data)
    (ret tt).

(** The chunk built for one problem: the pages
    [range(start_page - 1, end_page)] that exist. *)
Definition problem_chunk (reader_pages : list Page) (problem : Problem)
    : option (list Page) :=
  let start_page := start_page problem in
  let end_page := end_page problem in
  Py.for_ (Py.range (start_page - 1) end_page) (λ writer page_num,
    if bool_decide (page_num < Py.len reader_pages) then
      pg ← Py.getitem reader_pages page_num; Some (writer ++ [pg])
    else Some writer) [].

(** The body of [for problem in problems] in [process_workbook]. *)
Definition process_problem (reader_pages : list Page) (file_name doc_id : string)
    (problem : Problem) : M unit :=
  try_except
    (pdf_chunk <- lift (problem_chunk reader_pages problem) ;;
     qa <- try_except (transcribe_pdf pdf_chunk (problem_number problem))
                      (ret ("", "")) ;;
     let '(question, answer) := qa in
     analysis <- try_except (analyze_problem question answer) (ret "") ;;
     structured_analysis <- try_except (structure_analysis analysis) (ret "{}") ;;
     save_to_supabase question answer analysis structured_analysis
                      (problem_number problem) file_name doc_id)
    (save_to_supabase "" "" "" "{}" (problem_number problem) file_name doc_id).

Definition process_workbook (problems_file target_file_name : string) : M unit :=
  try_except
    (problems <- lift (load_problems E problems_file) ;;
     response <- Db.metadata_where E [File_name_is target_file_name] ;;
     match response with
     | [] => ret tt
     | doc :: _ =>
         let file_name := md_file_name doc.2 in
         try_except
           (pdf_data <- lift (download E "workbooks" file_name) ;;
            let reader_pages := pdf_data in
            for_each problems (process_problem reader_pages file_name doc.1))
           (ret tt)
     end)
    (ret tt).

Definition usage : string :=
  "使用方法: python3 transcribe_workbook.py target_file_name problem_numbers/sample.json".

(** What a run of the script leaves behind: the lines the entry point
    itself printed, the exit status and the database. *)
Record Exit := mkExit {
  printed : list string;
  exit_status : Z;
  final_world : World;
}.

(** [if __name__ == "__main__":] on [sys.argv]. *)
Definition main (argv : list string) (w : World) : Exit :=
  if bool_decide (length argv ≠ 3%nat) then mkExit [usage] 1 w
  else
    match argv !! 1%nat, argv !! 2%nat with
    | Some target_file_name, Some problems_file =>
        mkExit [] 0 (process_workbook problems_file target_file_name w).2
    | _, _ => mkExit [] 1 w
    end.

End script.
End Workbook.

(** * number_huriwake.py *)

Module NumberHuriwake.
Section script.
Context {Page : Type} (E : Env Page).

(** The random generator and the one database call [Call] does not list:
    [getrandbits k] is the raw value behind the [k]-th draw of a run, and
    [update_raises doc_id n] tells whether writing [n] to the document
    raises. *)
Context (getrandbits : nat → Z) (update_raises : string → Z → bool).

(** [random.randint(a, b)]: an integer N with a <= N <= b. *)
Definition randint (a b : Z) (k : nat) : Z := a + getrandbits k `mod` (b - a + 1).

Definition set_random (random_number : Z) (md : Metadata) : Metadata :=
  mkMetadata (md_file_name md) (md_path md) (md_bucket md) (md_status md)
             (md_total_pages md) (Some random_number).

(** [document_metadata.document(id).update({'random': n})]; Firestore
    raises when the document does not exist. *)
Definition update_random (doc_id : string) (random_number : Z) : M unit := λ w,
  if update_raises doc_id random_number then (Raise, w)
  else match document_metadata w !! doc_id with
       | Some md =>
           (Return tt,
            mkWorld (<[doc_id := set_random random_number md]> (document_metadata w))
                    (document_transcriptions w) (workbook_transcriptions w)
                    (dispatched w))
       | None => (Raise, w)
       end.

(** [for doc in unprocessed_docs], [k] draws having been taken before. *)
Fixpoint assign_loop (unprocessed_docs : list (string * Metadata)) (k : nat) : M unit :=
  match unprocessed_docs with
  | [] => ret tt
  | doc :: docs =>
      let random_number := randint 1 6 k in
      update_random doc.1 random_number ;;;
      assign_loop docs (S k)
  end.

Definition assign_random_numbers : M unit :=
  try_except
    (unprocessed_docs <- Db.metadata_where E [Status_is "unprocessed"] ;;
     assign_loop unprocessed_docs 0)
    (ret tt).

End script.
End NumberHuriwake.

(** * Vocabulary of the specification *)

(** The page numbers already recorded for a document: the [page] of every
    transcription row that refers to it. *)
Definition recorded_pages (w : World) (document_id : string) : gset Z :=
  list_to_set
    (omap (λ tdoc : nat * Transcription,
             if bool_decide (t_document_id tdoc.2 = Some document_id)
             then t_page tdoc.2 else None)
          (map_to_list (document_transcriptions w))).

(** The transcription rows that refer to a document. *)
Definition rows_of (w : World) (document_id : string) : list (nat * Transcription) :=
  filter (λ tdoc, t_document_id tdoc.2 = Some document_id)
         (map_to_list (document_transcriptions w)).

(** The status of a document, if it has a metadata row. *)
Definition status_of (w : World) (document_id : string) : option string :=
  md_status <$> document_metadata w !! document_id.

(** The pages of a document handed to the transcription workers. *)
Definition dispatched_pages (w : World) (document_id : string) : list Z :=
  snd <$> filter (λ e, e.1 = document_id) (dispatched w).

(** ** Page groups as sets of pages *)

(** The 1-based page numbers a page group covers: [len(data)] pages from
    [page] on, and the pages [page_start .. page_end]. *)
Definition pages_of_group {Page} (g : PagePdf Page) : list Z :=
  seqZ (page g) (Py.len (data g)).

Definition pages_of_range {Page} (g : RangePdf Page) : list Z :=
  seqZ (page_start g) (page_end g - page_start g + 1).

(** The pages a problem of the workbook asks for, and those of them a
    document with [page_count] pages has. *)
Definition requested_pages (problem : Problem) : list Z :=
  seqZ (start_page problem) (end_page problem - start_page problem + 1).

Definition pages_of_problem (page_count : Z) (problem : Problem) : list Z :=
  filter (λ p, p ≤ page_count) (requested_pages problem).

(** The content of a list of 1-based pages of a document. *)
Definition content {Page} (pdf_data : list Page) (pages : list Z) : option (list Page) :=
  mapM (λ p, pdf_data !! Z.to_nat (p - 1)) pages.

(** Splitting is a partition of the requested pages: the groups share no
    page, together they are the requested pages, every page they hold is a
    page of the document, and pages come in ascending order. *)
Record partition_of (page_count : Z) (requested : list Z) (groups : list (list Z)) : Prop :=
  mkPartition {
    groups_disjoint : NoDup (concat groups);
    groups_cover : ∀ p, (∃ g, g ∈ groups ∧ p ∈ g) ↔ p ∈ requested;
    groups_in_document : ∀ g p, g ∈ groups → p ∈ g → 1 ≤ p ≤ page_count;
    groups_ascending : StronglySorted Z.lt (concat groups);
  }.

(** Every page 1..N of the document is recorded. *)
Definition complete (w : World) (document_id : string) (total_pages : Z) : Prop :=
  ∀ p, 1 ≤ p ≤ total_pages → p ∈ recorded_pages w document_id.

(** ** The life cycle of a document *)

(** The position of a status on the path
    unprocessed → processed → deleted → deleted_applied. *)
Definition status_rank (status : string) : option nat :=
  if String.eqb status "unprocessed" then Some 0%nat
  else if String.eqb status "processed" then Some 1%nat
  else if String.eqb status "deleted" then Some 2%nat
  else if String.eqb status "deleted_applied" then Some 3%nat
  else None.

(** A status advances when it stays what it is or moves forward on the path. *)
Definition status_advances (before after : string) : Prop :=
  before = after ∨
  ∃ m n, status_rank before = Some m ∧ status_rank after = Some n ∧ (m < n)%nat.

(** Every page of the document stored for [md] has been handed to the
    transcription workers. *)
Definition pages_dispatched {Page} (E : Env Page) (d : string) (md : Metadata)
    (w : World) : Prop :=
  ∃ pdf_data,
    download E firebase_bucket (md_path md) = Some pdf_data ∧
    ∀ p, 1 ≤ p ≤ Py.len pdf_data → (d, p) ∈ dispatched w.

(** How the metadata row of document [d] may change in the course of a
    first-pass run that ends in world [w]: only its status changes, and only
    from deleted to deleted_applied, or from unprocessed to processed with
    all pages dispatched. *)
Definition status_step {Page} (E : Env Page) (d : string) (md md' : Metadata)
    (w : World) : Prop :=
  md' = Db.set_status (md_status md') md ∧
  (md_status md' = md_status md ∨
   (md_status md = "deleted" ∧ md_status md' = "deleted_applied") ∨
   (md_status md = "unprocessed" ∧ md_status md' = "processed" ∧
    pages_dispatched E d md w)).

(** World [w'] is reached from [w] by such steps: the trace only grows, no
    metadata row appears or disappears, and every row took a [status_step]. *)
Definition evolves {Page} (E : Env Page) (w w' : World) : Prop :=
  (∀ e, e ∈ dispatched w → e ∈ dispatched w') ∧
  (∀ d, match document_metadata w !! d, document_metadata w' !! d with
        | Some md, Some md' => status_step E d md md' w'
        | None, None => True
        | _, _ => False
        end).

(** A computation keeps the relation when, whatever its outcome, the world
    it leaves is reached from the world it started in. *)
Definition keeps {Page} (E : Env Page) {A} (m : M A) : Prop :=
  ∀ w, evolves E w (m w).2.

(** ** The effect of the deletion sweep, in closed form *)

(** The transcription table without the rows that refer to one of [ids]. *)
Definition swept_table (ids : list string) (table : gmap nat Transcription)
    : gmap nat Transcription :=
  filter (λ tdoc, Forall (λ d, t_document_id tdoc.2 ≠ Some d) ids) table.

(** The metadata table with the status of every one of [ids] set. *)
Definition swept_metadata (status : string) (ids : list string)
    (metadata : gmap string Metadata) : gmap string Metadata :=
  foldl (λ metadata d, alter (Db.set_status status) d metadata) metadata ids.

(** The documents of a given status, as the queries list them. *)
Definition docs_with_status (status : string) (w : World) : list (string * Metadata) :=
  filter (λ doc, forallb (λ c, holds c doc.2) [Status_is status])
         (map_to_list (document_metadata w)).

(** The world after the sweep of the one-page script: the documents marked
    deleted first, then the documents that are unprocessed at that point. *)
Definition onepage_swept (w : World) : World :=
  let w1 := mkWorld (swept_metadata "deleted_applied" (docs_with_status "deleted" w).*1
                                    (document_metadata w))
                    (swept_table (docs_with_status "deleted" w).*1
                                 (document_transcriptions w))
                    (workbook_transcriptions w) (dispatched w) in
  mkWorld (document_metadata w1)
          (swept_table (docs_with_status "unprocessed" w1).*1 (document_transcriptions w1))
          (workbook_transcriptions w1) (dispatched w1).

(** The world after the sweep of the two Supabase scripts. *)
Definition supabase_swept (w : World) : World :=
  mkWorld (swept_metadata "deleted_applied" (docs_with_status "deleted" w).*1
                          (document_metadata w))
          (swept_table (docs_with_status "deleted" w).*1 (document_transcriptions w))
          (workbook_transcriptions w) (dispatched w).

(** ** The effect of a page batch, in closed form *)

(** Inserting rows one after the other, each under an id not in use. *)
Definition add_rows (rows : list Transcription) (table : gmap nat Transcription)
    : gmap nat Transcription :=
  foldl (λ table row, <[fresh (dom table) := row]> table) table rows.

(** The rows whose insertion does not raise. *)
Definition accepted {Page} (E : Env Page) (rows : list Transcription) : list Transcription :=
  filter (λ row, raises E (Add_transcription row) = false) rows.

(** What [transcribe_pdf] of the error-recovery script returns, as a
    function of the model's answer. *)
Definition recovery_transcription {Page} (E : Env Page) (pdf_data : list Page) : string :=
  match generate_content E pdf_data with
  | Some response =>
      match candidates response with
      | [] => ""
      | _ :: _ => if negb (Py.truthy (text response)) then "内容なし" else text response
      end
  | None => "内容なし"
  end.

(** What [transcribe_pdf] of the first-pass scripts returns. *)
Definition first_pass_transcription {Page} (E : Env Page) (pdf_data : list Page) : string :=
  match generate_content E pdf_data with
  | Some response =>
      match candidates response with
      | [] => ""
      | _ :: _ => if negb (Py.truthy (text response)) then "" else text response
      end
  | None => ""
  end.

(** The rows a Firestore page batch asks to save: one per page group with a
    non-empty transcription. *)
Definition batch_rows {Page} (transcribe : list Page → string)
    (file_name doc_id : string) (batch : list (PagePdf Page)) : list Transcription :=
  omap (λ pdf,
          let transcription := transcribe (data pdf) in
          if Py.truthy transcription
          then Some (mkTranscription transcription (Some (page pdf)) None None
                                     file_name (Some doc_id))
          else None) batch.

(** The rows the Supabase scripts ask to save: one per page group, whatever
    the transcription is. *)
Definition twopage_rows {Page} (E : Env Page) (file_name doc_id : string)
    (split_pdfs : list (PagePdf Page)) : list Transcription :=
  (λ pdf, mkTranscription (first_pass_transcription E (data pdf)) (Some (page pdf))
                          None None file_name (Some doc_id)) <$> split_pdfs.

Definition document_rows {Page} (E : Env Page) (file_name : string)
    (split_pdfs : list (RangePdf Page)) : list Transcription :=
  (λ pdf, mkTranscription (first_pass_transcription E (rdata pdf)) None
                          (Some (page_start pdf)) (Some (page_end pdf))
                          file_name None) <$> split_pdfs.

(** The world after a Firestore page batch. *)
Definition after_batch {Page} (E : Env Page) (transcribe : list Page → string)
    (file_name doc_id : string) (batch : list (PagePdf Page)) (w : World) : World :=
  mkWorld (document_metadata w)
          (add_rows (accepted E (batch_rows transcribe file_name doc_id batch))
                    (document_transcriptions w))
          (workbook_transcriptions w)
          (dispatched w ++ ((λ pdf, (doc_id, page pdf)) <$> batch)).

(** The documents of a given file name, as the workbook script's query
    lists them. *)
Definition docs_named (file_name : string) (w : World) : list (string * Metadata) :=
  filter (λ doc, forallb (λ c, holds c doc.2) [File_name_is file_name])
         (map_to_list (document_metadata w)).

(** ** The effect of the workbook script, in closed form *)

(** What [transcribe_pdf], [analyze_problem] and [structure_analysis] of the
    workbook script return, as functions of the model's answers. *)
Definition question_answer {Page} (E : Env Page) (pdf_chunk : list Page) : string * string :=
  match generate_question_answer E pdf_chunk with
  | Some (Some json_data) => json_data
  | _ => ("", "")
  end.

Definition analysis_of {Page} (E : Env Page) (question answer : string) : string :=
  default "" (generate_analysis E question answer).

Definition structure_of {Page} (E : Env Page) (analysis : string) : string :=
  match generate_structure E analysis with
  | Some (Some result) => result
  | _ => "{}"
  end.

(** The row the workbook script asks to save for one problem. *)
Definition workbook_row {Page} (E : Env Page) (reader_pages : list Page)
    (file_name doc_id : string) (problem : Problem) : WorkbookRow :=
  match Workbook.problem_chunk reader_pages problem with
  | Some pdf_chunk =>
      let qa := question_answer E pdf_chunk in
      let analysis := analysis_of E qa.1 qa.2 in
      mkWorkbookRow qa.1 qa.2 analysis (structure_of E analysis)
                    (problem_number problem) file_name doc_id
  | None => mkWorkbookRow "" "" "" "{}" (problem_number problem) file_name doc_id
  end.

(** Inserting workbook rows one after the other, each under an id not in
    use, and the rows whose insertion does not raise. *)
Definition add_workbook_rows (rows : list WorkbookRow) (table : gmap nat WorkbookRow)
    : gmap nat WorkbookRow :=
  foldl (λ table row, <[fresh (dom table) := row]> table) table rows.

Definition accepted_workbook {Page} (E : Env Page) (rows : list WorkbookRow)
    : list WorkbookRow :=
  filter (λ row, raises E (Add_workbook row) = false) rows.

(** * Concrete scenarios *)

Module Scenario.

(** An environment in which no call raises, every download is the same
    five-page document and the model answers with the page itself. *)
Definition five_pages : list string := ["p1"; "p2"; "p3"; "p4"; "p5"].

Definition echo (pdf : list string) : Env string :=
  mkEnv (λ _, false) (λ _ _, Some pdf)
        (λ data, Some (mkResponse ["candidate"] (String.concat "" data)))
        (λ _, None) (λ _, None) (λ _ _, None) (λ _, None).

(** As [echo], but listing the transcriptions of a document raises. *)
Definition lookup_down (pdf : list string) : Env string :=
  mkEnv (λ c, match c with Query_transcriptions _ => true | _ => false end)
        (λ _ _, Some pdf)
        (λ data, Some (mkResponse ["candidate"] (String.concat "" data)))
        (λ _, None) (λ _, None) (λ _ _, None) (λ _, None).

(** As [echo], but every call of the model raises. *)
Definition model_down (pdf : list string) : Env string :=
  mkEnv (λ _, false) (λ _ _, Some pdf) (λ _, None)
        (λ _, None) (λ _, None) (λ _ _, None) (λ _, None).

(** As [echo], but the model answers every call with a candidate whose
    text is empty. *)
Definition blank (pdf : list string) : Env string :=
  mkEnv (λ _, false) (λ _ _, Some pdf) (λ _, Some (mkResponse ["candidate"] ""))
        (λ _, None) (λ _, None) (λ _ _, None) (λ _, None).

Definition row (transcription : string) (page : Z) (doc_id : string) : Transcription :=
  mkTranscription transcription (Some page) None None "a.pdf" (Some doc_id).

(** A processed five-page document with records for pages 1, 3 and 4. *)
Definition gaps : World :=
  mkWorld {["A" := mkMetadata "a.pdf" "docs/a.pdf" "" "processed" (Some 5) (Some 6)]}
          (list_to_map [(0%nat, row "one" 1 "A"); (1%nat, row "three" 3 "A");
                        (2%nat, row "four" 4 "A")])
          ∅ [].

(** A one-page document that has just been uploaded. *)
Definition fresh_upload : World :=
  mkWorld {["B" := mkMetadata "b.pdf" "docs/b.pdf" "documents" "unprocessed" None None]}
          ∅ ∅ [].

(** A document marked deleted that still has a transcription, next to
    document A. *)
Definition deleted_with_rows : World :=
  mkWorld {["A" := mkMetadata "a.pdf" "docs/a.pdf" "" "processed" (Some 1) (Some 6);
            "D" := mkMetadata "d.pdf" "docs/d.pdf" "" "deleted" (Some 1) (Some 6)]}
          (list_to_map [(0%nat, row "one" 1 "A"); (1%nat, row "gone" 1 "D")])
          ∅ [].

(** A file name used twice: document A was deleted and swept, document B
    is a new upload under the same name. *)
Definition reupload : World :=
  mkWorld {["A" := mkMetadata "x.pdf" "docs/x.pdf" "documents" "deleted_applied" None None;
            "B" := mkMetadata "x.pdf" "docs/x.pdf" "documents" "unprocessed" None None]}
          ∅ ∅ [].

(** A three-page document that has just been uploaded. *)
Definition three_pages_uploaded : World :=
  mkWorld {["C" := mkMetadata "c.pdf" "docs/c.pdf" "" "unprocessed" None (Some 6)]}
          ∅ ∅ [].

(** A processed document whose metadata announces three pages while its
    PDF has two; nothing is recorded yet. *)
Definition short_pdf : World :=
  mkWorld {["A" := mkMetadata "a.pdf" "docs/a.pdf" "" "processed" (Some 3) (Some 6)]}
          ∅ ∅ [].

(** The user marks a document as deleted. *)
Definition mark_deleted (d : string) (w : World) : World :=
  mkWorld (alter (Db.set_status "deleted") d (document_metadata w))
          (document_transcriptions w) (workbook_transcriptions w) (dispatched w).

Definition doc_A : string * Metadata :=
  ("A", mkMetadata "a.pdf" "docs/a.pdf" "" "processed" (Some 5) (Some 6)).

End Scenario.

(** Scenarios for the workbook script: a three-page workbook and a problems
    file with two problems. *)
Module Workbooks.

Definition book : World :=
  mkWorld {["W" := mkMetadata "book.pdf" "" "workbooks" "processed" None None]} ∅ ∅ [].

Definition two_problems : list Problem := [mkProblem 1 1 2; mkProblem 2 3 3].

(** Every call of the model raises. *)
Definition model_down : Env string :=
  mkEnv (λ _, false) (λ _ _, Some ["p1"; "p2"; "p3"]) (λ _, None)
        (λ _, Some two_problems) (λ _, None) (λ _ _, None) (λ _, None).

(** The model answers every call. *)
Definition model_up : Env string :=
  mkEnv (λ _, false) (λ _ _, Some ["p1"; "p2"; "p3"]) (λ _, None)
        (λ _, Some two_problems)
        (λ chunk, Some (Some (String.concat "" chunk, "answer")))
        (λ question _, Some ("analysis of " +:+ question))
        (λ _, Some (Some "{}")).

(** The storage is down. *)
Definition storage_down : Env string :=
  mkEnv (λ _, false) (λ _ _, None) (λ _, None)
        (λ _, Some two_problems) (λ _, None) (λ _ _, None) (λ _, None).

End Workbooks.

(** Scenarios for the assignment of random numbers: two unprocessed
    documents, one of which has a number already, and a processed one. *)
Module Uploads.

Definition three_documents : World :=
  mkWorld {["A" := mkMetadata "a.pdf" "docs/a.pdf" "" "unprocessed" None (Some 2);
            "B" := mkMetadata "b.pdf" "docs/b.pdf" "" "unprocessed" None None;
            "P" := mkMetadata "p.pdf" "docs/p.pdf" "" "processed" (Some 3) (Some 4)]}
          ∅ ∅ [].

(** The raw values of the generator: the first draw gives 6, the second 1. *)
Definition getrandbits (k : nat) : Z :=
  match k with
  | O => 5
  | S O => 12
  | _ => 0
  end.

(** The second update of a run raises. *)
Definition second_update_raises (doc_id : string) (random_number : Z) : bool :=
  bool_decide (random_number = 1).

End Uploads.

(** Scenarios for a first-pass run: a processed document, an unprocessed
    document with the number of another script instance, and an unprocessed
    document with number 6; each has one row. *)
Module FirstPass.

Definition doc_A : Metadata :=
  mkMetadata "a.pdf" "docs/a.pdf" "documents" "processed" (Some 1) (Some 6).

Definition doc_C : Metadata :=
  mkMetadata "c.pdf" "docs/c.pdf" "documents" "unprocessed" None (Some 6).

Definition doc_E : Metadata :=
  mkMetadata "e.pdf" "docs/e.pdf" "documents" "unprocessed" None (Some 3).

Definition mixed : World :=
  mkWorld {["A" := doc_A; "C" := doc_C; "E" := doc_E]}
          (list_to_map [(0%nat, Scenario.row "one" 1 "A");
                        (1%nat, Scenario.row "stale" 1 "C");
                        (2%nat, Scenario.row "begun" 1 "E")])
          ∅ [].

End FirstPass.

(** As [Scenario.echo], but every update of a status raises. *)
Definition update_down (pdf : list string) : Env string :=
  mkEnv (λ c, match c with Update_status _ _ => true | _ => false end)
        (λ _ _, Some pdf)
        (λ data, Some (mkResponse ["candidate"] (String.concat "" data)))
        (λ _, None) (λ _, None) (λ _ _, None) (λ _, None).

(** As [Scenario.echo], but the model answers every call without a
    candidate. *)
Definition blocked (pdf : list string) : Env string :=
  mkEnv (λ _, false) (λ _ _, Some pdf) (λ _, Some (mkResponse [] ""))
        (λ _, None) (λ _, None) (λ _ _, None) (λ _, None).

(** * Basic facts about computations *)

Section monad_facts.
Context {A B : Type}.

Lemma bind_return (m : M A) (k : A → M B) w a w' :
  m w = (Return a, w') → bind m k w = k a w'.
Proof. intros H. unfold bind. by rewrite H. Qed.

Lemma bind_raise (m : M A) (k : A → M B) w w' :
  m w = (Raise, w') → bind m k w = (Raise, w').
Proof. intros H. unfold bind. by rewrite H. Qed.

Lemma try_return (m h : M A) w a w' :
  m w = (Return a, w') → try_except m h w = (Return a, w').
Proof. intros H. unfold try_except. by rewrite H. Qed.

Lemma try_raise (m h : M A) w w' :
  m w = (Raise, w') → try_except m h w = h w'.
Proof. intros H. unfold try_except. by rewrite H. Qed.
End monad_facts.

(** A handler that returns makes the whole block return. *)
Lemma try_except_total {A} (m : M A) (a : A) w :
  ∃ r w', try_except m (ret a) w = (Return r, w').
Proof.
  unfold try_except. destruct (m w) as [[r|] w']; [by exists r, w'|by exists a, w'].
Qed.

Lemma for_each_app {A} (l1 l2 : list A) (body : A → M unit) w :
  for_each (l1 ++ l2) body w = (for_each l1 body ;;; for_each l2 body) w.
Proof.
  revert w. induction l1 as [|x l1 IH]; intros w; simpl.
  - reflexivity.
  - unfold bind in *. destruct (body x w) as [[[]|] w1]; [|reflexivity].
    by rewrite IH.
Qed.

(** Loop invariant rule: when every iteration returns and keeps [I], so
    does the loop. *)
Lemma for_each_invariant {A} (I : World → Prop) (l : list A) (body : A → M unit) w :
  I w →
  (∀ x w1, x ∈ l → I w1 → ∃ w2, body x w1 = (Return tt, w2) ∧ I w2) →
  ∃ w', for_each l body w = (Return tt, w') ∧ I w'.
Proof.
  revert w. induction l as [|x l IH]; intros w HI Hbody; simpl.
  - by exists w.
  - destruct (Hbody x w (list_elem_of_here _ _) HI) as (w2 & Hx & HI2).
    destruct (IH w2 HI2) as (w' & Hl & HI').
    { intros y w1 Hy. apply Hbody. by right. }
    exists w'. split; [|done]. by rewrite (bind_return _ _ _ _ _ Hx).
Qed.

(** * Database calls that succeed or raise *)

Section db_facts.
Context {Page : Type} (E : Env Page).

Lemma call_ok c w : raises E c = false → Db.call E c w = (Return tt, w).
Proof. intros H. unfold Db.call. by rewrite H. Qed.

Lemma call_raises c w : raises E c = true → Db.call E c w = (Raise, w).
Proof. intros H. unfold Db.call. by rewrite H. Qed.

Lemma transcriptions_where_ok d w :
  raises E (Query_transcriptions d) = false →
  Db.transcriptions_where E d w =
    (Return (filter (λ tdoc, bool_decide (t_document_id tdoc.2 = Some d))
                    (map_to_list (document_transcriptions w))), w).
Proof.
  intros H. unfold Db.transcriptions_where.
  by rewrite (bind_return _ _ _ _ _ (call_ok _ _ H)).
Qed.

Lemma transcriptions_where_raises d w :
  raises E (Query_transcriptions d) = true →
  Db.transcriptions_where E d w = (Raise, w).
Proof.
  intros H. unfold Db.transcriptions_where.
  by rewrite (bind_raise _ _ _ _ (call_raises _ _ H)).
Qed.
End db_facts.

Lemma elem_of_recorded_pages w d p :
  p ∈ recorded_pages w d ↔
  ∃ id row, document_transcriptions w !! id = Some row ∧
            t_document_id row = Some d ∧ t_page row = Some p.
Proof.
  unfold recorded_pages. rewrite elem_of_list_to_set, list_elem_of_omap. split.
  - intros ([id row] & Hin & Hp). simpl in Hp. case_bool_decide; [|done].
    exists id, row. by rewrite <-elem_of_map_to_list.
  - intros (id & row & Hrow & Hd & Hp). exists (id, row). split.
    + by apply elem_of_map_to_list.
    + simpl. by rewrite bool_decide_eq_true_2.
Qed.

Lemma elem_of_existing_pages_gen (acc : gset Z) trans_docs p :
  p ∈ foldl (λ existing_pages (doc : nat * Transcription),
           match t_page doc.2 with
           | Some page_num =>
               if negb (page_num =? 0) then existing_pages ∪ {[page_num]}
               else existing_pages
           | None => existing_pages
           end) acc trans_docs ↔
  p ∈ acc ∨ (p ≠ 0 ∧ ∃ doc, doc ∈ trans_docs ∧ t_page doc.2 = Some p).
Proof.
  revert acc. induction trans_docs as [|doc l IH]; intros acc; simpl.
  - split; [by left|]. intros [?|(_ & doc & Hin & _)]; [done|]. by apply elem_of_nil in Hin.
  - rewrite IH. destruct (t_page doc.2) as [q|] eqn:Hq.
    + destruct (Z.eqb_spec q 0) as [->|Hq0]; simpl.
      * split.
        -- intros [?|(? & doc' & ? & ?)]; [by left|]. right. split; [done|].
           exists doc'. split; [by right|done].
        -- intros [?|(? & doc' & Hin & Hp)]; [by left|].
           apply elem_of_cons in Hin as [->|Hin]; [congruence|].
           right. split; [done|]. by exists doc'.
      * rewrite elem_of_union, elem_of_singleton. split.
        -- intros [[?| ->]|(? & doc' & ? & ?)]; [by left| |].
           ++ right. split; [done|]. exists doc. split; [by left|done].
           ++ right. split; [done|]. exists doc'. split; [by right|done].
        -- intros [?|(? & doc' & Hin & Hp)]; [by left; left|].
           apply elem_of_cons in Hin as [->|Hin].
           ++ left. right. congruence.
           ++ right. split; [done|]. by exists doc'.
    + split.
      * intros [?|(? & doc' & ? & ?)]; [by left|]. right. split; [done|].
        exists doc'. split; [by right|done].
      * intros [?|(? & doc' & Hin & Hp)]; [by left|].
        apply elem_of_cons in Hin as [->|Hin]; [congruence|].
        right. split; [done|]. by exists doc'.
Qed.

Lemma StronglySorted_le_lt (l : list Z) :
  StronglySorted Z.le l → NoDup l → StronglySorted Z.lt l.
Proof.
  induction 1 as [|x l Hl IH Hx]; intros Hnd; [constructor|].
  apply NoDup_cons in Hnd as [Hnin Hnd]. constructor; [by apply IH|].
  rewrite Forall_forall in Hx |- *. intros y Hy.
  specialize (Hx y Hy). assert (x ≠ y) by (intros ->; done). lia.
Qed.

Lemma StronglySorted_lt_NoDup (l : list Z) : StronglySorted Z.lt l → NoDup l.
Proof.
  induction 1 as [|x l Hl IH Hx]; [constructor|].
  apply NoDup_cons. split; [|done]. intros Hin.
  rewrite Forall_forall in Hx. specialize (Hx x Hin). lia.
Qed.

(** A strictly ascending list is determined by its elements. *)
Lemma StronglySorted_lt_unique (l1 l2 : list Z) :
  StronglySorted Z.lt l1 → StronglySorted Z.lt l2 →
  (∀ p, p ∈ l1 ↔ p ∈ l2) → l1 = l2.
Proof.
  intros H1 H2 Heq.
  apply (StronglySorted_unique_strong Z.lt); [|done|done|].
  - intros; lia.
  - apply NoDup_Permutation; auto using StronglySorted_lt_NoDup.
Qed.

Section missing_pages.
Context {Page : Type} (E : Env Page).

Lemma get_missing_pages_ok document_id total_pages w :
  raises E (Query_transcriptions document_id) = false →
  ∃ missing,
    ErrorPage6.get_missing_pages E document_id total_pages w = (Return missing, w) ∧
    StronglySorted Z.lt missing ∧
    (∀ p, p ∈ missing ↔ 1 ≤ p ≤ total_pages ∧ p ∉ recorded_pages w document_id).
Proof.
  intros Hok. unfold ErrorPage6.get_missing_pages.
  eexists. split; [|split].
  - erewrite try_return; [done|].
    erewrite bind_return; [|by apply transcriptions_where_ok]. done.
  - apply StronglySorted_le_lt.
    + apply StronglySorted_merge_sort; apply _.
    + rewrite merge_sort_Permutation. apply NoDup_elements.
  - intros p. rewrite merge_sort_Permutation, elem_of_elements, elem_of_difference.
    rewrite elem_of_list_to_set. unfold Py.range. rewrite elem_of_seqZ.
    rewrite elem_of_existing_pages_gen, elem_of_recorded_pages.
    split.
    + intros [Hp Hn]. split; [lia|]. intros (id & row & Hrow & Hd & Hpg).
      apply Hn. right. split; [lia|]. exists (id, row). split; [|done].
      apply list_elem_of_filter. split; [by apply bool_decide_pack|].
      by apply elem_of_map_to_list.
    + intros [Hp Hn]. split; [lia|]. intros [Hin|(_ & [id row] & Hin & Hpg)].
      * by apply not_elem_of_empty in Hin.
      * apply list_elem_of_filter in Hin as [Hd Hin]. apply bool_decide_unpack in Hd.
        apply Hn. exists id, row. by rewrite <-elem_of_map_to_list.
Qed.
End missing_pages.

(** * The entry point of the workbook script *)

(** C10: with an argument count other than two positional arguments the
    workbook entry point prints the usage line and exits with status 1;
    the database is left as it was, nothing is processed. *)
Theorem workbook_main_usage {Page} (E : Env Page) (prog : string) (args : list string) w :
  length args ≠ 2%nat →
  Workbook.main E (prog :: args) w = Workbook.mkExit [Workbook.usage] 1 w.
Proof.
  intros Hargs. unfold Workbook.main.
  rewrite bool_decide_eq_true_2; [done|]. simpl. lia.
Qed.

Lemma workbook_main_usage_witness :
  Workbook.main (mkEnv (Page:=string) (λ _, false) (λ _ _, None) (λ _, None)
                       (λ _, None) (λ _, None) (λ _ _, None) (λ _, None))
                ["transcribe_workbook.py"; "book.pdf"]
                (mkWorld ∅ ∅ ∅ [])
  = Workbook.mkExit [Workbook.usage] 1 (mkWorld ∅ ∅ ∅ []).
Proof. apply workbook_main_usage. simpl. lia. Defined.

(** * Page batches *)

Lemma world_eta w :
  mkWorld (document_metadata w) (document_transcriptions w)
          (workbook_transcriptions w) (dispatched w) = w.
Proof. by destruct w. Qed.

Lemma add_rows_app rows1 rows2 table :
  add_rows (rows1 ++ rows2) table = add_rows rows2 (add_rows rows1 table).
Proof. unfold add_rows. by rewrite foldl_app. Qed.

Lemma accepted_app {Page} (E : Env Page) rows1 rows2 :
  accepted E (rows1 ++ rows2) = accepted E rows1 ++ accepted E rows2.
Proof. unfold accepted. by rewrite filter_app. Qed.

Lemma batch_rows_app {Page} (f : list Page → string) fn d b1 b2 :
  batch_rows f fn d (b1 ++ b2) = batch_rows f fn d b1 ++ batch_rows f fn d b2.
Proof. unfold batch_rows. by rewrite omap_app. Qed.

Lemma batch_rows_cons {Page} (f : list Page → string) fn d pdf b :
  batch_rows f fn d (pdf :: b) =
    (if Py.truthy (f (data pdf))
     then [mkTranscription (f (data pdf)) (Some (page pdf)) None None fn (Some d)]
     else []) ++ batch_rows f fn d b.
Proof. unfold batch_rows. simpl. by destruct (Py.truthy _). Qed.

Lemma after_batch_nil {Page} (E : Env Page) f fn d w : after_batch E f fn d [] w = w.
Proof. unfold after_batch. simpl. rewrite app_nil_r. apply world_eta. Qed.

Lemma after_batch_app {Page} (E : Env Page) f fn d b1 b2 w :
  after_batch E f fn d (b1 ++ b2) w = after_batch E f fn d b2 (after_batch E f fn d b1 w).
Proof.
  unfold after_batch. simpl.
  by rewrite batch_rows_app, accepted_app, add_rows_app, fmap_app, app_assoc.
Qed.

Section batch.
Context {Page : Type} (E : Env Page).

Lemma add_transcription_ok row w :
  raises E (Add_transcription row) = false →
  Db.add_transcription E row w =
    (Return tt, mkWorld (document_metadata w)
                        (add_rows [row] (document_transcriptions w))
                        (workbook_transcriptions w) (dispatched w)).
Proof.
  intros H. unfold Db.add_transcription.
  by rewrite (bind_return _ _ _ _ _ (call_ok _ _ _ H)).
Qed.

Lemma add_transcription_raises row w :
  raises E (Add_transcription row) = true →
  Db.add_transcription E row w = (Raise, w).
Proof.
  intros H. unfold Db.add_transcription.
  by rewrite (bind_raise _ _ _ _ (call_raises _ _ _ H)).
Qed.

(** Saving one row never raises; the row is stored iff the insertion
    does not raise. *)
Lemma save_row row w :
  try_except (Db.add_transcription E row) (ret tt) w =
    (Return tt, mkWorld (document_metadata w)
                        (add_rows (accepted E [row]) (document_transcriptions w))
                        (workbook_transcriptions w) (dispatched w)).
Proof.
  unfold accepted. destruct (raises E (Add_transcription row)) eqn:Hr.
  - rewrite (try_raise _ _ _ _ (add_transcription_raises _ _ Hr)).
    rewrite filter_cons_False by (rewrite Hr; done).
    unfold ret. simpl. by rewrite world_eta.
  - rewrite (try_return _ _ _ _ _ (add_transcription_ok _ _ Hr)).
    by rewrite filter_cons_True.
Qed.

Variable transcribe_pdf : list Page → Z → M string.
Variable transcribe : list Page → string.
Hypothesis transcribe_pdf_returns :
  ∀ pdf_data page w, transcribe_pdf pdf_data page w = (Return (transcribe pdf_data), w).

Lemma submit_all doc_id (batch : list (PagePdf Page)) w :
  map_m (λ pdf, future <- Db.submit transcribe_pdf doc_id pdf ;; ret (future, pdf)) batch w =
    (Return ((λ pdf, (Return (transcribe (data pdf)), pdf)) <$> batch),
     mkWorld (document_metadata w) (document_transcriptions w)
             (workbook_transcriptions w)
             (dispatched w ++ ((λ pdf, (doc_id, page pdf)) <$> batch))).
Proof.
  revert w. induction batch as [|pdf batch IH]; intros w; simpl.
  - unfold ret. by rewrite app_nil_r, world_eta.
  - unfold bind at 1. unfold bind at 1. unfold Db.submit at 1.
    rewrite transcribe_pdf_returns. unfold ret at 1.
    unfold bind. rewrite IH. unfold ret. simpl. by rewrite <-app_assoc.
Qed.

Lemma save_all file_name doc_id (batch : list (PagePdf Page)) w :
  for_each ((λ pdf, (Return (transcribe (data pdf)), pdf)) <$> batch)
    (λ '(future, pdf),
       transcription <- Db.result future ;;
       if Py.truthy transcription
       then try_except
              (Db.add_transcription E
                 (mkTranscription transcription (Some (page pdf)) None None
                                  file_name (Some doc_id)))
              (ret tt)
       else ret tt) w =
    (Return tt,
     mkWorld (document_metadata w)
             (add_rows (accepted E (batch_rows transcribe file_name doc_id batch))
                       (document_transcriptions w))
             (workbook_transcriptions w) (dispatched w)).
Proof.
  revert w. induction batch as [|pdf batch IH]; intros w.
  - simpl. unfold ret. by rewrite world_eta.
  - rewrite batch_rows_cons, fmap_cons. cbn [for_each]. unfold bind, Db.result.
    destruct (Py.truthy (transcribe (data pdf))) eqn:Ht.
    + rewrite save_row, IH. cbn [document_metadata document_transcriptions
        workbook_transcriptions dispatched].
      by rewrite accepted_app, add_rows_app.
    + unfold ret at 1. by rewrite IH.
Qed.

Lemma page_batch_generic file_name doc_id (batch : list (PagePdf Page)) w :
  (futures <- map_m (λ pdf, future <- Db.submit transcribe_pdf doc_id pdf ;; ret (future, pdf))
                    batch ;;
   for_each futures (λ '(future, pdf),
     transcription <- Db.result future ;;
     if Py.truthy transcription
     then try_except
            (Db.add_transcription E
               (mkTranscription transcription (Some (page pdf)) None None
                                file_name (Some doc_id)))
            (ret tt)
     else ret tt)) w =
  (Return tt, after_batch E transcribe file_name doc_id batch w).
Proof.
  erewrite bind_return; [|apply submit_all]. by rewrite save_all.
Qed.

End batch.

(** ** The transcription operation never raises *)

Section transcribe_pdf.
Context {Page : Type} (E : Env Page).

Lemma error_transcribe_pdf_returns pdf_data page w :
  ErrorPage6.transcribe_pdf E pdf_data page w = (Return (recovery_transcription E pdf_data), w).
Proof.
  unfold ErrorPage6.transcribe_pdf, recovery_transcription, try_except, bind, lift.
  destruct (generate_content E pdf_data) as [[[|c cs] t]|]; simpl; try done.
  by destruct (Py.truthy t).
Qed.

Lemma onepage_transcribe_pdf_returns pdf_data page w :
  OnePage6.transcribe_pdf E pdf_data page w = (Return (first_pass_transcription E pdf_data), w).
Proof.
  unfold OnePage6.transcribe_pdf, first_pass_transcription, try_except, bind, lift.
  destruct (generate_content E pdf_data) as [[[|c cs] t]|]; simpl; try done.
  by destruct (Py.truthy t).
Qed.

Lemma twopage_transcribe_pdf_returns pdf_data page w :
  TwoPage.transcribe_pdf E pdf_data page w = (Return (first_pass_transcription E pdf_data), w).
Proof.
  unfold TwoPage.transcribe_pdf, first_pass_transcription, try_except, bind, lift.
  destruct (generate_content E pdf_data) as [[[|c cs] t]|]; simpl; try done.
  by destruct (Py.truthy t).
Qed.

Lemma document_transcribe_pdf_returns pdf_data page_start page_end w :
  Document.transcribe_pdf E pdf_data page_start page_end w =
    (Return (first_pass_transcription E pdf_data), w).
Proof.
  unfold Document.transcribe_pdf, first_pass_transcription, try_except, bind, lift.
  destruct (generate_content E pdf_data) as [[[|c cs] t]|]; simpl; try done.
  by destruct (Py.truthy t).
Qed.

Lemma error_page_batch batch file_name doc_id w :
  ErrorPage6.process_page_batch E batch file_name doc_id w =
    (Return tt, after_batch E (recovery_transcription E) file_name doc_id batch w).
Proof. apply page_batch_generic, error_transcribe_pdf_returns. Qed.

Lemma onepage_page_batch batch file_name doc_id w :
  OnePage6.process_page_batch E batch file_name doc_id w =
    (Return tt, after_batch E (first_pass_transcription E) file_name doc_id batch w).
Proof. apply page_batch_generic, onepage_transcribe_pdf_returns. Qed.

End transcribe_pdf.

(** * Batching, page extraction and the error-recovery loop body *)

Lemma chunks_concat {A} (sz c : nat) (l : list A) :
  (length l ≤ c * sz)%nat →
  concat ((λ k : nat, take sz (drop (k * sz) l)) <$> seq 0 c) = l.
Proof.
  revert l. induction c as [|c IH]; intros l Hlen.
  - simpl in *. destruct l; [done|simpl in *; lia].
  - simpl seq. rewrite fmap_cons. simpl concat. rewrite <-fmap_S_seq, <-list_fmap_compose.
    change (0 * sz)%nat with 0%nat. rewrite drop_0.
    transitivity (take sz l ++ drop sz l); [|apply take_drop]. f_equal.
    etrans; [|apply (IH (drop sz l)); rewrite length_drop; lia].
    f_equal. apply list_fmap_ext. intros _ k _. simpl.
    by rewrite drop_drop.
Qed.

Lemma batches_concat {A} (l : list A) (size : Z) :
  0 < size → concat (batches l size) = l.
Proof.
  intros Hsize. unfold batches, Py.range_step, Py.len.
  rewrite <-list_fmap_compose.
  set (c := (Z.of_nat (length l) - 0 + size - 1) `div` size).
  assert (0 ≤ c) as Hc.
  { apply Z.div_pos; lia. }
  assert (Z.of_nat (length l) ≤ c * size) as Hlen.
  { subst c. pose proof (Z.mul_succ_div_gt (Z.of_nat (length l) - 0 + size - 1) size Hsize).
    nia. }
  replace (seqZ 0 c) with (Z.of_nat <$> seq 0 (Z.to_nat c)).
  2:{ unfold seqZ. apply list_fmap_ext. intros; simpl; lia. }
  rewrite <-list_fmap_compose.
  etrans; [|apply (chunks_concat (Z.to_nat size) (Z.to_nat c) l); nia].
  f_equal. apply list_fmap_ext. intros _ k _. simpl. unfold Py.slice.
  f_equal; [lia|]. f_equal. nia.
Qed.

Lemma lift_some {A} (o : option A) a w : o = Some a → lift o w = (Return a, w).
Proof. by intros ->. Qed.

Lemma lift_none {A} (o : option A) w : o = None → lift o w = (Raise, w).
Proof. by intros ->. Qed.

Section error_recovery_doc.
Context {Page : Type} (E : Env Page).

Lemma for_each_batches (body : list (PagePdf Page) → M unit) f fn d bs w :
  (∀ batch w, body batch w = (Return tt, after_batch E f fn d batch w)) →
  for_each bs body w = (Return tt, after_batch E f fn d (concat bs) w).
Proof.
  intros Hbody. revert w. induction bs as [|b bs IH]; intros w.
  - simpl. unfold ret. by rewrite after_batch_nil.
  - cbn [for_each concat]. erewrite bind_return; [|apply Hbody].
    by rewrite IH, after_batch_app.
Qed.

Lemma extract_loop (pdf_data : list Page) (missing_pages : list Z) acc :
  Forall (λ p, 1 ≤ p) missing_pages →
  ∃ groups,
    Py.for_ missing_pages (λ split_pdfs page_num,
      if bool_decide (page_num ≤ Py.len pdf_data) then
        pg ← Py.getitem pdf_data (page_num - 1);
        Some (split_pdfs ++ [mkPagePdf ("page_" +:+ pretty page_num) [pg] page_num])
      else Some split_pdfs) acc = Some (acc ++ groups) ∧
    page <$> groups = filter (λ p, p ≤ Py.len pdf_data) missing_pages ∧
    Forall (λ g, name g = "page_" +:+ pretty (page g) ∧
                 ∃ pg, pdf_data !! Z.to_nat (page g - 1) = Some pg ∧ data g = [pg])
           groups.
Proof.
  intros Hpos. revert acc. induction Hpos as [|p l Hp Hl IH]; intros acc.
  - exists []. simpl. by rewrite app_nil_r.
  - cbn [Py.for_]. case_bool_decide as Hle.
    + destruct (pdf_data !! Z.to_nat (p - 1)) as [pg|] eqn:Hpg.
      2:{ apply lookup_ge_None in Hpg. unfold Py.len in Hle. lia. }
      assert (Py.getitem pdf_data (p - 1) = Some pg) as ->.
      { unfold Py.getitem. by rewrite bool_decide_eq_true_2 by lia. }
      simpl. destruct (IH (acc ++ [mkPagePdf ("page_" +:+ pretty p) [pg] p]))
        as (groups & Hrun & Hpages & Hgroups).
      exists (mkPagePdf ("page_" +:+ pretty p) [pg] p :: groups).
      split; [by rewrite Hrun, <-app_assoc|]. split.
      * rewrite filter_cons_True by done. rewrite fmap_cons. by f_equal.
      * constructor; [|done]. simpl. split; [done|]. by exists pg.
    + simpl. destruct (IH acc) as (groups & Hrun & Hpages & Hgroups).
      exists groups. split; [done|]. split; [|done].
      by rewrite filter_cons_False.
Qed.

(** The page groups extracted for a list of positive page numbers: one
    singleton group for every requested page the document has, in the
    order of the request. *)
Lemma extract_positive_pages (pdf_data : list Page) (missing_pages : list Z) :
  Forall (λ p, 1 ≤ p) missing_pages →
  ∃ split_pdfs,
    ErrorPage6.extract_specific_pages_from_pdf pdf_data missing_pages = Some split_pdfs ∧
    page <$> split_pdfs = filter (λ p, p ≤ Py.len pdf_data) missing_pages ∧
    Forall (λ g, name g = "page_" +:+ pretty (page g) ∧
                 ∃ pg, pdf_data !! Z.to_nat (page g - 1) = Some pg ∧ data g = [pg])
           split_pdfs.
Proof.
  intros Hpos. destruct (extract_loop pdf_data missing_pages [] Hpos)
    as (groups & Hrun & Hpages & Hgroups).
  by exists groups.
Qed.

Lemma get_missing_pages_raises document_id total_pages w :
  raises E (Query_transcriptions document_id) = true →
  ErrorPage6.get_missing_pages E document_id total_pages w = (Return [], w).
Proof.
  intros Hr. unfold ErrorPage6.get_missing_pages.
  erewrite try_raise; [done|].
  erewrite bind_raise; [done|]. by apply transcriptions_where_raises.
Qed.

(** The missing-page computation always returns, leaves the world as it
    is, and returns positive page numbers only. *)
Lemma get_missing_pages_total document_id total_pages w :
  ∃ missing,
    ErrorPage6.get_missing_pages E document_id total_pages w = (Return missing, w) ∧
    Forall (λ p, 1 ≤ p) missing.
Proof.
  destruct (raises E (Query_transcriptions document_id)) eqn:Hr.
  - exists []. split; [by apply get_missing_pages_raises|constructor].
  - destruct (get_missing_pages_ok E document_id total_pages w Hr)
      as (missing & Hrun & _ & Hin).
    exists missing. split; [done|]. apply Forall_forall. intros p Hp.
    apply Hin in Hp. lia.
Qed.

(** What the loop body does once the missing pages are known and the
    document is downloaded. *)
Lemma transcribe_missing_run file_name doc_id file_path missing_pages pdf_data w :
  Forall (λ p, 1 ≤ p) missing_pages →
  download E firebase_bucket file_path = Some pdf_data →
  ∃ split_pdfs,
    ErrorPage6.extract_specific_pages_from_pdf pdf_data missing_pages = Some split_pdfs ∧
    try_except
      (pdf_data <- lift (download E firebase_bucket file_path) ;;
       split_pdfs <- lift (ErrorPage6.extract_specific_pages_from_pdf pdf_data missing_pages) ;;
       for_each (batches split_pdfs 100) (λ batch,
         ErrorPage6.process_page_batch E batch file_name doc_id))
      (ret tt) w =
    (Return tt, after_batch E (recovery_transcription E) file_name doc_id split_pdfs w).
Proof.
  intros Hpos Hdl.
  destruct (extract_positive_pages pdf_data missing_pages Hpos)
    as (split_pdfs & Hex & _).
  exists split_pdfs. split; [done|].
  erewrite try_return; [done|].
  erewrite bind_return; [|by apply lift_some].
  erewrite bind_return; [|by apply lift_some].
  rewrite (for_each_batches _ (recovery_transcription E) file_name doc_id).
  - by rewrite batches_concat.
  - intros. apply error_page_batch.
Qed.

(** The loop body of the error-recovery run always returns, and its
    effect is that of one page batch for the document. *)
Lemma error_process_doc_total doc w :
  ∃ split_pdfs,
    ErrorPage6.process_doc E doc w =
      (Return tt, after_batch E (recovery_transcription E)
                              (md_file_name doc.2) doc.1 split_pdfs w).
Proof.
  unfold ErrorPage6.process_doc.
  destruct (Py.truthy_int (md_total_pages doc.2)); simpl.
  2:{ exists []. unfold ret. by rewrite after_batch_nil. }
  destruct (get_missing_pages_total doc.1 (default 0 (md_total_pages doc.2)) w)
    as (missing & Hmiss & Hpos).
  erewrite bind_return; [|done].
  destruct missing as [|p missing].
  { exists []. unfold ret. by rewrite after_batch_nil. }
  destruct (download E firebase_bucket (md_path doc.2)) as [pdf_data|] eqn:Hdl.
  - destruct (transcribe_missing_run (md_file_name doc.2) doc.1 _ _ _ w Hpos Hdl)
      as (split_pdfs & _ & Hrun).
    rewrite Hdl in Hrun. by exists split_pdfs.
  - exists []. erewrite try_raise.
    2:{ erewrite bind_raise; [done|]. by apply lift_none. }
    unfold ret. by rewrite after_batch_nil.
Qed.

(** The loop body on a document with a page count, when the lookup and
    the download succeed. *)
Lemma error_process_doc_run doc total_pages pdf_data w :
  md_total_pages doc.2 = Some total_pages →
  total_pages ≠ 0 →
  raises E (Query_transcriptions doc.1) = false →
  download E firebase_bucket (md_path doc.2) = Some pdf_data →
  ∃ missing split_pdfs,
    ErrorPage6.get_missing_pages E doc.1 total_pages w = (Return missing, w) ∧
    ErrorPage6.extract_specific_pages_from_pdf pdf_data missing = Some split_pdfs ∧
    ErrorPage6.process_doc E doc w =
      (Return tt, after_batch E (recovery_transcription E)
                              (md_file_name doc.2) doc.1 split_pdfs w).
Proof.
  intros Htotal Hnz Hok Hdl.
  destruct (get_missing_pages_total doc.1 total_pages w) as (missing & Hmiss & Hpos).
  destruct (transcribe_missing_run (md_file_name doc.2) doc.1 _ _ _ w Hpos Hdl)
    as (split_pdfs & Hex & Hrun).
  exists missing, split_pdfs. split; [done|]. split; [done|].
  unfold ErrorPage6.process_doc. rewrite Htotal. simpl.
  rewrite (proj2 (Z.eqb_neq _ _) Hnz). simpl.
  erewrite bind_return; [|done].
  destruct missing as [|p missing]; [|done].
  simpl in Hex. injection Hex as <-. unfold ret. by rewrite after_batch_nil.
Qed.
End error_recovery_doc.

(** * The missing-page computation *)

Lemma filter_all {A} (P : A → Prop) `{∀ x, Decision (P x)} (l : list A) :
  Forall P l → filter P l = l.
Proof.
  induction 1 as [|x l Hx Hl IH]; [done|]. by rewrite filter_cons_True, IH.
Qed.

(** The end-to-end scenario of the specification: five pages, records for
    pages 1, 3 and 4; the run dispatches pages 2 and 5, inserts two records
    and leaves the status as it was. *)
Example error_recovery_scenario :
  let w' := (ErrorPage6.process_error_pages (Scenario.echo Scenario.five_pages)
                                            Scenario.gaps).2 in
  recorded_pages Scenario.gaps "A" = {[1; 3; 4]} ∧
  dispatched w' = [("A", 2); ("A", 5)] ∧
  size (document_transcriptions w') = 5%nat ∧
  recorded_pages w' "A" = {[1; 2; 3; 4; 5]} ∧
  status_of w' "A" = Some "processed".
Proof.
  repeat split; try (vm_compute; reflexivity);
    apply bool_decide_unpack; vm_compute; exact I.
Qed.

(** C9: when listing the recorded pages of a document raises, the
    missing-page computation returns the empty list and the loop body of the
    error-recovery run skips the document, leaving the world as it is; a
    document all of whose pages are recorded gets the very same results. *)
Theorem lookup_failure_looks_like_completion {Page} (E : Env Page)
    (doc : string * Metadata) (total_pages : Z) (w : World) :
  raises E (Query_transcriptions doc.1) = true →
  ErrorPage6.get_missing_pages E doc.1 total_pages w = (Return [], w) ∧
  ErrorPage6.process_doc E doc w = (Return tt, w) ∧
  (∀ E' : Env Page,
     raises E' (Query_transcriptions doc.1) = false →
     (∀ p, 1 ≤ p ≤ total_pages → p ∈ recorded_pages w doc.1) →
     md_total_pages doc.2 = Some total_pages →
     ErrorPage6.get_missing_pages E' doc.1 total_pages w =
       ErrorPage6.get_missing_pages E doc.1 total_pages w ∧
     ErrorPage6.process_doc E' doc w = ErrorPage6.process_doc E doc w).
Proof.
  intros Hr.
  assert (∀ n, ErrorPage6.get_missing_pages E doc.1 n w = (Return [], w)) as Hmiss.
  { intros n. by apply get_missing_pages_raises. }
  assert (ErrorPage6.process_doc E doc w = (Return tt, w)) as Hdoc.
  { unfold ErrorPage6.process_doc. destruct (Py.truthy_int _); simpl; [|done].
    by rewrite (bind_return _ _ _ _ _ (Hmiss _)). }
  split; [done|]. split; [done|].
  intros E' Hok Hall Htotal.
  destruct (get_missing_pages_ok E' doc.1 total_pages w Hok) as (missing & Hrun & _ & Hin).
  assert (missing = []) as ->.
  { destruct missing as [|p ?]; [done|].
    destruct (proj1 (Hin p)) as [Hp Hn]; [left|]. destruct Hn. by apply Hall. }
  rewrite Hmiss, Hdoc. split; [done|].
  unfold ErrorPage6.process_doc. rewrite Htotal.
  destruct (Py.truthy_int _); simpl; [|done].
  by rewrite (bind_return _ _ _ _ _ Hrun).
Qed.

Lemma lookup_failure_witness :
  raises (Scenario.lookup_down Scenario.five_pages)
         (Query_transcriptions Scenario.doc_A.1) = true ∧
  ErrorPage6.get_missing_pages (Scenario.lookup_down Scenario.five_pages)
                               Scenario.doc_A.1 5 Scenario.gaps
    = (Return [], Scenario.gaps) ∧
  ErrorPage6.process_doc (Scenario.lookup_down Scenario.five_pages)
                         Scenario.doc_A Scenario.gaps
    = (Return tt, Scenario.gaps).
Proof.
  split; [reflexivity|].
  destruct (lookup_failure_looks_like_completion
              (Scenario.lookup_down Scenario.five_pages) Scenario.doc_A 5 Scenario.gaps)
    as (H1 & H2 & _); [reflexivity|].
  by split.
Defined.

(** ** Rows inserted under fresh ids *)

Lemma add_rows_cons row rows table :
  add_rows (row :: rows) table = add_rows rows (<[fresh (dom table) := row]> table).
Proof. done. Qed.

Lemma fresh_id_unused (table : gmap nat Transcription) : table !! fresh (dom table) = None.
Proof. apply not_elem_of_dom, is_fresh. Qed.

Lemma add_rows_lookup_old rows table k r :
  table !! k = Some r → add_rows rows table !! k = Some r.
Proof.
  revert table. induction rows as [|row rows IH]; intros table Hk; [done|].
  rewrite add_rows_cons. apply IH. rewrite lookup_insert_ne; [done|].
  intros <-. by rewrite fresh_id_unused in Hk.
Qed.

Lemma add_rows_elem rows table row :
  row ∈ rows → ∃ k, add_rows rows table !! k = Some row.
Proof.
  revert table. induction rows as [|row' rows IH]; intros table Hin.
  - by apply elem_of_nil in Hin.
  - rewrite add_rows_cons. apply elem_of_cons in Hin as [->|Hin].
    + exists (fresh (dom table)). apply add_rows_lookup_old, lookup_insert_eq.
    + by apply IH.
Qed.

Lemma add_rows_lookup_inv rows table k r :
  add_rows rows table !! k = Some r → table !! k = Some r ∨ r ∈ rows.
Proof.
  revert table. induction rows as [|row rows IH]; intros table Hk; [by left|].
  rewrite add_rows_cons in Hk. apply IH in Hk as [Hk|Hin]; [|right; by right].
  destruct (decide (fresh (dom table) = k)) as [<-|Hne].
  - rewrite lookup_insert_eq in Hk. injection Hk as ->. right. by left.
  - rewrite lookup_insert_ne in Hk by done. by left.
Qed.

Lemma elem_of_accepted {Page} (E : Env Page) rows row :
  row ∈ accepted E rows ↔ raises E (Add_transcription row) = false ∧ row ∈ rows.
Proof.
  unfold accepted.
  apply (list_elem_of_filter (λ row, raises E (Add_transcription row) = false)).
Qed.

Lemma elem_of_batch_rows {Page} (f : list Page → string) fn d batch row :
  row ∈ batch_rows f fn d batch ↔
  ∃ pdf, pdf ∈ batch ∧ Py.truthy (f (data pdf)) = true ∧
         row = mkTranscription (f (data pdf)) (Some (page pdf)) None None fn (Some d).
Proof.
  unfold batch_rows. rewrite list_elem_of_omap. split.
  - intros (pdf & Hin & Hrow). exists pdf. split; [done|].
    destruct (Py.truthy _); [|done]. split; [done|]. by injection Hrow as <-.
  - intros (pdf & Hin & Ht & ->). exists pdf. split; [done|]. by rewrite Ht.
Qed.

(** A page group with an empty transcription contributes no row. *)
Lemma batch_rows_skip {Page} (f : list Page → string) fn d b1 pdf b2 :
  f (data pdf) = "" →
  batch_rows f fn d (b1 ++ pdf :: b2) = batch_rows f fn d (b1 ++ b2).
Proof.
  intros Hempty. rewrite !batch_rows_app, batch_rows_cons, Hempty. done.
Qed.

(** The recorded pages after a page batch. *)
Lemma recorded_pages_after_batch {Page} (E : Env Page) f fn d batch w d' p :
  p ∈ recorded_pages (after_batch E f fn d batch w) d' ↔
  p ∈ recorded_pages w d' ∨
  (d' = d ∧ ∃ pdf, pdf ∈ batch ∧ page pdf = p ∧ Py.truthy (f (data pdf)) = true ∧
     raises E (Add_transcription
                 (mkTranscription (f (data pdf)) (Some p) None None fn (Some d))) = false).
Proof.
  rewrite !elem_of_recorded_pages. unfold after_batch. simpl. split.
  - intros (id & row & Hrow & Hd & Hp).
    apply add_rows_lookup_inv in Hrow as [Hold|Hnew].
    + left. by exists id, row.
    + right. apply elem_of_accepted in Hnew as [Hacc Hnew].
      apply elem_of_batch_rows in Hnew as (pdf & Hin & Ht & ->). simpl in *.
      injection Hd as <-. injection Hp as <-. split; [done|]. by exists pdf.
  - intros [(id & row & Hrow & Hd & Hp)|(-> & pdf & Hin & <- & Ht & Hacc)].
    + exists id, row. split; [|done]. by apply add_rows_lookup_old.
    + destruct (add_rows_elem
        (accepted E (batch_rows f fn d batch)) (document_transcriptions w)
        (mkTranscription (f (data pdf)) (Some (page pdf)) None None fn (Some d)))
        as (k & Hk).
      { apply elem_of_accepted. split; [done|]. apply elem_of_batch_rows. by exists pdf. }
      by exists k, (mkTranscription (f (data pdf)) (Some (page pdf)) None None fn (Some d)).
Qed.

(** ** The transcription loops of the Supabase scripts *)

Lemma accepted_cons {Page} (E : Env Page) row rows :
  accepted E (row :: rows) = accepted E [row] ++ accepted E rows.
Proof. apply (accepted_app E [row] rows). Qed.

Section supabase_loops.
Context {Page : Type} (E : Env Page).

Lemma twopage_save_all file_name doc_id (split_pdfs : list (PagePdf Page)) w :
  for_each split_pdfs (λ pdf,
    transcription <- TwoPage.transcribe_pdf E (data pdf) (page pdf) ;;
    TwoPage.save_to_supabase E transcription (page pdf) file_name doc_id) w =
  (Return tt,
   mkWorld (document_metadata w)
           (add_rows (accepted E (twopage_rows E file_name doc_id split_pdfs))
                     (document_transcriptions w))
           (workbook_transcriptions w) (dispatched w)).
Proof.
  revert w. induction split_pdfs as [|pdf l IH]; intros w.
  - simpl. unfold ret. by rewrite world_eta.
  - cbn [for_each]. unfold twopage_rows. rewrite fmap_cons.
    rewrite accepted_cons, add_rows_app.
    erewrite bind_return.
    2:{ erewrite bind_return; [|apply twopage_transcribe_pdf_returns]. apply save_row. }
    by rewrite IH.
Qed.

Lemma document_save_all file_name (split_pdfs : list (RangePdf Page)) w :
  for_each split_pdfs (λ pdf,
    transcription <- Document.transcribe_pdf E (rdata pdf) (page_start pdf) (page_end pdf) ;;
    Document.save_to_supabase E transcription (page_start pdf) (page_end pdf) file_name) w =
  (Return tt,
   mkWorld (document_metadata w)
           (add_rows (accepted E (document_rows E file_name split_pdfs))
                     (document_transcriptions w))
           (workbook_transcriptions w) (dispatched w)).
Proof.
  revert w. induction split_pdfs as [|pdf l IH]; intros w.
  - simpl. unfold ret. by rewrite world_eta.
  - cbn [for_each]. unfold document_rows. rewrite fmap_cons.
    rewrite accepted_cons, add_rows_app.
    erewrite bind_return.
    2:{ erewrite bind_return; [|apply document_transcribe_pdf_returns]. apply save_row. }
    by rewrite IH.
Qed.

(** The loop body of the two-page script on a document that downloads and
    splits: one row per page group, then the status update by file name. *)
Lemma twopage_process_doc_run doc pdf_data split_pdfs w :
  download E (md_bucket doc.2) (md_file_name doc.2) = Some pdf_data →
  TwoPage.split_pdf_in_memory pdf_data = Some split_pdfs →
  raises E (Update_status (md_file_name doc.2) "processed") = false →
  TwoPage.process_doc E doc w =
    (Return tt,
     mkWorld ((λ md, if bool_decide (md_file_name md = md_file_name doc.2)
                     then Db.set_status "processed" md else md) <$> document_metadata w)
             (add_rows (accepted E (twopage_rows E (md_file_name doc.2) doc.1 split_pdfs))
                       (document_transcriptions w))
             (workbook_transcriptions w) (dispatched w)).
Proof.
  intros Hdl Hsplit Hup. unfold TwoPage.process_doc.
  erewrite try_return; [done|].
  erewrite bind_return; [|by apply lift_some].
  erewrite bind_return; [|by apply lift_some].
  erewrite bind_return; [|apply twopage_save_all].
  unfold Db.update_status_eq_file_name.
  by erewrite bind_return; [|by apply call_ok].
Qed.

Lemma document_process_doc_run doc pdf_data split_pdfs w :
  download E "documents" (md_file_name doc.2) = Some pdf_data →
  Document.split_pdf_in_memory pdf_data = Some split_pdfs →
  raises E (Update_status (md_file_name doc.2) "processed") = false →
  Document.process_doc E doc w =
    (Return tt,
     mkWorld ((λ md, if bool_decide (md_file_name md = md_file_name doc.2)
                     then Db.set_status "processed" md else md) <$> document_metadata w)
             (add_rows (accepted E (document_rows E (md_file_name doc.2) split_pdfs))
                       (document_transcriptions w))
             (workbook_transcriptions w) (dispatched w)).
Proof.
  intros Hdl Hsplit Hup. unfold Document.process_doc.
  erewrite try_return; [done|].
  erewrite bind_return; [|by apply lift_some].
  erewrite bind_return; [|by apply lift_some].
  erewrite bind_return; [|apply document_save_all].
  unfold Db.update_status_eq_file_name.
  by erewrite bind_return; [|by apply call_ok].
Qed.

End supabase_loops.

(** * Empty answers and exceptions of the model *)

(** A recorded page is never computed as missing. *)
Lemma recorded_page_not_missing {Page} (E : Env Page) d total_pages w p missing w' :
  p ∈ recorded_pages w d →
  ErrorPage6.get_missing_pages E d total_pages w = (Return missing, w') →
  p ∉ missing.
Proof.
  intros Hrec Hrun. destruct (raises E (Query_transcriptions d)) eqn:Hr.
  - rewrite get_missing_pages_raises in Hrun by done. injection Hrun as <- _.
    apply not_elem_of_nil.
  - destruct (get_missing_pages_ok E d total_pages w Hr) as (missing' & Hrun' & _ & Hin).
    rewrite Hrun in Hrun'. injection Hrun' as -> _.
    intros Hp. apply Hin in Hp as [_ Hp]. done.
Qed.

Lemma truthy_placeholder : Py.truthy "内容なし" = true.
Proof. reflexivity. Qed.

Section empty_text.
Context {Page : Type} (E : Env Page).

Lemma recovery_transcription_empty_text pdf_data response :
  generate_content E pdf_data = Some response →
  candidates response ≠ [] → text response = "" →
  recovery_transcription E pdf_data = "内容なし".
Proof.
  intros Hgen Hcand Htext. unfold recovery_transcription. rewrite Hgen, Htext.
  by destruct (candidates response).
Qed.

Lemma first_pass_transcription_empty_text pdf_data response :
  generate_content E pdf_data = Some response →
  candidates response ≠ [] → text response = "" →
  first_pass_transcription E pdf_data = "".
Proof.
  intros Hgen Hcand Htext. unfold first_pass_transcription. rewrite Hgen, Htext.
  by destruct (candidates response).
Qed.

Lemma recovery_transcription_raised pdf_data :
  generate_content E pdf_data = None → recovery_transcription E pdf_data = "内容なし".
Proof. intros Hgen. unfold recovery_transcription. by rewrite Hgen. Qed.

Lemma first_pass_transcription_raised pdf_data :
  generate_content E pdf_data = None → first_pass_transcription E pdf_data = "".
Proof. intros Hgen. unfold first_pass_transcription. by rewrite Hgen. Qed.

(** In the error-recovery script a page group transcribed as the
    placeholder is recorded, and then never computed as missing again. *)
Lemma recovery_placeholder_recorded pdf_data page name batch file_name doc_id w :
  recovery_transcription E pdf_data = "内容なし" →
  mkPagePdf name pdf_data page ∈ batch →
  raises E (Add_transcription
              (mkTranscription "内容なし" (Some page) None None file_name (Some doc_id)))
    = false →
  let w' := (ErrorPage6.process_page_batch E batch file_name doc_id w).2 in
  (∃ id, document_transcriptions w' !! id =
           Some (mkTranscription "内容なし" (Some page) None None file_name (Some doc_id))) ∧
  page ∈ recorded_pages w' doc_id ∧
  (∀ (E' : Env Page) total_pages missing w'',
     ErrorPage6.get_missing_pages E' doc_id total_pages w' = (Return missing, w'') →
     page ∉ missing).
Proof.
  intros Ht Hin Hacc w'. subst w'. rewrite error_page_batch. simpl.
  assert (page ∈ recorded_pages
            (after_batch E (recovery_transcription E) file_name doc_id batch w) doc_id) as Hrec.
  { apply recorded_pages_after_batch. right. split; [done|].
    exists (mkPagePdf name pdf_data page). simpl. rewrite Ht. by repeat split. }
  split; [|split; [done|]].
  - apply add_rows_elem, elem_of_accepted. split; [done|].
    apply elem_of_batch_rows. exists (mkPagePdf name pdf_data page). simpl.
    rewrite Ht. by repeat split.
  - intros E' total_pages missing w'' Hrun. by eapply recorded_page_not_missing.
Qed.

(** In the one-page first-pass script a page group transcribed as the empty
    string leaves no trace in the transcription table. *)
Lemma onepage_empty_not_persisted pdf b1 b2 file_name doc_id w :
  first_pass_transcription E (data pdf) = "" →
  document_transcriptions (OnePage6.process_page_batch E (b1 ++ pdf :: b2) file_name doc_id w).2 =
  document_transcriptions (OnePage6.process_page_batch E (b1 ++ b2) file_name doc_id w).2.
Proof.
  intros Ht. rewrite !onepage_page_batch. simpl. by rewrite batch_rows_skip.
Qed.

(** The Supabase scripts save a row for every page group, also for an empty
    transcription. *)
Lemma twopage_empty_persisted pdf doc whole split_pdfs w :
  first_pass_transcription E (data pdf) = "" →
  download E (md_bucket doc.2) (md_file_name doc.2) = Some whole →
  TwoPage.split_pdf_in_memory whole = Some split_pdfs →
  pdf ∈ split_pdfs →
  raises E (Update_status (md_file_name doc.2) "processed") = false →
  raises E (Add_transcription
              (mkTranscription "" (Some (page pdf)) None None (md_file_name doc.2)
                               (Some doc.1))) = false →
  ∃ id, document_transcriptions (TwoPage.process_doc E doc w).2 !! id =
          Some (mkTranscription "" (Some (page pdf)) None None (md_file_name doc.2)
                                (Some doc.1)).
Proof.
  intros Ht Hdl Hsplit Hin Hup Hacc.
  rewrite (twopage_process_doc_run E doc whole split_pdfs) by done. simpl.
  apply add_rows_elem, elem_of_accepted. split; [done|].
  unfold twopage_rows. apply list_elem_of_fmap. exists pdf. by rewrite Ht.
Qed.

Lemma document_empty_persisted pdf doc whole split_pdfs w :
  first_pass_transcription E (rdata pdf) = "" →
  download E "documents" (md_file_name doc.2) = Some whole →
  Document.split_pdf_in_memory whole = Some split_pdfs →
  pdf ∈ split_pdfs →
  raises E (Update_status (md_file_name doc.2) "processed") = false →
  raises E (Add_transcription
              (mkTranscription "" None (Some (page_start pdf)) (Some (page_end pdf))
                               (md_file_name doc.2) None)) = false →
  ∃ id, document_transcriptions (Document.process_doc E doc w).2 !! id =
          Some (mkTranscription "" None (Some (page_start pdf)) (Some (page_end pdf))
                                (md_file_name doc.2) None).
Proof.
  intros Ht Hdl Hsplit Hin Hup Hacc.
  rewrite (document_process_doc_run E doc whole split_pdfs) by done. simpl.
  apply add_rows_elem, elem_of_accepted. split; [done|].
  unfold document_rows. apply list_elem_of_fmap. exists pdf. by rewrite Ht.
Qed.

End empty_text.

(** C3 (as stated) fails on the two-page first-pass script: for a one-page
    document whose only page is answered by a candidate with empty text, the
    run persists a row with the empty transcription for page 1. *)
Lemma twopage_persists_empty_text :
  generate_content (Scenario.blank ["p1"]) ["p1"] = Some (mkResponse ["candidate"] "") ∧
  document_transcriptions Scenario.fresh_upload = ∅ ∧
  map_to_list (document_transcriptions
                 (TwoPage.process_documents (Scenario.blank ["p1"]) Scenario.fresh_upload).2)
    = [(0%nat, mkTranscription "" (Some 1) None None "b.pdf" (Some "B"))] ∧
  ¬ (1 ∉ recorded_pages
           (TwoPage.process_documents (Scenario.blank ["p1"]) Scenario.fresh_upload).2 "B").
Proof.
  split; [reflexivity|]. split; [reflexivity|]. split; [vm_compute; reflexivity|].
  intros H. apply H. apply (bool_decide_unpack _). vm_compute. exact I.
Qed.

(** C4 (as stated) fails on the error-recovery script: when the model call
    raises, the page group is transcribed as the placeholder, not as the
    empty string; the run records it, and the page is not missing
    afterwards. *)
Lemma recovery_exception_is_recorded :
  generate_content (Scenario.model_down Scenario.five_pages) ["p2"] = None ∧
  (ErrorPage6.transcribe_pdf (Scenario.model_down Scenario.five_pages) ["p2"] 2
                             Scenario.gaps).1 = Return "内容なし" ∧
  "内容なし" ≠ "" ∧
  ¬ (2 ∉ recorded_pages
           (ErrorPage6.process_error_pages (Scenario.model_down Scenario.five_pages)
                                           Scenario.gaps).2 "A") ∧
  (ErrorPage6.get_missing_pages (Scenario.model_down Scenario.five_pages) "A" 5
     (ErrorPage6.process_error_pages (Scenario.model_down Scenario.five_pages)
                                     Scenario.gaps).2).1 = Return [].
Proof.
  split; [reflexivity|]. split; [reflexivity|]. split; [done|]. split.
  - intros H. apply H. apply (bool_decide_unpack _). vm_compute. exact I.
  - vm_compute. reflexivity.
Qed.

(** C4 (amended): an exception of the model call never leaves the
    transcription operation.  The first-pass scripts turn it into the empty
    string, for which the one-page script persists nothing; the
    error-recovery script turns it into the placeholder, which is recorded
    (if the insertion does not raise), so that the page is never computed as
    missing again. *)
Theorem transcription_exception_outcome {Page} (E : Env Page) (pdf_data : list Page) :
  generate_content E pdf_data = None →
  (∀ page w, OnePage6.transcribe_pdf E pdf_data page w = (Return "", w)) ∧
  (∀ page w, TwoPage.transcribe_pdf E pdf_data page w = (Return "", w)) ∧
  (∀ page_start page_end w,
     Document.transcribe_pdf E pdf_data page_start page_end w = (Return "", w)) ∧
  (∀ name page b1 b2 file_name doc_id w,
     document_transcriptions
       (OnePage6.process_page_batch E (b1 ++ mkPagePdf name pdf_data page :: b2)
                                    file_name doc_id w).2 =
     document_transcriptions
       (OnePage6.process_page_batch E (b1 ++ b2) file_name doc_id w).2) ∧
  (∀ page w, ErrorPage6.transcribe_pdf E pdf_data page w = (Return "内容なし", w)) ∧
  (∀ name page batch file_name doc_id w,
     mkPagePdf name pdf_data page ∈ batch →
     raises E (Add_transcription
                 (mkTranscription "内容なし" (Some page) None None file_name (Some doc_id)))
       = false →
     page ∈ recorded_pages (ErrorPage6.process_page_batch E batch file_name doc_id w).2 doc_id ∧
     (∀ (E' : Env Page) total_pages missing w'',
        ErrorPage6.get_missing_pages E' doc_id total_pages
          (ErrorPage6.process_page_batch E batch file_name doc_id w).2 = (Return missing, w'') →
        page ∉ missing)).
Proof.
  intros Hgen.
  pose proof (recovery_transcription_raised E _ Hgen) as Hrec.
  pose proof (first_pass_transcription_raised E _ Hgen) as Hfirst.
  repeat split.
  - intros. by rewrite onepage_transcribe_pdf_returns, Hfirst.
  - intros. by rewrite twopage_transcribe_pdf_returns, Hfirst.
  - intros. by rewrite document_transcribe_pdf_returns, Hfirst.
  - intros. by apply onepage_empty_not_persisted.
  - intros. by rewrite error_transcribe_pdf_returns, Hrec.
  - by eapply recovery_placeholder_recorded.
  - by eapply recovery_placeholder_recorded.
Qed.

Lemma transcription_exception_witness :
  generate_content (Scenario.model_down Scenario.five_pages) ["p2"] = None ∧
  (∀ page w, OnePage6.transcribe_pdf (Scenario.model_down Scenario.five_pages) ["p2"] page w
             = (Return "", w)) ∧
  (∀ page w, ErrorPage6.transcribe_pdf (Scenario.model_down Scenario.five_pages) ["p2"] page w
             = (Return "内容なし", w)).
Proof.
  split; [reflexivity|].
  destruct (transcription_exception_outcome (Scenario.model_down Scenario.five_pages) ["p2"])
    as (H1 & _ & _ & _ & H5 & _); [reflexivity|].
  by split.
Defined.

(** * Splitting a document into page groups *)

Lemma getitem_nonneg {A} (l : list A) (i : Z) :
  0 ≤ i → Py.getitem l i = l !! Z.to_nat i.
Proof. intros Hi. unfold Py.getitem. by rewrite bool_decide_eq_true_2. Qed.

Lemma getitem_in_range {A} (l : list A) (i : Z) :
  0 ≤ i < Py.len l → ∃ x, Py.getitem l i = Some x ∧ l !! Z.to_nat i = Some x.
Proof.
  intros Hi. rewrite getitem_nonneg by lia.
  destruct (l !! Z.to_nat i) as [x|] eqn:Hx; [by exists x|].
  apply lookup_ge_None in Hx. unfold Py.len in Hi. lia.
Qed.

Lemma seqZ_succ (m : Z) (n : nat) : seqZ m (Z.of_nat (S n)) = m :: seqZ (m + 1) (Z.of_nat n).
Proof.
  rewrite seqZ_cons by lia. f_equal. f_equal; lia.
Qed.

Lemma StronglySorted_seqZ m n : StronglySorted Z.lt (seqZ m n).
Proof.
  destruct (decide (0 ≤ n)) as [Hn|Hn]; [|rewrite seqZ_nil by lia; constructor].
  rewrite <-(Z2Nat.id n Hn). generalize (Z.to_nat n). clear. intros n.
  revert m. induction n as [|n IH]; intros m; [constructor|].
  rewrite seqZ_succ. constructor; [apply IH|].
  apply Forall_forall. intros p Hp. apply elem_of_seqZ in Hp. lia.
Qed.

Lemma StronglySorted_lt_filter (P : Z → Prop) `{∀ p, Decision (P p)} (l : list Z) :
  StronglySorted Z.lt l → StronglySorted Z.lt (filter P l).
Proof.
  induction 1 as [|x l Hl IH Hx]; [constructor|].
  rewrite filter_cons. destruct (decide (P x)); [|done].
  constructor; [done|]. apply Forall_forall. intros y Hy.
  apply list_elem_of_filter in Hy as [_ Hy]. rewrite Forall_forall in Hx. by apply Hx.
Qed.

Lemma elem_of_concat {A} (ls : list (list A)) (x : A) :
  x ∈ concat ls ↔ ∃ l, l ∈ ls ∧ x ∈ l.
Proof.
  induction ls as [|l ls IH]; simpl.
  - split; [by intros ?%elem_of_nil|]. by intros (l & ?%elem_of_nil & _).
  - rewrite elem_of_app, IH. split.
    + intros [Hx|(l' & Hl' & Hx)]; [exists l; split; [left|done]|].
      exists l'. split; [by right|done].
    + intros (l' & Hl' & Hx). apply elem_of_cons in Hl' as [->|Hl']; [by left|].
      right. by exists l'.
Qed.

(** Groups whose pages, one group after the other, are a strictly ascending
    list of pages of the document partition that list. *)
Lemma partition_of_concat page_count requested groups :
  concat groups = requested →
  StronglySorted Z.lt requested →
  Forall (λ p, 1 ≤ p ≤ page_count) requested →
  partition_of page_count requested groups.
Proof.
  intros <- Hsorted Hin. split.
  - by apply StronglySorted_lt_NoDup.
  - intros p. by rewrite elem_of_concat.
  - intros g p Hg Hp. rewrite Forall_forall in Hin. apply Hin.
    apply elem_of_concat. by exists g.
  - done.
Qed.

Lemma content_singleton {Page} (pdf_data : list Page) p pg :
  pdf_data !! Z.to_nat (p - 1) = Some pg → content pdf_data [p] = Some [pg].
Proof. intros H. unfold content. simpl. by rewrite H. Qed.

Section one_page.
Context {Page : Type}.

Lemma pages_of_group_one nm (pg : Page) p : pages_of_group (mkPagePdf nm [pg] p) = [p].
Proof. unfold pages_of_group, seqZ. simpl. f_equal. Qed.

Lemma pages_of_group_two nm (pg pg' : Page) p :
  pages_of_group (mkPagePdf nm [pg; pg'] p) = [p; p + 1].
Proof. unfold pages_of_group, seqZ. simpl. do 2 f_equal. lia. Qed.

Lemma onepage_loop (pdf_data : list Page) (m : nat) (k : Z) acc :
  0 ≤ k → k + Z.of_nat m ≤ Py.len pdf_data →
  ∃ groups,
    Py.for_ (seqZ k (Z.of_nat m)) (λ split_pdfs i,
      pg ← Py.getitem pdf_data i;
      Some (split_pdfs ++ [mkPagePdf ("page_" +:+ pretty (i + 1)) [pg] (i + 1)])) acc
      = Some (acc ++ groups) ∧
    concat (pages_of_group <$> groups) = seqZ (k + 1) (Z.of_nat m) ∧
    Forall (λ g, content pdf_data (pages_of_group g) = Some (data g)) groups.
Proof.
  revert k acc. induction m as [|m IH]; intros k acc Hk Hlen.
  - exists []. simpl. by rewrite app_nil_r.
  - rewrite seqZ_succ. cbn [Py.for_].
    destruct (getitem_in_range pdf_data k) as (pg & -> & Hpg); [lia|]. simpl.
    destruct (IH (k + 1) (acc ++ [mkPagePdf ("page_" +:+ pretty (k + 1)) [pg] (k + 1)]))
      as (groups & Hrun & Hpages & Hdata); [lia..|].
    exists (mkPagePdf ("page_" +:+ pretty (k + 1)) [pg] (k + 1) :: groups).
    split; [by rewrite Hrun, <-app_assoc|]. split.
    + rewrite fmap_cons. cbn [concat].
      by rewrite Hpages, seqZ_succ, pages_of_group_one.
    + constructor; [|done]. rewrite pages_of_group_one. apply content_singleton. simpl.
      by replace (k + 1 - 1) with k by lia.
Qed.

(** One page per group: the groups partition the pages of the document. *)
Lemma onepage_split_partition (pdf_data : list Page) :
  ∃ split_pdfs,
    OnePage6.split_pdf_in_memory pdf_data = Some split_pdfs ∧
    partition_of (Py.len pdf_data) (seqZ 1 (Py.len pdf_data))
                 (pages_of_group <$> split_pdfs) ∧
    Forall (λ g, content pdf_data (pages_of_group g) = Some (data g)) split_pdfs.
Proof.
  destruct (onepage_loop pdf_data (length pdf_data) 0 []) as (groups & Hrun & Hpages & Hdata);
    [done|unfold Py.len; lia|].
  exists groups. split; [|split; [|done]].
  - unfold OnePage6.split_pdf_in_memory, Py.range, Py.len. by rewrite Z.sub_0_r.
  - apply partition_of_concat; [done|apply StronglySorted_seqZ|].
    apply Forall_forall. intros p Hp. apply elem_of_seqZ in Hp. lia.
Qed.

End one_page.

Section explicit_pages.
Context {Page : Type}.

(** An explicit, strictly ascending list of positive pages: the groups
    partition the requested pages the document has. *)
Lemma extract_partition (pdf_data : list Page) (requested : list Z) :
  StronglySorted Z.lt requested →
  Forall (λ p, 1 ≤ p) requested →
  ∃ split_pdfs,
    ErrorPage6.extract_specific_pages_from_pdf pdf_data requested = Some split_pdfs ∧
    partition_of (Py.len pdf_data) (filter (λ p, p ≤ Py.len pdf_data) requested)
                 (pages_of_group <$> split_pdfs) ∧
    Forall (λ g, content pdf_data (pages_of_group g) = Some (data g)) split_pdfs.
Proof.
  intros Hsorted Hpos.
  destruct (extract_positive_pages pdf_data requested Hpos) as (groups & Hrun & Hpages & Hgroups).
  exists groups. split; [done|].
  assert (Forall (λ g, pages_of_group g = [page g] ∧
                       content pdf_data (pages_of_group g) = Some (data g)) groups) as Hg.
  { eapply Forall_impl; [apply Hgroups|]. intros [nm dt p] (_ & pg & Hpg & Hdt).
    simpl in *. subst dt. rewrite pages_of_group_one. split; [done|].
    by apply content_singleton. }
  split.
  - apply partition_of_concat.
    + rewrite <-Hpages. clear -Hg. induction Hg as [|g l [Hg _] _ IH]; [done|].
      rewrite !fmap_cons. cbn [concat]. by rewrite Hg, IH.
    + by apply StronglySorted_lt_filter.
    + apply Forall_forall. intros p Hp. apply list_elem_of_filter in Hp as [Hle Hp].
      rewrite Forall_forall in Hpos. specialize (Hpos p Hp). lia.
  - eapply Forall_impl; [apply Hg|]. by intros g [_ ?].
Qed.

End explicit_pages.

Section two_pages.
Context {Page : Type}.

Lemma range_step_two (n : Z) :
  Py.range_step 1 n 2 = (λ k, 1 + k * 2) <$> seqZ 0 (n `div` 2).
Proof. unfold Py.range_step. do 2 f_equal. f_equal. lia. Qed.

Lemma content_pair (pdf_data : list Page) p pg pg' :
  pdf_data !! Z.to_nat (p - 1) = Some pg →
  pdf_data !! Z.to_nat (p + 1 - 1) = Some pg' →
  content pdf_data [p; p + 1] = Some [pg; pg'].
Proof. intros H H'. unfold content. simpl. by rewrite H, H'. Qed.

Lemma twopage_loop (pdf_data : list Page) (c : nat) (j : Z) acc :
  0 ≤ j → j + Z.of_nat c = Py.len pdf_data `div` 2 →
  ∃ groups,
    Py.for_ ((λ k, 1 + k * 2) <$> seqZ j (Z.of_nat c)) (λ split_pdfs i,
      pg ← Py.getitem pdf_data i;
      writer ← (if bool_decide (i + 1 < Py.len pdf_data) then
                  pg' ← Py.getitem pdf_data (i + 1); Some ([pg] ++ [pg'])
                else Some [pg]);
      Some (split_pdfs ++ [mkPagePdf ("pages_" +:+ pretty (i + 1)) writer (i + 1)])) acc
      = Some (acc ++ groups) ∧
    concat (pages_of_group <$> groups) = seqZ (2 * j + 2) (Py.len pdf_data - (2 * j + 1)) ∧
    Forall (λ g, content pdf_data (pages_of_group g) = Some (data g)) groups.
Proof.
  revert j acc. induction c as [|c IH]; intros j acc Hj Hc.
  - exists []. simpl. rewrite app_nil_r. split; [done|]. split; [|done].
    rewrite seqZ_nil; [done|]. pose proof (Z.mul_succ_div_gt (Py.len pdf_data) 2). lia.
  - pose proof (Z.mul_div_le (Py.len pdf_data) 2).
    rewrite seqZ_succ, fmap_cons. cbn [Py.for_].
    destruct (getitem_in_range pdf_data (1 + j * 2)) as (pg & -> & Hpg); [lia|]. simpl.
    case_bool_decide as Hlast.
    + destruct (getitem_in_range pdf_data (1 + j * 2 + 1)) as (pg' & -> & Hpg'); [lia|]. simpl.
      destruct (IH (j + 1)
        (acc ++ [mkPagePdf ("pages_" +:+ pretty (1 + j * 2 + 1)) [pg; pg'] (1 + j * 2 + 1)]))
        as (groups & Hrun & Hpages & Hdata); [lia..|].
      exists (mkPagePdf ("pages_" +:+ pretty (1 + j * 2 + 1)) [pg; pg'] (1 + j * 2 + 1)
              :: groups).
      split; [rewrite <-app_assoc in Hrun; exact Hrun|]. split.
      * rewrite fmap_cons. cbn [concat]. rewrite Hpages, pages_of_group_two.
        replace (Py.len pdf_data - (2 * j + 1)) with (2 + (Py.len pdf_data - (2 * (j + 1) + 1)))
          by lia.
        rewrite seqZ_app by lia. f_equal.
        -- unfold seqZ. simpl. f_equal; [lia|f_equal; lia].
        -- f_equal. lia.
      * constructor; [|done]. rewrite pages_of_group_two.
        apply content_pair; simpl.
        -- by replace (1 + j * 2 + 1 - 1) with (1 + j * 2) by lia.
        -- by replace (1 + j * 2 + 1 + 1 - 1) with (1 + j * 2 + 1) by lia.
    + simpl.
      destruct (IH (j + 1)
        (acc ++ [mkPagePdf ("pages_" +:+ pretty (1 + j * 2 + 1)) [pg] (1 + j * 2 + 1)]))
        as (groups & Hrun & Hpages & Hdata); [lia..|].
      exists (mkPagePdf ("pages_" +:+ pretty (1 + j * 2 + 1)) [pg] (1 + j * 2 + 1) :: groups).
      split; [rewrite <-app_assoc in Hrun; exact Hrun|]. split.
      * rewrite fmap_cons. cbn [concat]. rewrite Hpages, pages_of_group_one.
        rewrite (seqZ_nil (2 * (j + 1) + 2)) by lia.
        replace (Py.len pdf_data - (2 * j + 1)) with 1 by lia.
        unfold seqZ. simpl. f_equal. lia.
      * constructor; [|done]. rewrite pages_of_group_one.
        apply content_singleton. by replace (1 + j * 2 + 1 - 1) with (1 + j * 2) by lia.
Qed.

(** Cover plus two pages per group: on a document with at least one page
    the groups partition the pages of the document. *)
Lemma twopage_split_partition (pdf_data : list Page) :
  pdf_data ≠ [] →
  ∃ split_pdfs,
    TwoPage.split_pdf_in_memory pdf_data = Some split_pdfs ∧
    partition_of (Py.len pdf_data) (seqZ 1 (Py.len pdf_data))
                 (pages_of_group <$> split_pdfs) ∧
    Forall (λ g, content pdf_data (pages_of_group g) = Some (data g)) split_pdfs.
Proof.
  intros Hne. destruct pdf_data as [|cover rest] eqn:Hpdf; [done|]. rewrite <-Hpdf in *.
  assert (1 ≤ Py.len pdf_data) as Hlen by (rewrite Hpdf; unfold Py.len; simpl; lia).
  destruct (twopage_loop pdf_data (Z.to_nat (Py.len pdf_data `div` 2)) 0
              [mkPagePdf "cover" [cover] 1]) as (groups & Hrun & Hpages & Hdata); [done| |].
  { pose proof (Z.div_pos (Py.len pdf_data) 2). lia. }
  exists (mkPagePdf "cover" [cover] 1 :: groups). split; [|split].
  - unfold TwoPage.split_pdf_in_memory. rewrite range_step_two.
    assert (Py.getitem pdf_data 0 = Some cover) as -> by (by rewrite Hpdf).
    simpl. rewrite Z2Nat.id in Hrun by (apply Z.div_pos; lia). apply Hrun.
  - apply partition_of_concat.
    + rewrite fmap_cons. cbn [concat]. rewrite Hpages, pages_of_group_one.
      replace (Py.len pdf_data) with (1 + (Py.len pdf_data - 1)) at 2 by lia.
      rewrite seqZ_app by lia. f_equal.
    + apply StronglySorted_seqZ.
    + apply Forall_forall. intros p Hp. apply elem_of_seqZ in Hp. lia.
  - constructor; [|done]. rewrite pages_of_group_one. apply content_singleton.
    by rewrite Hpdf.
Qed.

Lemma twopage_split_empty : TwoPage.split_pdf_in_memory (@nil Page) = None.
Proof. reflexivity. Qed.

End two_pages.

Section page_ranges.
Context {Page : Type}.

Lemma pages_of_range_one nm (dt : list Page) p : pages_of_range (mkRangePdf nm dt p p) = [p].
Proof.
  unfold pages_of_range. simpl. replace (p - p + 1) with 1 by lia. done.
Qed.

Lemma pages_of_range_two nm (dt : list Page) p :
  pages_of_range (mkRangePdf nm dt p (p + 1)) = [p; p + 1].
Proof.
  unfold pages_of_range. simpl. replace (p + 1 - p + 1) with 2 by lia.
  unfold seqZ. simpl. do 2 f_equal. lia.
Qed.

Lemma document_loop (pdf_data : list Page) (c : nat) (j : Z) acc :
  0 ≤ j → j + Z.of_nat c = Py.len pdf_data `div` 2 →
  ∃ groups,
    Py.for_ ((λ k, 1 + k * 2) <$> seqZ j (Z.of_nat c)) (λ split_pdfs i,
      pg ← Py.getitem pdf_data i;
      '(writer, page_end) ←
        (if bool_decide (i + 1 < Py.len pdf_data) then
           pg' ← Py.getitem pdf_data (i + 1); Some ([pg] ++ [pg'], i + 2)
         else Some ([pg], i + 1));
      Some (split_pdfs ++
            [mkRangePdf ("pages_" +:+ pretty (i + 1) +:+ "-" +:+ pretty page_end)
                        writer (i + 1) page_end])) acc
      = Some (acc ++ groups) ∧
    concat (pages_of_range <$> groups) = seqZ (2 * j + 2) (Py.len pdf_data - (2 * j + 1)) ∧
    Forall (λ g, content pdf_data (pages_of_range g) = Some (rdata g)) groups.
Proof.
  revert j acc. induction c as [|c IH]; intros j acc Hj Hc.
  - exists []. simpl. rewrite app_nil_r. split; [done|]. split; [|done].
    rewrite seqZ_nil; [done|]. pose proof (Z.mul_succ_div_gt (Py.len pdf_data) 2). lia.
  - pose proof (Z.mul_div_le (Py.len pdf_data) 2).
    rewrite seqZ_succ, fmap_cons. cbn [Py.for_].
    destruct (getitem_in_range pdf_data (1 + j * 2)) as (pg & -> & Hpg); [lia|]. simpl.
    case_bool_decide as Hlast.
    + destruct (getitem_in_range pdf_data (1 + j * 2 + 1)) as (pg' & -> & Hpg'); [lia|]. simpl.
      destruct (IH (j + 1)
        (acc ++ [mkRangePdf ("pages_" +:+ pretty (1 + j * 2 + 1) +:+ "-" +:+
                             pretty (1 + j * 2 + 2))
                            [pg; pg'] (1 + j * 2 + 1) (1 + j * 2 + 2)]))
        as (groups & Hrun & Hpages & Hdata); [lia..|].
      eexists (_ :: groups).
      split; [rewrite <-app_assoc in Hrun; exact Hrun|]. split.
      * rewrite fmap_cons. cbn [concat]. rewrite Hpages.
        replace (1 + j * 2 + 2) with (1 + j * 2 + 1 + 1) by lia.
        rewrite pages_of_range_two.
        replace (Py.len pdf_data - (2 * j + 1)) with (2 + (Py.len pdf_data - (2 * (j + 1) + 1)))
          by lia.
        rewrite seqZ_app by lia. f_equal.
        -- unfold seqZ. simpl. f_equal; [lia|f_equal; lia].
        -- f_equal. lia.
      * constructor; [|done].
        replace (1 + j * 2 + 2) with (1 + j * 2 + 1 + 1) by lia.
        rewrite pages_of_range_two.
        apply content_pair; simpl.
        -- by replace (1 + j * 2 + 1 - 1) with (1 + j * 2) by lia.
        -- by replace (1 + j * 2 + 1 + 1 - 1) with (1 + j * 2 + 1) by lia.
    + simpl.
      destruct (IH (j + 1)
        (acc ++ [mkRangePdf ("pages_" +:+ pretty (1 + j * 2 + 1) +:+ "-" +:+
                             pretty (1 + j * 2 + 1))
                            [pg] (1 + j * 2 + 1) (1 + j * 2 + 1)]))
        as (groups & Hrun & Hpages & Hdata); [lia..|].
      eexists (_ :: groups).
      split; [rewrite <-app_assoc in Hrun; exact Hrun|]. split.
      * rewrite fmap_cons. cbn [concat]. rewrite Hpages, pages_of_range_one.
        rewrite (seqZ_nil (2 * (j + 1) + 2)) by lia.
        replace (Py.len pdf_data - (2 * j + 1)) with 1 by lia.
        unfold seqZ. simpl. f_equal. lia.
      * constructor; [|done]. rewrite pages_of_range_one.
        apply content_singleton. by replace (1 + j * 2 + 1 - 1) with (1 + j * 2) by lia.
Qed.

(** Cover plus two pages per group, with explicit page ranges. *)
Lemma document_split_partition (pdf_data : list Page) :
  pdf_data ≠ [] →
  ∃ split_pdfs,
    Document.split_pdf_in_memory pdf_data = Some split_pdfs ∧
    partition_of (Py.len pdf_data) (seqZ 1 (Py.len pdf_data))
                 (pages_of_range <$> split_pdfs) ∧
    Forall (λ g, content pdf_data (pages_of_range g) = Some (rdata g)) split_pdfs.
Proof.
  intros Hne. destruct pdf_data as [|cover rest] eqn:Hpdf; [done|]. rewrite <-Hpdf in *.
  assert (1 ≤ Py.len pdf_data) as Hlen by (rewrite Hpdf; unfold Py.len; simpl; lia).
  destruct (document_loop pdf_data (Z.to_nat (Py.len pdf_data `div` 2)) 0
              [mkRangePdf "cover" [cover] 1 1]) as (groups & Hrun & Hpages & Hdata); [done| |].
  { pose proof (Z.div_pos (Py.len pdf_data) 2). lia. }
  exists (mkRangePdf "cover" [cover] 1 1 :: groups). split; [|split].
  - unfold Document.split_pdf_in_memory. rewrite range_step_two.
    assert (Py.getitem pdf_data 0 = Some cover) as -> by (by rewrite Hpdf).
    simpl. rewrite Z2Nat.id in Hrun by (apply Z.div_pos; lia). apply Hrun.
  - apply partition_of_concat.
    + rewrite fmap_cons. cbn [concat]. rewrite Hpages, pages_of_range_one.
      replace (Py.len pdf_data) with (1 + (Py.len pdf_data - 1)) at 2 by lia.
      rewrite seqZ_app by lia. f_equal.
    + apply StronglySorted_seqZ.
    + apply Forall_forall. intros p Hp. apply elem_of_seqZ in Hp. lia.
  - constructor; [|done]. rewrite pages_of_range_one. apply content_singleton.
    by rewrite Hpdf.
Qed.

Lemma document_split_empty : Document.split_pdf_in_memory (@nil Page) = None.
Proof. reflexivity. Qed.

End page_ranges.

Section problem_ranges.
Context {Page : Type}.

Lemma content_cons (pdf_data : list Page) p ps pg chunk :
  pdf_data !! Z.to_nat (p - 1) = Some pg →
  content pdf_data ps = Some chunk →
  content pdf_data (p :: ps) = Some (pg :: chunk).
Proof. unfold content. simpl. by intros -> ->. Qed.

Lemma problem_chunk_loop (pdf_data : list Page) (m : nat) (a : Z) acc :
  0 ≤ a →
  ∃ chunk,
    Py.for_ (seqZ a (Z.of_nat m)) (λ writer page_num,
      if bool_decide (page_num < Py.len pdf_data) then
        pg ← Py.getitem pdf_data page_num; Some (writer ++ [pg])
      else Some writer) acc = Some (acc ++ chunk) ∧
    content pdf_data (filter (λ p, p ≤ Py.len pdf_data) (seqZ (a + 1) (Z.of_nat m)))
      = Some chunk.
Proof.
  revert a acc. induction m as [|m IH]; intros a acc Ha.
  - exists []. simpl. by rewrite app_nil_r.
  - rewrite !seqZ_succ. cbn [Py.for_]. case_bool_decide as Hin.
    + destruct (getitem_in_range pdf_data a) as (pg & -> & Hpg); [lia|]. simpl.
      destruct (IH (a + 1) (acc ++ [pg])) as (chunk & Hrun & Hchunk); [lia|].
      exists (pg :: chunk). split; [rewrite <-app_assoc in Hrun; exact Hrun|].
      rewrite filter_cons_True by lia. apply content_cons; [|done].
      by replace (a + 1 - 1) with a by lia.
    + simpl. destruct (IH (a + 1) acc) as (chunk & Hrun & Hchunk); [lia|].
      exists chunk. split; [done|]. by rewrite filter_cons_False by lia.
Qed.

(** The chunk of a problem that starts at a positive page holds the
    requested pages the document has. *)
Lemma problem_chunk_pages (pdf_data : list Page) (problem : Problem) :
  1 ≤ start_page problem →
  ∃ chunk,
    Workbook.problem_chunk pdf_data problem = Some chunk ∧
    content pdf_data (pages_of_problem (Py.len pdf_data) problem) = Some chunk.
Proof.
  intros Hstart. unfold Workbook.problem_chunk, pages_of_problem, requested_pages, Py.range.
  replace (end_page problem - (start_page problem - 1))
    with (end_page problem - start_page problem + 1) by lia.
  destruct (decide (0 ≤ end_page problem - start_page problem + 1)) as [Hm|Hm].
  - rewrite <-(Z2Nat.id _ Hm).
    destruct (problem_chunk_loop pdf_data
                (Z.to_nat (end_page problem - start_page problem + 1))
                (start_page problem - 1) []) as (chunk & Hrun & Hchunk); [lia|].
    exists chunk. split; [done|].
    by replace (start_page problem - 1 + 1) with (start_page problem) in Hchunk by lia.
  - rewrite !seqZ_nil by lia. by exists [].
Qed.

Lemma concat_pages_of_problem page_count (problems : list Problem) :
  concat (pages_of_problem page_count <$> problems) =
  filter (λ p, p ≤ page_count) (concat (requested_pages <$> problems)).
Proof.
  induction problems as [|problem problems IH]; [done|].
  rewrite !fmap_cons. cbn [concat]. by rewrite filter_app, IH.
Qed.

(** Explicit start-end ranges that are positive, ascending and disjoint:
    the chunks partition the requested pages the document has. *)
Lemma workbook_chunks_partition (pdf_data : list Page) (problems : list Problem) :
  Forall (λ problem, 1 ≤ start_page problem) problems →
  StronglySorted Z.lt (concat (requested_pages <$> problems)) →
  partition_of (Py.len pdf_data)
               (filter (λ p, p ≤ Py.len pdf_data) (concat (requested_pages <$> problems)))
               (pages_of_problem (Py.len pdf_data) <$> problems) ∧
  Forall (λ problem, ∃ chunk,
            Workbook.problem_chunk pdf_data problem = Some chunk ∧
            content pdf_data (pages_of_problem (Py.len pdf_data) problem) = Some chunk)
         problems.
Proof.
  intros Hpos Hsorted. split.
  - apply partition_of_concat.
    + apply concat_pages_of_problem.
    + by apply StronglySorted_lt_filter.
    + apply Forall_forall. intros p Hp. apply list_elem_of_filter in Hp as [Hle Hp].
      split; [|done]. apply elem_of_concat in Hp as (l & Hl & Hp).
      apply list_elem_of_fmap in Hl as (problem & -> & Hproblem).
      rewrite Forall_forall in Hpos. specialize (Hpos _ Hproblem).
      unfold requested_pages in Hp. apply elem_of_seqZ in Hp. lia.
  - eapply Forall_impl; [apply Hpos|]. intros problem Hstart.
    by apply problem_chunk_pages.
Qed.

End problem_ranges.

(** C2 (as stated) fails for an explicit page list: on a three-page
    document the request for pages 2 and 5 yields the single group of page
    2, and the groups do not add up to the requested pages. *)
Lemma explicit_pages_beyond_document_not_covered :
  ∃ split_pdfs,
    ErrorPage6.extract_specific_pages_from_pdf ["p1"; "p2"; "p3"] [2; 5] = Some split_pdfs ∧
    pages_of_group <$> split_pdfs = [[2]] ∧
    ¬ partition_of 3 [2; 5] (pages_of_group <$> split_pdfs).
Proof.
  exists [mkPagePdf "page_2" ["p2"] 2]. split; [reflexivity|]. split; [reflexivity|].
  intros [_ Hcover _ _]. destruct (proj2 (Hcover 5)) as (g & Hg & Hp).
  - right. left.
  - apply list_elem_of_singleton in Hg as ->. apply list_elem_of_singleton in Hp. done.
Qed.

(** C2 (amended): every splitting policy partitions, in ascending order,
    the requested pages that the document has, and every group holds the
    content of the pages it stands for: one page per group and cover plus
    two pages per group for all pages of the document (the latter on a
    document with at least one page; it raises on an empty one); an explicit
    list of pages and explicit start-end ranges for the requested pages up
    to the page count, pages beyond it being skipped, when the request is
    positive and strictly ascending. *)
Theorem splitting_partitions_the_pages_present {Page} (pdf_data : list Page) :
  (∃ split_pdfs,
     OnePage6.split_pdf_in_memory pdf_data = Some split_pdfs ∧
     partition_of (Py.len pdf_data) (seqZ 1 (Py.len pdf_data))
                  (pages_of_group <$> split_pdfs) ∧
     Forall (λ g, content pdf_data (pages_of_group g) = Some (data g)) split_pdfs) ∧
  (pdf_data ≠ [] →
   ∃ split_pdfs,
     TwoPage.split_pdf_in_memory pdf_data = Some split_pdfs ∧
     partition_of (Py.len pdf_data) (seqZ 1 (Py.len pdf_data))
                  (pages_of_group <$> split_pdfs) ∧
     Forall (λ g, content pdf_data (pages_of_group g) = Some (data g)) split_pdfs) ∧
  (pdf_data ≠ [] →
   ∃ split_pdfs,
     Document.split_pdf_in_memory pdf_data = Some split_pdfs ∧
     partition_of (Py.len pdf_data) (seqZ 1 (Py.len pdf_data))
                  (pages_of_range <$> split_pdfs) ∧
     Forall (λ g, content pdf_data (pages_of_range g) = Some (rdata g)) split_pdfs) ∧
  (pdf_data = [] →
   TwoPage.split_pdf_in_memory pdf_data = None ∧
   Document.split_pdf_in_memory pdf_data = None) ∧
  (∀ requested,
     StronglySorted Z.lt requested →
     Forall (λ p, 1 ≤ p) requested →
     ∃ split_pdfs,
       ErrorPage6.extract_specific_pages_from_pdf pdf_data requested = Some split_pdfs ∧
       partition_of (Py.len pdf_data) (filter (λ p, p ≤ Py.len pdf_data) requested)
                    (pages_of_group <$> split_pdfs) ∧
       Forall (λ g, content pdf_data (pages_of_group g) = Some (data g)) split_pdfs) ∧
  (∀ problems,
     Forall (λ problem, 1 ≤ start_page problem) problems →
     StronglySorted Z.lt (concat (requested_pages <$> problems)) →
     partition_of (Py.len pdf_data)
                  (filter (λ p, p ≤ Py.len pdf_data) (concat (requested_pages <$> problems)))
                  (pages_of_problem (Py.len pdf_data) <$> problems) ∧
     Forall (λ problem, ∃ chunk,
               Workbook.problem_chunk pdf_data problem = Some chunk ∧
               content pdf_data (pages_of_problem (Py.len pdf_data) problem) = Some chunk)
            problems).
Proof.
  split; [apply onepage_split_partition|].
  split; [apply twopage_split_partition|].
  split; [apply document_split_partition|].
  split; [by intros ->|].
  split; [apply extract_partition|apply workbook_chunks_partition].
Qed.

(** * The deletion sweep *)

Section db_ok.
Context {Page : Type} (E : Env Page).
Hypothesis no_raise : ∀ c, raises E c = false.

Lemma metadata_where_ok conds w :
  Db.metadata_where E conds w =
    (Return (filter (λ doc, forallb (λ c, holds c doc.2) conds)
                    (map_to_list (document_metadata w))), w).
Proof.
  unfold Db.metadata_where. by erewrite bind_return; [|by apply call_ok].
Qed.

Lemma delete_transcription_ok id w :
  Db.delete_transcription E id w =
    (Return tt, mkWorld (document_metadata w) (delete id (document_transcriptions w))
                        (workbook_transcriptions w) (dispatched w)).
Proof.
  unfold Db.delete_transcription. by erewrite bind_return; [|by apply call_ok].
Qed.

Lemma delete_transcriptions_ok d w :
  Db.delete_transcriptions E d w =
    (Return tt, mkWorld (document_metadata w)
                        (swept_table [d] (document_transcriptions w))
                        (workbook_transcriptions w) (dispatched w)).
Proof.
  unfold Db.delete_transcriptions. erewrite bind_return; [|by apply call_ok].
  do 3 f_equal. unfold swept_table. apply map_filter_ext. intros k row _. simpl.
  rewrite Forall_singleton. done.
Qed.

Lemma update_status_eq_id_ok d status w :
  Db.update_status_eq_id E d status w =
    (Return tt, mkWorld (swept_metadata status [d] (document_metadata w))
                        (document_transcriptions w)
                        (workbook_transcriptions w) (dispatched w)).
Proof.
  unfold Db.update_status_eq_id. by erewrite bind_return; [|by apply call_ok].
Qed.

Lemma update_status_ok d status w :
  is_Some (document_metadata w !! d) →
  Db.update_status E d status w =
    (Return tt, mkWorld (swept_metadata status [d] (document_metadata w))
                        (document_transcriptions w)
                        (workbook_transcriptions w) (dispatched w)).
Proof.
  intros [md Hmd]. unfold Db.update_status. erewrite bind_return; [|by apply call_ok].
  rewrite Hmd. do 3 f_equal. simpl. apply map_eq. intros d'.
  rewrite lookup_alter, lookup_insert. case_decide; [|done]. subst. by rewrite Hmd.
Qed.

(** Deleting the rows of a document one by one removes exactly its rows. *)
Lemma delete_rows_ok (l : list (nat * Transcription)) w :
  for_each l (λ tdoc, Db.delete_transcription E tdoc.1) w =
    (Return tt, mkWorld (document_metadata w)
                        (foldl (λ table tdoc, delete tdoc.1 table)
                               (document_transcriptions w) l)
                        (workbook_transcriptions w) (dispatched w)).
Proof.
  revert w. induction l as [|tdoc l IH]; intros w.
  - simpl. unfold ret. by rewrite world_eta.
  - cbn [for_each]. erewrite bind_return; [|apply delete_transcription_ok].
    by rewrite IH.
Qed.

Lemma lookup_foldl_delete (l : list (nat * Transcription))
    (table : gmap nat Transcription) (k : nat) :
  foldl (λ table tdoc, delete tdoc.1 table) table l !! k =
    if decide (k ∈ l.*1) then None else table !! k.
Proof.
  revert table. induction l as [|tdoc l IH]; intros table; [done|].
  cbn [foldl]. rewrite IH, fmap_cons.
  destruct (decide (k ∈ l.*1)) as [Hin|Hin].
  - rewrite decide_True; [done|by right].
  - destruct (decide (k = tdoc.1)) as [->|Hne].
    + rewrite decide_True by left. apply lookup_delete_eq.
    + rewrite decide_False, lookup_delete_ne; [done..|].
      intros [?|?]%elem_of_cons; done.
Qed.

Lemma onepage_delete_transcriptions_of_ok d w :
  OnePage6.delete_transcriptions_of E d w =
    (Return tt, mkWorld (document_metadata w)
                        (swept_table [d] (document_transcriptions w))
                        (workbook_transcriptions w) (dispatched w)).
Proof.
  unfold OnePage6.delete_transcriptions_of.
  erewrite bind_return; [|by apply transcriptions_where_ok].
  rewrite delete_rows_ok. do 3 f_equal. apply map_eq. intros k.
  rewrite lookup_foldl_delete. unfold swept_table.
  destruct (document_transcriptions w !! k) as [row|] eqn:Hrow.
  - case_decide as Hin.
    + symmetry. apply map_lookup_filter_None. right. intros row' Hrow'.
      rewrite Hrow in Hrow'. injection Hrow' as <-. simpl. rewrite Forall_singleton.
      apply list_elem_of_fmap in Hin as ([k' row'] & -> & Hin).
      apply list_elem_of_filter in Hin as [Hd Hin]. apply bool_decide_unpack in Hd.
      apply elem_of_map_to_list in Hin. simpl in *. rewrite Hrow in Hin.
      injection Hin as <-. by intros ?.
    + symmetry. apply map_lookup_filter_Some. split; [exact Hrow|]. simpl.
      rewrite Forall_singleton. intros Hd. apply Hin.
      apply list_elem_of_fmap. exists (k, row). split; [done|].
      apply list_elem_of_filter. split; [by apply bool_decide_pack|].
      by apply elem_of_map_to_list.
  - case_decide; symmetry; apply map_lookup_filter_None; by left.
Qed.

End db_ok.

(** ** The closed form of the sweep *)

Lemma swept_table_cons d ids (table : gmap nat Transcription) :
  swept_table ids (swept_table [d] table) = swept_table (d :: ids) table.
Proof.
  unfold swept_table. rewrite map_filter_filter. apply map_filter_ext.
  intros k row _. simpl. split.
  - intros [H1 H2]. constructor; [by inversion H2|done].
  - intros H. inversion H; subst. split; [done|]. by constructor.
Qed.

Lemma swept_table_nil (table : gmap nat Transcription) : swept_table [] table = table.
Proof.
  unfold swept_table. apply map_filter_id. intros k row _. simpl. constructor.
Qed.

Lemma lookup_swept_table ids (table : gmap nat Transcription) k row :
  swept_table ids table !! k = Some row ↔
  table !! k = Some row ∧ ∀ d, d ∈ ids → t_document_id row ≠ Some d.
Proof.
  unfold swept_table. rewrite map_lookup_filter_Some. simpl. by rewrite Forall_forall.
Qed.

Lemma lookup_swept_metadata_ne status ids (metadata : gmap string Metadata) d :
  d ∉ ids → swept_metadata status ids metadata !! d = metadata !! d.
Proof.
  unfold swept_metadata. revert metadata. induction ids as [|d' ids IH]; intros metadata Hd.
  - done.
  - apply not_elem_of_cons in Hd as [Hne Hd]. cbn [foldl].
    rewrite IH by done. by apply lookup_alter_ne.
Qed.

Lemma lookup_swept_metadata_eq status ids (metadata : gmap string Metadata) d :
  d ∈ ids →
  swept_metadata status ids metadata !! d = Db.set_status status <$> metadata !! d.
Proof.
  revert metadata. induction ids as [|d' ids IH]; intros metadata Hd.
  - by apply elem_of_nil in Hd.
  - change (swept_metadata status (d' :: ids) metadata)
      with (swept_metadata status ids (alter (Db.set_status status) d' metadata)).
    destruct (decide (d ∈ ids)) as [Hin|Hin].
    + rewrite IH by done. destruct (decide (d' = d)) as [->|Hne].
      * rewrite lookup_alter_eq. by destruct (metadata !! d).
      * by rewrite lookup_alter_ne.
    + apply elem_of_cons in Hd as [->|Hd]; [|done].
      rewrite lookup_swept_metadata_ne by done. apply lookup_alter_eq.
Qed.

Lemma elem_of_docs_with_status status w d :
  d ∈ (docs_with_status status w).*1 ↔ status_of w d = Some status.
Proof.
  unfold docs_with_status, status_of. rewrite list_elem_of_fmap. split.
  - intros ([d' md] & -> & Hin). apply list_elem_of_filter in Hin as [Hst Hin].
    cbn in Hst. apply andb_prop_elim in Hst as [Hst _].
    apply bool_decide_unpack in Hst. apply elem_of_map_to_list in Hin.
    simpl in *. by rewrite Hin, <-Hst.
  - intros Hst. destruct (document_metadata w !! d) as [md|] eqn:Hmd; [|done].
    injection Hst as Hst. exists (d, md). split; [done|].
    apply list_elem_of_filter. split; [|by apply elem_of_map_to_list].
    cbn. apply andb_prop_intro. split; [by apply bool_decide_pack|done].
Qed.

(** No row refers to a document whose rows were swept. *)
Lemma rows_of_swept w ids d :
  d ∈ ids →
  rows_of (mkWorld (document_metadata w) (swept_table ids (document_transcriptions w))
                   (workbook_transcriptions w) (dispatched w)) d = [].
Proof.
  intros Hin. unfold rows_of. simpl.
  destruct (filter _ _) as [|[k row] l] eqn:Hrows; [done|].
  assert ((k, row) ∈ (k, row) :: l) as Hrow by left. rewrite <-Hrows in Hrow.
  apply list_elem_of_filter in Hrow as [Hd Hrow]. apply elem_of_map_to_list in Hrow.
  apply lookup_swept_table in Hrow as [_ Hrow]. by destruct (Hrow d Hin).
Qed.

Lemma rows_of_nil w d :
  rows_of w d = [] ↔
  ∀ k row, document_transcriptions w !! k = Some row → t_document_id row ≠ Some d.
Proof.
  unfold rows_of. split.
  - intros Hnil k row Hrow Hd.
    assert ((k, row) ∈ filter (λ tdoc : nat * Transcription, t_document_id tdoc.2 = Some d)
                              (map_to_list (document_transcriptions w))) as Hin.
    { apply list_elem_of_filter. split; [done|]. by apply elem_of_map_to_list. }
    rewrite Hnil in Hin. by apply elem_of_nil in Hin.
  - intros Hall. destruct (filter _ _) as [|[k row] l] eqn:Hrows; [done|].
    assert ((k, row) ∈ (k, row) :: l) as Hrow by left. rewrite <-Hrows in Hrow.
    apply list_elem_of_filter in Hrow as [Hd Hrow]. apply elem_of_map_to_list in Hrow.
    by destruct (Hall k row Hrow).
Qed.

Lemma for_each_guard {A} (l : list A) (body : A → M unit) w :
  match l with
  | [] => ret tt
  | _ :: _ => for_each l body
  end w = for_each l body w.
Proof. by destruct l. Qed.

Section sweep.
Context {Page : Type} (E : Env Page).
Hypothesis no_raise : ∀ c, raises E c = false.

Lemma purge_loop (ids : list string) w :
  for_each ids (OnePage6.delete_transcriptions_of E) w =
    (Return tt, mkWorld (document_metadata w)
                        (swept_table ids (document_transcriptions w))
                        (workbook_transcriptions w) (dispatched w)).
Proof.
  revert w. induction ids as [|d ids IH]; intros w.
  - simpl. unfold ret. by rewrite swept_table_nil, world_eta.
  - cbn [for_each].
    erewrite bind_return; [|by apply onepage_delete_transcriptions_of_ok].
    rewrite IH. simpl. by rewrite swept_table_cons.
Qed.

Lemma firestore_sweep_loop (docs : list (string * Metadata)) w :
  (∀ doc, doc ∈ docs → is_Some (document_metadata w !! doc.1)) →
  for_each docs (λ doc,
    OnePage6.delete_transcriptions_of E doc.1 ;;;
    Db.update_status E doc.1 "deleted_applied") w =
    (Return tt, mkWorld (swept_metadata "deleted_applied" docs.*1 (document_metadata w))
                        (swept_table docs.*1 (document_transcriptions w))
                        (workbook_transcriptions w) (dispatched w)).
Proof.
  revert w. induction docs as [|doc docs IH]; intros w Hdom.
  - simpl. unfold ret. by rewrite swept_table_nil, world_eta.
  - cbn [for_each].
    erewrite bind_return.
    2:{ erewrite bind_return; [|by apply onepage_delete_transcriptions_of_ok].
        apply update_status_ok; [done|]. simpl. apply Hdom. left. }
    rewrite IH.
    + simpl. by rewrite swept_table_cons.
    + intros doc' Hdoc'. simpl.
      destruct (Hdom doc') as [md Hmd]; [by right|].
      destruct (decide (doc'.1 = doc.1)) as [Heq|Hne].
      * rewrite Heq, lookup_alter_eq, <-Heq, Hmd. by eexists.
      * rewrite lookup_alter_ne by done. by eexists.
Qed.

Lemma supabase_sweep_loop (docs : list (string * Metadata)) w :
  for_each docs (λ doc,
    Db.delete_transcriptions E doc.1 ;;;
    Db.update_status_eq_id E doc.1 "deleted_applied") w =
    (Return tt, mkWorld (swept_metadata "deleted_applied" docs.*1 (document_metadata w))
                        (swept_table docs.*1 (document_transcriptions w))
                        (workbook_transcriptions w) (dispatched w)).
Proof.
  revert w. induction docs as [|doc docs IH]; intros w.
  - simpl. unfold ret. by rewrite swept_table_nil, world_eta.
  - cbn [for_each].
    erewrite bind_return.
    2:{ erewrite bind_return; [|by apply delete_transcriptions_ok].
        by apply update_status_eq_id_ok. }
    rewrite IH. simpl. by rewrite swept_table_cons.
Qed.

Lemma onepage_deletion_sweep_run w :
  OnePage6.deletion_sweep E w = (Return tt, onepage_swept w).
Proof.
  unfold OnePage6.deletion_sweep.
  erewrite bind_return; [|by apply metadata_where_ok].
  erewrite bind_return.
  2:{ rewrite for_each_guard. apply firestore_sweep_loop.
      intros [d md] Hdoc. apply list_elem_of_filter in Hdoc as [_ Hdoc].
      apply elem_of_map_to_list in Hdoc. simpl. by eexists. }
  erewrite bind_return; [|by apply metadata_where_ok].
  by rewrite purge_loop.
Qed.

Lemma twopage_deletion_sweep_run w :
  TwoPage.deletion_sweep E w = (Return tt, supabase_swept w).
Proof.
  unfold TwoPage.deletion_sweep.
  erewrite bind_return; [|by apply metadata_where_ok].
  rewrite for_each_guard. by rewrite supabase_sweep_loop.
Qed.

Lemma document_deletion_sweep_run w :
  Document.deletion_sweep E w = (Return tt, supabase_swept w).
Proof.
  unfold Document.deletion_sweep.
  erewrite bind_return; [|by apply metadata_where_ok].
  rewrite for_each_guard. by rewrite supabase_sweep_loop.
Qed.

End sweep.

(** ** What the sweep achieves *)

Lemma status_of_swept_metadata w d ids table wb disp :
  status_of (mkWorld (swept_metadata "deleted_applied" ids (document_metadata w))
                     table wb disp) d =
    if decide (d ∈ ids) then (λ _, "deleted_applied") <$> status_of w d else status_of w d.
Proof.
  unfold status_of. simpl. case_decide.
  - rewrite lookup_swept_metadata_eq by done. by destruct (document_metadata w !! d).
  - by rewrite lookup_swept_metadata_ne.
Qed.

Lemma supabase_swept_deleted w d :
  status_of w d = Some "deleted" →
  rows_of (supabase_swept w) d = [] ∧
  status_of (supabase_swept w) d = Some "deleted_applied".
Proof.
  intros Hst. assert (d ∈ (docs_with_status "deleted" w).*1) as Hin
    by (by apply elem_of_docs_with_status).
  split.
  - by apply rows_of_swept.
  - unfold supabase_swept. rewrite status_of_swept_metadata, decide_True by done.
    by rewrite Hst.
Qed.

Lemma supabase_swept_others w :
  (∀ d, status_of w d ≠ Some "deleted" →
        status_of (supabase_swept w) d = status_of w d) ∧
  (∀ k row, document_transcriptions (supabase_swept w) !! k = Some row ↔
            document_transcriptions w !! k = Some row ∧
            ∀ d, t_document_id row = Some d → status_of w d ≠ Some "deleted").
Proof.
  split.
  - intros d Hst. unfold supabase_swept. rewrite status_of_swept_metadata.
    rewrite decide_False; [done|]. by rewrite elem_of_docs_with_status.
  - intros k row. unfold supabase_swept. simpl. rewrite lookup_swept_table.
    split; intros [Hrow Hd]; (split; [done|]).
    + intros d Hdoc Hst. apply (Hd d); [|done]. by apply elem_of_docs_with_status.
    + intros d Hin Hdoc. apply (Hd d Hdoc). by apply elem_of_docs_with_status.
Qed.

Lemma onepage_swept_status w d :
  status_of (onepage_swept w) d =
    if decide (status_of w d = Some "deleted") then Some "deleted_applied"
    else status_of w d.
Proof.
  unfold onepage_swept. cbn [document_metadata].
  change (status_of (mkWorld ?m ?t ?wb ?dp) d) with (status_of (mkWorld m ∅ wb dp) d).
  unfold status_of. simpl. fold (status_of w d).
  destruct (decide (d ∈ (docs_with_status "deleted" w).*1)) as [Hin|Hin].
  - rewrite lookup_swept_metadata_eq by done. apply elem_of_docs_with_status in Hin.
    rewrite decide_True by done. unfold status_of in Hin.
    by destruct (document_metadata w !! d).
  - rewrite lookup_swept_metadata_ne by done.
    rewrite decide_False; [done|]. by rewrite <-elem_of_docs_with_status.
Qed.

Lemma onepage_swept_rows w k row :
  document_transcriptions (onepage_swept w) !! k = Some row ↔
  document_transcriptions w !! k = Some row ∧
  ∀ d, t_document_id row = Some d →
       status_of w d ≠ Some "deleted" ∧ status_of w d ≠ Some "unprocessed".
Proof.
  unfold onepage_swept. cbn [document_transcriptions document_metadata
    workbook_transcriptions dispatched].
  rewrite !lookup_swept_table.
  assert (∀ d, d ∈ (docs_with_status "unprocessed"
             (mkWorld (swept_metadata "deleted_applied" (docs_with_status "deleted" w).*1
                                      (document_metadata w))
                      (swept_table (docs_with_status "deleted" w).*1
                                   (document_transcriptions w))
                      (workbook_transcriptions w) (dispatched w))).*1
          ↔ status_of w d = Some "unprocessed") as Hun.
  { intros d. rewrite elem_of_docs_with_status, status_of_swept_metadata.
    case_decide as Hin; [|done]. apply elem_of_docs_with_status in Hin.
    rewrite Hin. simpl. split; intros H; inversion H. }
  split.
  - intros [[Hrow Hdel] Hunp]. split; [done|]. intros d Hd. split.
    + intros Hst. apply (Hdel d); [|done]. by apply elem_of_docs_with_status.
    + intros Hst. apply (Hunp d); [|done]. by apply Hun.
  - intros [Hrow Hd]. split; [split; [done|]|].
    + intros d Hin Hdoc. destruct (Hd d Hdoc) as [Hdel _]. apply Hdel.
      by apply elem_of_docs_with_status.
    + intros d Hin Hdoc. destruct (Hd d Hdoc) as [_ Hunp]. apply Hunp. by apply Hun.
Qed.

Lemma onepage_swept_purged w d :
  status_of w d = Some "deleted" ∨ status_of w d = Some "unprocessed" →
  rows_of (onepage_swept w) d = [].
Proof.
  intros Hst. apply rows_of_nil. intros k row Hrow Hd.
  apply onepage_swept_rows in Hrow as [_ Hrow]. destruct (Hrow d Hd). tauto.
Qed.

(** C5 (as stated) fails on the error-recovery script, which runs no
    sweep: a document marked deleted keeps its status and its transcription
    through a run. *)
Lemma error_recovery_runs_no_sweep :
  status_of Scenario.deleted_with_rows "D" = Some "deleted" ∧
  status_of (ErrorPage6.process_error_pages (Scenario.echo ["p1"])
                                            Scenario.deleted_with_rows).2 "D"
    = Some "deleted" ∧
  rows_of (ErrorPage6.process_error_pages (Scenario.echo ["p1"])
                                          Scenario.deleted_with_rows).2 "D"
    = [(1%nat, Scenario.row "gone" 1 "D")].
Proof. repeat split; vm_compute; reflexivity. Qed.

(** C5 (amended): every first-pass script starts with the deletion sweep and
    goes on to select documents in the world the sweep leaves.  When no
    database call raises, the sweep leaves no transcription of a document
    that was marked deleted and that document's status is deleted_applied;
    the one-page script also leaves no transcription of a document that was
    unprocessed; statuses and transcriptions of other documents are as they
    were. *)
Theorem first_pass_runs_start_with_the_sweep {Page} (E : Env Page) (w : World) :
  (∀ c, raises E c = false) →
  (∃ w1,
     OnePage6.deletion_sweep E w = (Return tt, w1) ∧
     OnePage6.process_documents E w =
       try_except (OnePage6.process_unprocessed E) (ret tt) w1 ∧
     (∀ d, status_of w d = Some "deleted" →
           rows_of w1 d = [] ∧ status_of w1 d = Some "deleted_applied") ∧
     (∀ d, status_of w d = Some "unprocessed" →
           rows_of w1 d = [] ∧ status_of w1 d = Some "unprocessed") ∧
     (∀ d, status_of w d ≠ Some "deleted" → status_of w1 d = status_of w d) ∧
     (∀ k row, document_transcriptions w1 !! k = Some row ↔
               document_transcriptions w !! k = Some row ∧
               ∀ d, t_document_id row = Some d →
                    status_of w d ≠ Some "deleted" ∧ status_of w d ≠ Some "unprocessed")) ∧
  (∃ w1,
     TwoPage.deletion_sweep E w = (Return tt, w1) ∧
     TwoPage.process_documents E w =
       try_except (TwoPage.process_unprocessed E) (ret tt) w1 ∧
     Document.deletion_sweep E w = (Return tt, w1) ∧
     Document.process_documents E w =
       try_except (Document.process_unprocessed E) (ret tt) w1 ∧
     (∀ d, status_of w d = Some "deleted" →
           rows_of w1 d = [] ∧ status_of w1 d = Some "deleted_applied") ∧
     (∀ d, status_of w d ≠ Some "deleted" → status_of w1 d = status_of w d) ∧
     (∀ k row, document_transcriptions w1 !! k = Some row ↔
               document_transcriptions w !! k = Some row ∧
               ∀ d, t_document_id row = Some d → status_of w d ≠ Some "deleted")).
Proof.
  intros Hok. split.
  - exists (onepage_swept w). pose proof (onepage_deletion_sweep_run E Hok w) as Hsweep.
    split; [done|]. split.
    { unfold OnePage6.process_documents, try_except. by rewrite (bind_return _ _ _ _ _ Hsweep). }
    split; [|split; [|split]].
    + intros d Hst. split; [apply onepage_swept_purged; by left|].
      by rewrite onepage_swept_status, decide_True.
    + intros d Hst. split; [apply onepage_swept_purged; by right|].
      rewrite onepage_swept_status, decide_False; [done|]. by rewrite Hst.
    + intros d Hst. by rewrite onepage_swept_status, decide_False.
    + apply onepage_swept_rows.
  - exists (supabase_swept w).
    pose proof (twopage_deletion_sweep_run E Hok w) as Htwo.
    pose proof (document_deletion_sweep_run E Hok w) as Hdoc.
    split; [done|]. split.
    { unfold TwoPage.process_documents, try_except. by rewrite (bind_return _ _ _ _ _ Htwo). }
    split; [done|]. split.
    { unfold Document.process_documents, try_except. by rewrite (bind_return _ _ _ _ _ Hdoc). }
    split; [apply supabase_swept_deleted|]. apply supabase_swept_others.
Qed.

Lemma first_pass_sweep_witness :
  (∀ c, raises (Scenario.echo ["p1"]) c = false) ∧
  ∃ w1,
    OnePage6.deletion_sweep (Scenario.echo ["p1"]) Scenario.deleted_with_rows
      = (Return tt, w1) ∧
    rows_of w1 "D" = [] ∧ status_of w1 "D" = Some "deleted_applied".
Proof.
  split; [done|].
  destruct (first_pass_runs_start_with_the_sweep (Scenario.echo ["p1"])
              Scenario.deleted_with_rows) as [(w1 & Hsweep & _ & Hdel & _) _]; [done|].
  exists w1. split; [done|]. by apply Hdel.
Defined.

(** * The status of a document only advances *)

Lemma set_status_same md : Db.set_status (md_status md) md = md.
Proof. by destruct md. Qed.

Lemma set_status_set_status s s' md :
  Db.set_status s (Db.set_status s' md) = Db.set_status s md.
Proof. done. Qed.

Lemma md_status_set_status s md : md_status (Db.set_status s md) = s.
Proof. done. Qed.

Lemma md_path_set_status s md : md_path (Db.set_status s md) = md_path md.
Proof. done. Qed.

Section evolves.
Context {Page : Type} (E : Env Page).

Lemma pages_dispatched_mono d md w w' :
  (∀ e, e ∈ dispatched w → e ∈ dispatched w') →
  pages_dispatched E d md w → pages_dispatched E d md w'.
Proof. intros Hsub (pdf & Hdl & Hall). exists pdf. split; [done|]. auto. Qed.

Lemma status_step_refl d md w : status_step E d md md w.
Proof. split; [by rewrite set_status_same|by left]. Qed.

Lemma status_step_trans d md1 md2 md3 w w' :
  (∀ e, e ∈ dispatched w → e ∈ dispatched w') →
  status_step E d md1 md2 w → status_step E d md2 md3 w' → status_step E d md1 md3 w'.
Proof.
  intros Hsub [Heq1 H1] [Heq2 H2]. split.
  - rewrite Heq2, Heq1 at 1. by rewrite set_status_set_status.
  - assert (pages_dispatched E d md2 w' → pages_dispatched E d md1 w') as Hpath.
    { unfold pages_dispatched. by rewrite Heq1, md_path_set_status. }
    destruct H1 as [H1|[[H1 H1']|(H1 & H1' & Hc1)]], H2 as [H2|[[H2 H2']|(H2 & H2' & Hc2)]];
      try (rewrite H1' in H2; discriminate H2).
    + left. congruence.
    + right. left. split; congruence.
    + right. right. split; [congruence|]. split; [done|]. by apply Hpath.
    + right. left. split; congruence.
    + right. right. split; [done|]. split; [congruence|].
      by eapply pages_dispatched_mono.
Qed.

Lemma evolves_refl w : evolves E w w.
Proof.
  split; [done|]. intros d. destruct (document_metadata w !! d); [|done].
  apply status_step_refl.
Qed.

Lemma evolves_trans w1 w2 w3 : evolves E w1 w2 → evolves E w2 w3 → evolves E w1 w3.
Proof.
  intros [Hsub1 H1] [Hsub2 H2]. split; [auto|]. intros d.
  specialize (H1 d). specialize (H2 d).
  destruct (document_metadata w1 !! d), (document_metadata w2 !! d),
    (document_metadata w3 !! d); try done.
  by eapply status_step_trans.
Qed.

(** A world that differs in the transcriptions only. *)
Lemma evolves_same_metadata w w' :
  document_metadata w' = document_metadata w →
  (∀ e, e ∈ dispatched w → e ∈ dispatched w') →
  evolves E w w'.
Proof.
  intros Hmd Hsub. split; [done|]. intros d. rewrite Hmd.
  destruct (document_metadata w !! d); [|done]. apply status_step_refl.
Qed.

(** ** Computations that keep the relation *)

Lemma keeps_ret {A} (a : A) : keeps E (ret a).
Proof. intros w. apply evolves_refl. Qed.

Lemma keeps_lift {A} (o : option A) : keeps E (lift o).
Proof. intros w. destruct o; apply evolves_refl. Qed.

Lemma bind_evolves {A B} (m : M A) (k : A → M B) w :
  evolves E w (m w).2 →
  (∀ a w1, m w = (Return a, w1) → evolves E w1 (k a w1).2) →
  evolves E w (bind m k w).2.
Proof.
  intros Hm Hk. unfold bind. destruct (m w) as [[a|] w1] eqn:Hrun; [|done].
  eapply evolves_trans; [exact Hm|]. by apply Hk.
Qed.

Lemma try_evolves {A} (m h : M A) w :
  evolves E w (m w).2 → keeps E h → evolves E w (try_except m h w).2.
Proof.
  intros Hm Hh. unfold try_except. destruct (m w) as [[a|] w1]; [done|].
  eapply evolves_trans; [exact Hm|]. apply Hh.
Qed.

Lemma keeps_bind {A B} (m : M A) (k : A → M B) :
  keeps E m → (∀ a, keeps E (k a)) → keeps E (bind m k).
Proof. intros Hm Hk w. apply bind_evolves; [apply Hm|]. intros. apply Hk. Qed.

Lemma keeps_try {A} (m h : M A) : keeps E m → keeps E h → keeps E (try_except m h).
Proof. intros Hm Hh w. by apply try_evolves. Qed.

Lemma for_each_evolves {A} (l : list A) (body : A → M unit) w0 w :
  evolves E w0 w →
  (∀ x w1, x ∈ l → evolves E w0 w1 → evolves E w1 (body x w1).2) →
  evolves E w (for_each l body w).2.
Proof.
  revert w. induction l as [|x l IH]; intros w Hw Hbody; [apply evolves_refl|].
  cbn [for_each]. apply bind_evolves; [apply Hbody; [left|done]|].
  intros [] w1 Hrun. apply IH.
  - eapply evolves_trans; [exact Hw|]. pose proof (Hbody x w (list_elem_of_here _ _) Hw) as H.
    by rewrite Hrun in H.
  - intros y w2 Hy. apply Hbody. by right.
Qed.

Lemma keeps_for_each {A} (l : list A) (body : A → M unit) :
  (∀ x, keeps E (body x)) → keeps E (for_each l body).
Proof.
  intros Hbody w. apply (for_each_evolves l body w); [apply evolves_refl|].
  intros. apply Hbody.
Qed.

Lemma keeps_call c : keeps E (Db.call E c).
Proof. intros w. unfold Db.call. destruct (raises E c); apply evolves_refl. Qed.

Lemma keeps_metadata_where conds : keeps E (Db.metadata_where E conds).
Proof.
  apply keeps_bind; [apply keeps_call|]. intros _ w. apply evolves_refl.
Qed.

Lemma keeps_transcriptions_where d : keeps E (Db.transcriptions_where E d).
Proof.
  apply keeps_bind; [apply keeps_call|]. intros _ w. apply evolves_refl.
Qed.

Lemma keeps_delete_transcription id : keeps E (Db.delete_transcription E id).
Proof.
  apply keeps_bind; [apply keeps_call|]. intros _ w. by apply evolves_same_metadata.
Qed.

Lemma keeps_add_transcription row : keeps E (Db.add_transcription E row).
Proof.
  apply keeps_bind; [apply keeps_call|]. intros _ w. by apply evolves_same_metadata.
Qed.

Lemma keeps_delete_transcriptions_of d : keeps E (OnePage6.delete_transcriptions_of E d).
Proof.
  apply keeps_bind; [apply keeps_transcriptions_where|]. intros l.
  apply keeps_for_each. intros. apply keeps_delete_transcription.
Qed.

(** Setting a status is a step when the move is allowed. *)
Lemma update_status_evolves d status w :
  (∀ md, document_metadata w !! d = Some md →
         md_status md = status ∨
         (md_status md = "deleted" ∧ status = "deleted_applied") ∨
         (md_status md = "unprocessed" ∧ status = "processed" ∧
          pages_dispatched E d md w)) →
  evolves E w (Db.update_status E d status w).2.
Proof.
  intros Hmove. unfold Db.update_status. apply bind_evolves; [apply keeps_call|].
  intros [] w1 Hcall.
  assert (w1 = w) as Hw.
  { unfold Db.call in Hcall. destruct (raises E _); by injection Hcall. }
  clear Hcall. subst w1.
  destruct (document_metadata w !! d) as [md|] eqn:Hmd; [|apply evolves_refl].
  split; [done|]. intros d'. simpl. destruct (decide (d = d')) as [<-|Hne].
  - rewrite lookup_insert_eq, Hmd. split; [done|]. simpl.
    destruct (Hmove md eq_refl) as [?|[?|(? & ? & ?)]]; [by left|by right; left|].
    right. right. by repeat split.
  - rewrite lookup_insert_ne by done.
    destruct (document_metadata w !! d') as [md'|]; [|done].
    pose proof (status_step_refl d' md' w) as [Heq Hor]. split; [done|].
    destruct Hor as [?|[?|(Hu & Hp & Hd)]]; [by left|by right; left|].
    rewrite Hu in Hp. discriminate Hp.
Qed.

End evolves.

Section one_page_run.
Context {Page : Type} (E : Env Page).

Lemma metadata_where_inv conds w docs w1 :
  Db.metadata_where E conds w = (Return docs, w1) →
  w1 = w ∧ docs = filter (λ doc, forallb (λ c, holds c doc.2) conds)
                         (map_to_list (document_metadata w)).
Proof.
  unfold Db.metadata_where, bind, Db.call. destruct (raises E _); [done|].
  by intros [= <- <-].
Qed.

(** A document listed by a query has the row the query saw. *)
Lemma queried_doc (Q : string * Metadata → Prop) `{∀ doc, Decision (Q doc)} w doc :
  doc ∈ filter Q (map_to_list (document_metadata w)) →
  document_metadata w !! doc.1 = Some doc.2 ∧ Q doc.
Proof.
  intros Hin. apply list_elem_of_filter in Hin as [HP Hin]. destruct doc as [d md].
  by apply elem_of_map_to_list in Hin.
Qed.

(** A deleted document stays deleted or becomes deleted_applied; an
    unprocessed one stays unprocessed or becomes processed. *)
Lemma evolves_from_deleted w w' d md :
  evolves E w w' → document_metadata w !! d = Some md →
  md_status md = "deleted" ∨ md_status md = "deleted_applied" →
  ∃ md', document_metadata w' !! d = Some md' ∧
         (md_status md' = "deleted" ∨ md_status md' = "deleted_applied").
Proof.
  intros [_ Hev] Hmd Hst. specialize (Hev d). rewrite Hmd in Hev.
  destruct (document_metadata w' !! d) as [md'|]; [|done]. exists md'. split; [done|].
  destruct Hev as [_ [Heq|[[_ Heq]|(Hu & _)]]].
  - rewrite Heq. done.
  - by right.
  - destruct Hst as [Hst|Hst]; rewrite Hst in Hu; discriminate Hu.
Qed.

Lemma evolves_from_unprocessed w w' d md :
  evolves E w w' → document_metadata w !! d = Some md →
  md_status md = "unprocessed" →
  ∃ md', document_metadata w' !! d = Some md' ∧ md_path md' = md_path md ∧
         (md_status md' = "unprocessed" ∨ md_status md' = "processed").
Proof.
  intros [_ Hev] Hmd Hst. specialize (Hev d). rewrite Hmd in Hev.
  destruct (document_metadata w' !! d) as [md'|]; [|done]. exists md'. split; [done|].
  destruct Hev as [Hset Hor]. split; [by rewrite Hset|].
  destruct Hor as [Heq|[[Hd _]|(_ & Hp & _)]].
  - left. congruence.
  - rewrite Hst in Hd. discriminate Hd.
  - by right.
Qed.

Lemma sweep_deleted_step w0 w1 doc :
  document_metadata w0 !! doc.1 = Some doc.2 →
  md_status doc.2 = "deleted" →
  evolves E w0 w1 →
  evolves E w1 ((OnePage6.delete_transcriptions_of E doc.1 ;;;
                 Db.update_status E doc.1 "deleted_applied") w1).2.
Proof.
  intros Hmd Hst Hev. apply bind_evolves; [apply keeps_delete_transcriptions_of|].
  intros [] w2 Hrun.
  assert (evolves E w0 w2) as Hev2.
  { eapply evolves_trans; [exact Hev|].
    pose proof (keeps_delete_transcriptions_of E doc.1 w1) as H. by rewrite Hrun in H. }
  destruct (evolves_from_deleted w0 w2 doc.1 doc.2 Hev2 Hmd) as (md2 & Hmd2 & Hst2);
    [by left|].
  apply update_status_evolves. intros md Hmd'. rewrite Hmd2 in Hmd'. injection Hmd' as <-.
  destruct Hst2 as [?|?]; [right; left; by split|by left].
Qed.

Lemma onepage_sweep_keeps : keeps E (OnePage6.deletion_sweep E).
Proof.
  intros w. unfold OnePage6.deletion_sweep.
  apply bind_evolves; [apply keeps_metadata_where|].
  intros deleted_docs w1 Hq. apply metadata_where_inv in Hq as [-> ->].
  apply bind_evolves.
  - rewrite for_each_guard. apply (for_each_evolves E _ _ w); [apply evolves_refl|].
    intros doc w1 Hdoc Hev.
    apply queried_doc in Hdoc as [Hmd Hst]. cbn in Hst.
    apply andb_prop_elim in Hst as [Hst _].
    apply bool_decide_unpack in Hst. by apply (sweep_deleted_step w).
  - intros [] w1 _. apply keeps_bind; [apply keeps_metadata_where|].
    intros unprocessed_docs. apply keeps_for_each.
    intros d. apply keeps_delete_transcriptions_of.
Qed.

Lemma onepage_loop_pages (pdf_data : list Page) (m : nat) (k : Z) acc :
  0 ≤ k → k + Z.of_nat m ≤ Py.len pdf_data →
  ∃ groups,
    Py.for_ (seqZ k (Z.of_nat m)) (λ split_pdfs i,
      pg ← Py.getitem pdf_data i;
      Some (split_pdfs ++ [mkPagePdf ("page_" +:+ pretty (i + 1)) [pg] (i + 1)])) acc
      = Some (acc ++ groups) ∧
    page <$> groups = seqZ (k + 1) (Z.of_nat m).
Proof.
  revert k acc. induction m as [|m IH]; intros k acc Hk Hlen.
  - exists []. simpl. by rewrite app_nil_r.
  - rewrite seqZ_succ. cbn [Py.for_].
    destruct (getitem_in_range pdf_data k) as (pg & -> & Hpg); [lia|]. simpl.
    destruct (IH (k + 1) (acc ++ [mkPagePdf ("page_" +:+ pretty (k + 1)) [pg] (k + 1)]))
      as (groups & Hrun & Hpages); [lia..|].
    exists (mkPagePdf ("page_" +:+ pretty (k + 1)) [pg] (k + 1) :: groups).
    split; [rewrite <-app_assoc in Hrun; exact Hrun|].
    rewrite fmap_cons, Hpages, seqZ_succ. done.
Qed.

(** The one-page splitter returns one group per page, in order. *)
Lemma onepage_split_pages (pdf_data : list Page) :
  ∃ split_pdfs,
    OnePage6.split_pdf_in_memory pdf_data = Some split_pdfs ∧
    page <$> split_pdfs = seqZ 1 (Py.len pdf_data).
Proof.
  destruct (onepage_loop_pages pdf_data (length pdf_data) 0 []) as (groups & Hrun & Hpages);
    [done|unfold Py.len; lia|].
  exists groups. split; [|done].
  unfold OnePage6.split_pdf_in_memory, Py.range, Py.len. by rewrite Z.sub_0_r.
Qed.

(** The loop body of the first-pass run: nothing happens when the download
    raises; otherwise every page is dispatched and then the status is set. *)
Lemma onepage_process_doc_cases doc w :
  (download E firebase_bucket (md_path doc.2) = None ∧
   OnePage6.process_doc E doc w = (Return tt, w)) ∨
  (∃ pdf_data split_pdfs,
     download E firebase_bucket (md_path doc.2) = Some pdf_data ∧
     OnePage6.split_pdf_in_memory pdf_data = Some split_pdfs ∧
     page <$> split_pdfs = seqZ 1 (Py.len pdf_data) ∧
     OnePage6.process_doc E doc w =
       (Return tt,
        (Db.update_status E doc.1 "processed"
           (after_batch E (first_pass_transcription E) (md_file_name doc.2) doc.1
                        split_pdfs w)).2)).
Proof.
  unfold OnePage6.process_doc.
  destruct (download E firebase_bucket (md_path doc.2)) as [pdf_data|] eqn:Hdl.
  - right. destruct (onepage_split_pages pdf_data) as (split_pdfs & Hsplit & Hpages).
    exists pdf_data, split_pdfs. split; [done|]. split; [done|]. split; [done|].
    unfold try_except.
    erewrite bind_return; [|by apply lift_some].
    erewrite bind_return; [|by apply lift_some].
    erewrite bind_return.
    2:{ rewrite (for_each_batches E _ (first_pass_transcription E) (md_file_name doc.2) doc.1).
        - by rewrite batches_concat.
        - intros. apply onepage_page_batch. }
    by destruct (Db.update_status E doc.1 "processed" _) as [[[]|] w'].
  - left. split; [done|]. erewrite try_raise; [done|].
    erewrite bind_raise; [done|]. by apply lift_none.
Qed.

Lemma onepage_process_doc_step w0 w1 doc :
  document_metadata w0 !! doc.1 = Some doc.2 →
  md_status doc.2 = "unprocessed" →
  evolves E w0 w1 →
  evolves E w1 (OnePage6.process_doc E doc w1).2.
Proof.
  intros Hmd Hst Hev.
  destruct (onepage_process_doc_cases doc w1)
    as [[_ ->]|(pdf_data & split_pdfs & Hdl & Hsplit & Hpages & ->)];
    [apply evolves_refl|]. simpl.
  set (w2 := after_batch E (first_pass_transcription E) (md_file_name doc.2) doc.1
                         split_pdfs w1).
  assert (evolves E w1 w2) as Hev12.
  { apply evolves_same_metadata; [done|]. intros e He. simpl. apply elem_of_app. by left. }
  eapply evolves_trans; [exact Hev12|].
  destruct (evolves_from_unprocessed w0 w2 doc.1 doc.2) as (md2 & Hmd2 & Hpath & Hst2);
    [by eapply evolves_trans|done..|].
  apply update_status_evolves. intros md Hmd'. rewrite Hmd2 in Hmd'. injection Hmd' as <-.
  destruct Hst2 as [Hun|Hpr]; [|by left].
  right. right. split; [done|]. split; [done|].
  exists pdf_data. split; [by rewrite Hpath|].
  intros p Hp. simpl. apply elem_of_app. right.
  apply list_elem_of_fmap.
  assert (p ∈ page <$> split_pdfs) as Hin.
  { rewrite Hpages. apply elem_of_seqZ. lia. }
  apply list_elem_of_fmap in Hin as (pdf & -> & Hin). by exists pdf.
Qed.

Lemma onepage_process_unprocessed_keeps : keeps E (OnePage6.process_unprocessed E).
Proof.
  intros w. unfold OnePage6.process_unprocessed.
  apply bind_evolves; [apply keeps_metadata_where|].
  intros docs w1 Hq. apply metadata_where_inv in Hq as [-> ->].
  rewrite for_each_guard. apply (for_each_evolves E _ _ w); [apply evolves_refl|].
  intros doc w1 Hdoc Hev.
  apply queried_doc in Hdoc as [Hmd Hst]. simpl in Hst.
  apply andb_prop_elim in Hst as [Hst _]. apply bool_decide_unpack in Hst.
  by apply (onepage_process_doc_step w).
Qed.

Lemma onepage_process_documents_keeps : keeps E (OnePage6.process_documents E).
Proof.
  apply keeps_try; [|apply keeps_ret].
  apply keeps_bind; [apply onepage_sweep_keeps|].
  intros _. apply onepage_process_unprocessed_keeps.
Qed.

(** The error-recovery run leaves the metadata table as it is. *)
Lemma error_recovery_keeps_metadata w :
  document_metadata (ErrorPage6.process_error_pages E w).2 = document_metadata w.
Proof.
  unfold ErrorPage6.process_error_pages, try_except, bind.
  destruct (Db.metadata_where E _ w) as [[docs|] w1] eqn:Hq; [|].
  - apply metadata_where_inv in Hq as [-> _]. rewrite for_each_guard.
    destruct (for_each_invariant (λ w', document_metadata w' = document_metadata w)
                docs (ErrorPage6.process_doc E) w) as (w' & -> & Hmd); [done| |done].
    intros doc w1 _ Hw1. destruct (error_process_doc_total E doc w1) as (groups & ->).
    eexists. split; [done|]. done.
  - unfold Db.metadata_where, bind, Db.call in Hq. destruct (raises E _); [|done].
    by injection Hq as <-.
Qed.

End one_page_run.

Lemma status_step_advances {Page} (E : Env Page) d md md' w :
  status_step E d md md' w → status_advances (md_status md) (md_status md').
Proof.
  intros [_ [Heq|[[Hd Ha]|(Hu & Hp & _)]]].
  - left. done.
  - right. exists 2%nat, 3%nat. rewrite Hd, Ha. repeat split. lia.
  - right. exists 0%nat, 1%nat. rewrite Hu, Hp. repeat split. lia.
Qed.

(** The two Firestore scripts keep the order of the statuses: in a
    first-pass run of the one-page script, whatever raises, the
    metadata row of a document changes in its status only, and the status
    stays what it is, or goes from deleted to deleted_applied, or goes from
    unprocessed to processed after every page of the document has been
    handed to the transcription workers; in all cases it advances on the path
    unprocessed → processed → deleted → deleted_applied.  An error-recovery
    run leaves the metadata table as it is. *)
Theorem status_only_advances {Page} (E : Env Page) (w : World) (d : string)
    (md : Metadata) :
  document_metadata w !! d = Some md →
  (∃ md',
     document_metadata (OnePage6.process_documents E w).2 !! d = Some md' ∧
     md' = Db.set_status (md_status md') md ∧
     status_advances (md_status md) (md_status md') ∧
     (md_status md' = md_status md ∨
      (md_status md = "deleted" ∧ md_status md' = "deleted_applied") ∨
      (md_status md = "unprocessed" ∧ md_status md' = "processed" ∧
       pages_dispatched E d md (OnePage6.process_documents E w).2))) ∧
  document_metadata (ErrorPage6.process_error_pages E w).2 = document_metadata w ∧
  status_of (ErrorPage6.process_error_pages E w).2 d = Some (md_status md).
Proof.
  intros Hmd. split; [|split].
  - destruct (onepage_process_documents_keeps E w) as [_ Hev]. specialize (Hev d).
    rewrite Hmd in Hev.
    destruct (document_metadata (OnePage6.process_documents E w).2 !! d) as [md'|];
      [|done].
    exists md'. split; [done|]. split; [apply Hev|].
    split; [by eapply status_step_advances|apply Hev].
  - apply error_recovery_keeps_metadata.
  - unfold status_of. by rewrite error_recovery_keeps_metadata, Hmd.
Qed.

Lemma status_only_advances_witness :
  document_metadata Scenario.three_pages_uploaded !! "C"
    = Some (mkMetadata "c.pdf" "docs/c.pdf" "" "unprocessed" None (Some 6)) ∧
  ∃ md',
    document_metadata (OnePage6.process_documents (Scenario.echo ["p1"; "p2"; "p3"])
                                                  Scenario.three_pages_uploaded).2 !! "C"
      = Some md' ∧
    status_advances "unprocessed" (md_status md') ∧
    status_of (ErrorPage6.process_error_pages (Scenario.echo ["p1"; "p2"; "p3"])
                                              Scenario.three_pages_uploaded).2 "C"
      = Some "unprocessed".
Proof.
  split; [reflexivity|].
  destruct (status_only_advances (Scenario.echo ["p1"; "p2"; "p3"])
              Scenario.three_pages_uploaded "C"
              (mkMetadata "c.pdf" "docs/c.pdf" "" "unprocessed" None (Some 6)))
    as ((md' & Hmd' & _ & Hadv & _) & _ & Hrec); [reflexivity|].
  exists md'. split; [exact Hmd'|]. split; [exact Hadv|exact Hrec].
Defined.

(** The end-to-end scenario of the specification: a three-page document,
    first pass, one page per group; three records for pages 1, 2 and 3, and
    the status goes from unprocessed to processed. *)
Example first_pass_scenario :
  status_of Scenario.three_pages_uploaded "C" = Some "unprocessed" ∧
  status_of (OnePage6.process_documents (Scenario.echo ["p1"; "p2"; "p3"])
                                        Scenario.three_pages_uploaded).2 "C"
    = Some "processed" ∧
  dispatched (OnePage6.process_documents (Scenario.echo ["p1"; "p2"; "p3"])
                                         Scenario.three_pages_uploaded).2
    = [("C", 1); ("C", 2); ("C", 3)] ∧
  size (document_transcriptions
          (OnePage6.process_documents (Scenario.echo ["p1"; "p2"; "p3"])
                                      Scenario.three_pages_uploaded).2) = 3%nat.
Proof. repeat split; vm_compute; reflexivity. Qed.

(** C6 fails on the two Supabase first-pass scripts, which set the status
    by file name, not by document id: with a file name used twice, a run
    that processes the new upload B also sets the swept document A from
    deleted_applied back to processed, which is no advance on the path
    unprocessed → processed → deleted → deleted_applied. *)
Example supabase_status_update_by_file_name :
  status_of Scenario.reupload "A" = Some "deleted_applied" ∧
  status_of (TwoPage.process_documents (Scenario.echo ["p1"]) Scenario.reupload).2 "A"
    = Some "processed" ∧
  status_of (Document.process_documents (Scenario.echo ["p1"]) Scenario.reupload).2 "A"
    = Some "processed" ∧
  ¬ status_advances "deleted_applied" "processed".
Proof.
  split; [reflexivity|]. split; [vm_compute; reflexivity|].
  split; [vm_compute; reflexivity|].
  intros [Heq|(m & n & Hm & Hn & Hlt)]; [discriminate Heq|].
  vm_compute in Hm, Hn. injection Hm as <-. injection Hn as <-. lia.
Qed.

(** * Convergence of the error-recovery run *)

Lemma dispatched_pages_app w d (trace : list (string * Z)) md tr wb :
  dispatched_pages (mkWorld md tr wb (dispatched w ++ trace)) d =
    dispatched_pages w d ++ (snd <$> filter (λ e, e.1 = d) trace).
Proof. unfold dispatched_pages. simpl. by rewrite filter_app, fmap_app. Qed.

Lemma filter_other_doc {Page} d d' (batch : list (PagePdf Page)) :
  d' ≠ d → filter (λ e : string * Z, e.1 = d) ((λ pdf, (d', page pdf)) <$> batch) = [].
Proof.
  intros Hne. induction batch as [|pdf batch IH]; [done|].
  rewrite fmap_cons, filter_cons_False by done. done.
Qed.

Section convergence.
Context {Page : Type}.

(** Recorded pages stay recorded through the loop body. *)
Lemma error_process_doc_recorded (E : Env Page) doc w d p :
  p ∈ recorded_pages w d → p ∈ recorded_pages (ErrorPage6.process_doc E doc w).2 d.
Proof.
  intros Hp. destruct (error_process_doc_total E doc w) as (groups & ->). simpl.
  apply recorded_pages_after_batch. by left.
Qed.

Lemma error_process_doc_complete_mono (E : Env Page) doc w d N :
  complete w d N → complete (ErrorPage6.process_doc E doc w).2 d N.
Proof. intros Hc p Hp. by apply error_process_doc_recorded, Hc. Qed.

(** The loop body dispatches pages of its own document only. *)
Lemma error_process_doc_other (E : Env Page) doc w d :
  doc.1 ≠ d →
  dispatched_pages (ErrorPage6.process_doc E doc w).2 d = dispatched_pages w d.
Proof.
  intros Hne. destruct (error_process_doc_total E doc w) as (groups & ->). simpl.
  unfold after_batch. rewrite dispatched_pages_app, filter_other_doc by done.
  by rewrite app_nil_r.
Qed.

(** For a complete document the missing-page computation returns the empty
    list, whether listing the recorded pages raises or not. *)
Lemma complete_nothing_missing (E : Env Page) w d N :
  complete w d N → ErrorPage6.get_missing_pages E d N w = (Return [], w).
Proof.
  intros Hc. destruct (raises E (Query_transcriptions d)) eqn:Hr.
  - by apply get_missing_pages_raises.
  - destruct (get_missing_pages_ok E d N w Hr) as (missing & Hrun & _ & Hin).
    rewrite Hrun. destruct missing as [|p missing]; [done|].
    destruct (proj1 (Hin p)) as [Hp Hn]; [left|]. destruct Hn. by apply Hc.
Qed.

Lemma complete_skipped (E : Env Page) doc w N :
  md_total_pages doc.2 = Some N →
  complete w doc.1 N →
  ErrorPage6.process_doc E doc w = (Return tt, w).
Proof.
  intros Htotal Hc. unfold ErrorPage6.process_doc. rewrite Htotal. simpl.
  destruct (negb (N =? 0)); simpl; [|done].
  by rewrite (bind_return _ _ _ _ _ (complete_nothing_missing E w doc.1 N Hc)).
Qed.

(** With no page blocked and no call raising, the loop body records every
    missing page the document has. *)
Lemma error_process_doc_completes (E : Env Page) doc w N pdf_data :
  (∀ c, raises E c = false) →
  md_total_pages doc.2 = Some N →
  download E firebase_bucket (md_path doc.2) = Some pdf_data →
  N ≤ Py.len pdf_data →
  (∀ p pg, 1 ≤ p ≤ N → p ∉ recorded_pages w doc.1 →
           pdf_data !! Z.to_nat (p - 1) = Some pg →
           ∃ response, generate_content E [pg] = Some response ∧
                       candidates response ≠ []) →
  complete (ErrorPage6.process_doc E doc w).2 doc.1 N.
Proof.
  intros Hok Htotal Hdl Hlen Hmodel.
  destruct (decide (N = 0)) as [->|Hnz]; [intros p Hp; lia|].
  destruct (error_process_doc_run E doc N pdf_data w) as (missing & groups & Hmiss & Hex & ->);
    [done..|]. simpl.
  destruct (get_missing_pages_ok E doc.1 N w (Hok _)) as (missing' & Hmiss' & _ & Hin).
  rewrite Hmiss in Hmiss'. injection Hmiss' as <-.
  destruct (extract_positive_pages pdf_data missing) as (groups' & Hex' & Hpages & Hgroups).
  { apply Forall_forall. intros p Hp. apply Hin in Hp. lia. }
  rewrite Hex in Hex'. injection Hex' as <-.
  intros p Hp. apply recorded_pages_after_batch.
  destruct (decide (p ∈ recorded_pages w doc.1)) as [Hrec|Hrec]; [by left|right].
  split; [done|].
  assert (p ∈ page <$> groups) as Hpg.
  { rewrite Hpages. apply list_elem_of_filter. split; [lia|]. apply Hin. by split. }
  apply list_elem_of_fmap in Hpg as (pdf & -> & Hpdf).
  exists pdf. split; [done|]. split; [done|]. split; [|apply Hok].
  rewrite Forall_forall in Hgroups. destruct (Hgroups pdf Hpdf) as (_ & pg & Hlook & Hdata).
  destruct (Hmodel (page pdf) pg Hp Hrec Hlook) as (response & Hgen & Hcand).
  unfold recovery_transcription. rewrite Hdata, Hgen.
  destruct (candidates response); [done|]. by destruct (Py.truthy (text response)) eqn:Ht.
Qed.

(** A whole run keeps a complete document complete and dispatches none of
    its pages. *)
Lemma error_recovery_run_on_complete (E : Env Page) w d md N :
  document_metadata w !! d = Some md →
  md_total_pages md = Some N →
  complete w d N →
  complete (ErrorPage6.process_error_pages E w).2 d N ∧
  dispatched_pages (ErrorPage6.process_error_pages E w).2 d = dispatched_pages w d.
Proof.
  intros Hmd Htotal Hc. unfold ErrorPage6.process_error_pages, try_except, bind.
  destruct (Db.metadata_where E _ w) as [[docs|] w1] eqn:Hq.
  - apply metadata_where_inv in Hq as [-> Hdocs]. rewrite for_each_guard.
    destruct (for_each_invariant
                (λ w', complete w' d N ∧ dispatched_pages w' d = dispatched_pages w d)
                docs (ErrorPage6.process_doc E) w) as (w' & -> & Hinv); [done| |done].
    intros doc w1 Hdoc [Hc1 Hd1]. rewrite Hdocs in Hdoc.
    apply queried_doc in Hdoc as [Hdoc _].
    destruct (error_process_doc_total E doc w1) as (groups & Hrun).
    exists (ErrorPage6.process_doc E doc w1).2. split; [by rewrite Hrun|].
    destruct (decide (doc.1 = d)) as [Heq|Hne].
    + rewrite complete_skipped with (N := N); [done| |by rewrite Heq].
      rewrite Heq, Hmd in Hdoc. by injection Hdoc as <-.
    + split; [by apply error_process_doc_complete_mono|].
      by rewrite error_process_doc_other.
  - unfold Db.metadata_where, bind, Db.call in Hq. destruct (raises E _); [|done].
    by injection Hq as <-.
Qed.

(** With no page blocked and no call raising, a run completes every
    selected document whose PDF has the pages its metadata announces. *)
Lemma error_recovery_run_completes (E : Env Page) w d md N pdf_data :
  (∀ c, raises E c = false) →
  document_metadata w !! d = Some md →
  md_status md = "processed" → md_random md = Some 6 →
  md_total_pages md = Some N →
  download E firebase_bucket (md_path md) = Some pdf_data →
  N ≤ Py.len pdf_data →
  (∀ p pg, 1 ≤ p ≤ N → p ∉ recorded_pages w d →
           pdf_data !! Z.to_nat (p - 1) = Some pg →
           ∃ response, generate_content E [pg] = Some response ∧
                       candidates response ≠ []) →
  complete (ErrorPage6.process_error_pages E w).2 d N.
Proof.
  intros Hok Hmd Hst Hrandom Htotal Hdl Hlen Hmodel.
  unfold ErrorPage6.process_error_pages, try_except.
  erewrite bind_return; [|by apply metadata_where_ok]. rewrite for_each_guard.
  set (docs := filter _ (map_to_list (document_metadata w))).
  assert ((d, md) ∈ docs) as Hin.
  { apply list_elem_of_filter. split; [|by apply elem_of_map_to_list].
    simpl. rewrite Hst, Hrandom. done. }
  apply list_elem_of_split in Hin as (l1 & l2 & ->).
  rewrite for_each_app.
  destruct (for_each_invariant
              (λ w', ∀ p, p ∈ recorded_pages w d → p ∈ recorded_pages w' d)
              l1 (ErrorPage6.process_doc E) w) as (w1 & Hrun1 & Hmono); [done| |].
  { intros doc w1 _ Hw1. destruct (error_process_doc_total E doc w1) as (groups & Hrun).
    exists (ErrorPage6.process_doc E doc w1).2. split; [by rewrite Hrun|].
    intros p Hp. by apply error_process_doc_recorded, Hw1. }
  rewrite (bind_return _ _ _ _ _ Hrun1). cbn [for_each].
  destruct (error_process_doc_total E (d, md) w1) as (groups & Hrun).
  assert (complete (ErrorPage6.process_doc E (d, md) w1).2 d N) as Hc.
  { apply (error_process_doc_completes E (d, md) w1 N pdf_data); [done..|].
    intros p pg Hp Hrec. apply Hmodel; [done|]. intros Hrec'. by apply Hrec, Hmono. }
  erewrite bind_return; [|exact Hrun]. rewrite Hrun in Hc. cbn [fst snd] in Hc |- *.
  destruct (for_each_invariant (λ w', complete w' d N) l2 (ErrorPage6.process_doc E)
              (after_batch E (recovery_transcription E) (md_file_name md) d groups w1))
    as (w2 & Hrun2 & Hc2); [done| |by rewrite Hrun2].
  intros doc w' _ Hw'. destruct (error_process_doc_total E doc w') as (groups' & Hrun').
  exists (ErrorPage6.process_doc E doc w').2. split; [by rewrite Hrun'|].
  by apply error_process_doc_complete_mono.
Qed.

End convergence.

(** C7 (as stated) fails when the metadata announces more pages than the PDF
    has: no call raises and every dispatched page gets a text, yet after the
    run page 3 is still computed as missing (and the second run, which finds
    no such page in the PDF, dispatches nothing). *)
Lemma error_recovery_does_not_converge_on_short_pdf :
  (∀ c, raises (Scenario.echo ["p1"; "p2"]) c = false) ∧
  (∀ data, ∃ response,
     generate_content (Scenario.echo ["p1"; "p2"]) data = Some response ∧
     candidates response ≠ []) ∧
  dispatched (ErrorPage6.process_error_pages (Scenario.echo ["p1"; "p2"])
                                             Scenario.short_pdf).2
    = [("A", 1); ("A", 2)] ∧
  (ErrorPage6.get_missing_pages (Scenario.echo ["p1"; "p2"]) "A" 3
     (ErrorPage6.process_error_pages (Scenario.echo ["p1"; "p2"]) Scenario.short_pdf).2).1
    = Return [3] ∧
  dispatched (ErrorPage6.process_error_pages (Scenario.echo ["p1"; "p2"])
                (ErrorPage6.process_error_pages (Scenario.echo ["p1"; "p2"])
                                                Scenario.short_pdf).2).2
    = [("A", 1); ("A", 2)].
Proof.
  split; [done|]. split; [intros data; by eexists|].
  repeat split; vm_compute; reflexivity.
Qed.

(** C7 (amended): for a document the error-recovery run selects, whose PDF
    has at least the pages its metadata announces: if in one run no database
    call raises, the download succeeds and the model returns a candidate for
    every missing page, then after that run the missing-page computation
    returns the empty list, and a second run, whatever its environment,
    leaves the document complete and dispatches none of its pages. *)
Theorem error_recovery_converges {Page} (E : Env Page) (w : World) (d : string)
    (md : Metadata) (N : Z) (pdf_data : list Page) :
  (∀ c, raises E c = false) →
  document_metadata w !! d = Some md →
  md_status md = "processed" →
  md_random md = Some 6 →
  md_total_pages md = Some N →
  download E firebase_bucket (md_path md) = Some pdf_data →
  N ≤ Py.len pdf_data →
  (∀ p pg, 1 ≤ p ≤ N → p ∉ recorded_pages w d →
           pdf_data !! Z.to_nat (p - 1) = Some pg →
           ∃ response, generate_content E [pg] = Some response ∧
                       candidates response ≠ []) →
  ∀ E2 : Env Page,
    ErrorPage6.get_missing_pages E2 d N (ErrorPage6.process_error_pages E w).2
      = (Return [], (ErrorPage6.process_error_pages E w).2) ∧
    ErrorPage6.process_doc E2 (d, md) (ErrorPage6.process_error_pages E w).2
      = (Return tt, (ErrorPage6.process_error_pages E w).2) ∧
    dispatched_pages
      (ErrorPage6.process_error_pages E2 (ErrorPage6.process_error_pages E w).2).2 d
      = dispatched_pages (ErrorPage6.process_error_pages E w).2 d.
Proof.
  intros Hok Hmd Hst Hrandom Htotal Hdl Hlen Hmodel E2.
  pose proof (error_recovery_run_completes E w d md N pdf_data
                Hok Hmd Hst Hrandom Htotal Hdl Hlen Hmodel) as Hc.
  split; [by apply complete_nothing_missing|].
  split; [by apply (complete_skipped E2 (d, md) _ N)|].
  apply (error_recovery_run_on_complete E2 _ d md N); [|done..].
  by rewrite error_recovery_keeps_metadata.
Qed.

Lemma error_recovery_converges_witness :
  (∀ c, raises (Scenario.echo Scenario.five_pages) c = false) ∧
  ErrorPage6.get_missing_pages (Scenario.echo Scenario.five_pages) "A" 5
    (ErrorPage6.process_error_pages (Scenario.echo Scenario.five_pages) Scenario.gaps).2
    = (Return [],
       (ErrorPage6.process_error_pages (Scenario.echo Scenario.five_pages) Scenario.gaps).2).
Proof.
  split; [done|].
  refine (proj1 (error_recovery_converges
                   (Scenario.echo Scenario.five_pages) Scenario.gaps "A"
                   (mkMetadata "a.pdf" "docs/a.pdf" "" "processed" (Some 5) (Some 6)) 5
                   Scenario.five_pages _ eq_refl eq_refl eq_refl eq_refl eq_refl _ _
                   (Scenario.echo Scenario.five_pages))).
  - done.
  - vm_compute. discriminate.
  - intros p pg _ _ _. by eexists.
Defined.

(** * The document id in the persisted rows *)

(** The rows of the two Firestore scripts and of the two-page script refer
    to their document; the rows of [transcribe_document.py] refer to none. *)
Lemma persisted_rows_document_id {Page} (E : Env Page) (f : list Page → string)
    (file_name doc_id : string) (batch : list (PagePdf Page))
    (ranges : list (RangePdf Page)) :
  Forall (λ row, t_document_id row = Some doc_id) (batch_rows f file_name doc_id batch) ∧
  Forall (λ row, t_document_id row = Some doc_id) (twopage_rows E file_name doc_id batch) ∧
  Forall (λ row, t_document_id row = None) (document_rows E file_name ranges).
Proof.
  split; [|split]; apply Forall_forall; intros row Hrow.
  - apply elem_of_batch_rows in Hrow as (pdf & _ & _ & ->). done.
  - apply list_elem_of_fmap in Hrow as (pdf & -> & _). done.
  - apply list_elem_of_fmap in Hrow as (pdf & -> & _). done.
Qed.

(** C8 fails on [transcribe_document.py]: the row it persists for the
    one-page document B carries no document id; once B is marked deleted, the
    next run sets B to deleted_applied and the row is still there.  The
    two-page script, on the same input, persists a row that refers to B, and
    its sweep removes it. *)
Theorem document_rows_survive_the_sweep :
  map_to_list (document_transcriptions
                 (Document.process_documents (Scenario.echo ["p1"]) Scenario.fresh_upload).2)
    = [(0%nat, mkTranscription "p1" None (Some 1) (Some 1) "b.pdf" None)] ∧
  status_of
    (Document.process_documents (Scenario.echo ["p1"])
       (Scenario.mark_deleted "B"
          (Document.process_documents (Scenario.echo ["p1"]) Scenario.fresh_upload).2)).2 "B"
    = Some "deleted_applied" ∧
  map_to_list (document_transcriptions
    (Document.process_documents (Scenario.echo ["p1"])
       (Scenario.mark_deleted "B"
          (Document.process_documents (Scenario.echo ["p1"]) Scenario.fresh_upload).2)).2)
    = [(0%nat, mkTranscription "p1" None (Some 1) (Some 1) "b.pdf" None)] ∧
  map_to_list (document_transcriptions
                 (TwoPage.process_documents (Scenario.echo ["p1"]) Scenario.fresh_upload).2)
    = [(0%nat, mkTranscription "p1" (Some 1) None None "b.pdf" (Some "B"))] ∧
  map_to_list (document_transcriptions
    (TwoPage.process_documents (Scenario.echo ["p1"])
       (Scenario.mark_deleted "B"
          (TwoPage.process_documents (Scenario.echo ["p1"]) Scenario.fresh_upload).2)).2)
    = [].
Proof. repeat split; vm_compute; reflexivity. Qed.

(** * The workbook script *)

Lemma truthy_false s : Py.truthy s = false → s = "".
Proof.
  unfold Py.truthy. intros H. apply negb_false_iff in H. by apply String.eqb_eq in H.
Qed.

Lemma add_workbook_rows_app rows1 rows2 table :
  add_workbook_rows (rows1 ++ rows2) table =
    add_workbook_rows rows2 (add_workbook_rows rows1 table).
Proof. apply foldl_app. Qed.

Lemma add_workbook_rows_lookup_old rows (table : gmap nat WorkbookRow) k r :
  table !! k = Some r → add_workbook_rows rows table !! k = Some r.
Proof.
  revert table. induction rows as [|row rows IH]; intros table Hk; [done|].
  simpl. apply IH. rewrite lookup_insert_ne; [done|].
  intros Heq. pose proof (is_fresh (dom table)) as Hfresh.
  rewrite Heq in Hfresh. apply Hfresh. apply elem_of_dom. by eexists.
Qed.

Lemma size_add_workbook_rows rows (table : gmap nat WorkbookRow) :
  size (add_workbook_rows rows table) = (size table + length rows)%nat.
Proof.
  revert table. induction rows as [|row rows IH]; intros table; [simpl; lia|].
  simpl. rewrite IH, map_size_insert_None; [lia|].
  apply not_elem_of_dom. apply is_fresh.
Qed.

Lemma accepted_workbook_all {Page} (E : Env Page) rows :
  (∀ row, raises E (Add_workbook row) = false) → accepted_workbook E rows = rows.
Proof. intros Hok. apply filter_all. apply Forall_forall. intros row _. apply Hok. Qed.

Section workbook.
Context {Page : Type} (E : Env Page).

Lemma workbook_transcribe_pdf_returns pdf_chunk n w :
  Workbook.transcribe_pdf E pdf_chunk n w = (Return (question_answer E pdf_chunk), w).
Proof.
  unfold Workbook.transcribe_pdf, question_answer, try_except, bind, lift.
  by destruct (generate_question_answer E pdf_chunk) as [[qa|]|].
Qed.

Lemma analyze_problem_returns question answer w :
  Workbook.analyze_problem E question answer w =
    (Return (analysis_of E question answer), w).
Proof.
  unfold Workbook.analyze_problem, analysis_of, try_except, bind, lift.
  destruct (generate_analysis E question answer) as [response_text|]; [|done].
  simpl. destruct (Py.truthy response_text) eqn:Ht; [done|].
  simpl. by rewrite (truthy_false _ Ht).
Qed.

Lemma structure_analysis_returns analysis w :
  Workbook.structure_analysis E analysis w = (Return (structure_of E analysis), w).
Proof.
  unfold Workbook.structure_analysis, structure_of, try_except, bind, lift.
  by destruct (generate_structure E analysis) as [[result|]|].
Qed.

Lemma workbook_save q a an st n fn d w :
  Workbook.save_to_supabase E q a an st n fn d w =
    (Return tt,
     mkWorld (document_metadata w) (document_transcriptions w)
             (add_workbook_rows (accepted_workbook E [mkWorkbookRow q a an st n fn d])
                                (workbook_transcriptions w))
             (dispatched w)).
Proof.
  unfold Workbook.save_to_supabase, try_except, Db.add_workbook, bind, Db.call,
    accepted_workbook.
  rewrite filter_cons, filter_nil.
  destruct (raises E (Add_workbook _)) eqn:Hr.
  - rewrite decide_False by done. simpl. unfold ret. by rewrite world_eta.
  - by rewrite decide_True by done.
Qed.

Lemma process_problem_run reader_pages fn d problem w :
  Workbook.process_problem E reader_pages fn d problem w =
    (Return tt,
     mkWorld (document_metadata w) (document_transcriptions w)
             (add_workbook_rows
                (accepted_workbook E [workbook_row E reader_pages fn d problem])
                (workbook_transcriptions w))
             (dispatched w)).
Proof.
  unfold Workbook.process_problem, workbook_row.
  destruct (Workbook.problem_chunk reader_pages problem) as [pdf_chunk|] eqn:Hchunk.
  - apply try_return. erewrite bind_return; [|by apply lift_some].
    erewrite bind_return; [|by apply try_return, workbook_transcribe_pdf_returns].
    destruct (question_answer E pdf_chunk) as [question answer] eqn:Hqa.
    erewrite bind_return; [|by apply try_return, analyze_problem_returns].
    erewrite bind_return; [|by apply try_return, structure_analysis_returns].
    apply workbook_save.
  - erewrite try_raise; [|erewrite bind_raise; [done|by apply lift_none]].
    apply workbook_save.
Qed.

Lemma accepted_workbook_app rows1 rows2 :
  accepted_workbook E (rows1 ++ rows2) =
    accepted_workbook E rows1 ++ accepted_workbook E rows2.
Proof. apply filter_app. Qed.

Lemma accepted_workbook_cons row rows :
  accepted_workbook E (row :: rows) =
    accepted_workbook E [row] ++ accepted_workbook E rows.
Proof. apply (accepted_workbook_app [row]). Qed.

Lemma process_problems_run reader_pages fn d problems w :
  for_each problems (Workbook.process_problem E reader_pages fn d) w =
    (Return tt,
     mkWorld (document_metadata w) (document_transcriptions w)
             (add_workbook_rows
                (accepted_workbook E (workbook_row E reader_pages fn d <$> problems))
                (workbook_transcriptions w))
             (dispatched w)).
Proof.
  revert w. induction problems as [|problem problems IH]; intros w.
  - simpl. unfold ret. by rewrite world_eta.
  - cbn [for_each]. erewrite bind_return; [|by apply process_problem_run].
    rewrite IH. cbn [document_metadata document_transcriptions workbook_transcriptions
                      dispatched].
    rewrite fmap_cons.
    by rewrite (accepted_workbook_cons (workbook_row E reader_pages fn d problem)
                  (workbook_row E reader_pages fn d <$> problems)),
      add_workbook_rows_app.
Qed.

Lemma workbook_query_ok target w :
  raises E (Query_metadata [File_name_is target]) = false →
  Db.metadata_where E [File_name_is target] w = (Return (docs_named target w), w).
Proof.
  intros Hq. unfold Db.metadata_where. by erewrite bind_return; [|by apply call_ok].
Qed.

Lemma process_workbook_run problems_file target problems doc rest pdf_data w :
  load_problems E problems_file = Some problems →
  raises E (Query_metadata [File_name_is target]) = false →
  docs_named target w = doc :: rest →
  download E "workbooks" (md_file_name doc.2) = Some pdf_data →
  Workbook.process_workbook E problems_file target w =
    (Return tt,
     mkWorld (document_metadata w) (document_transcriptions w)
             (add_workbook_rows
                (accepted_workbook E
                   (workbook_row E pdf_data (md_file_name doc.2) doc.1 <$> problems))
                (workbook_transcriptions w))
             (dispatched w)).
Proof.
  intros Hload Hq Hdocs Hdl. unfold Workbook.process_workbook.
  apply try_return. erewrite bind_return; [|by apply lift_some].
  erewrite bind_return; [|by apply workbook_query_ok]. rewrite Hdocs.
  apply try_return. erewrite bind_return; [|by apply lift_some].
  apply process_problems_run.
Qed.

(** The ways a run of [process_workbook] can go. *)
Lemma process_workbook_cases problems_file target w :
  Workbook.process_workbook E problems_file target w = (Return tt, w) ∨
  ∃ problems doc rest pdf_data,
    load_problems E problems_file = Some problems ∧
    raises E (Query_metadata [File_name_is target]) = false ∧
    docs_named target w = doc :: rest ∧
    download E "workbooks" (md_file_name doc.2) = Some pdf_data.
Proof.
  unfold Workbook.process_workbook.
  destruct (load_problems E problems_file) as [problems|] eqn:Hload.
  2:{ left. erewrite try_raise; [done|]. erewrite bind_raise; [done|by apply lift_none]. }
  destruct (raises E (Query_metadata [File_name_is target])) eqn:Hq.
  { left. erewrite try_raise; [done|]. erewrite bind_return; [|by apply lift_some].
    erewrite bind_raise; [done|]. unfold Db.metadata_where.
    erewrite bind_raise; [done|by apply call_raises]. }
  destruct (docs_named target w) as [|doc rest] eqn:Hdocs.
  { left. apply try_return. erewrite bind_return; [|by apply lift_some].
    erewrite bind_return; [|by apply workbook_query_ok]. by rewrite Hdocs. }
  destruct (download E "workbooks" (md_file_name doc.2)) as [pdf_data|] eqn:Hdl.
  - right. by exists problems, doc, rest, pdf_data.
  - left. apply try_return. erewrite bind_return; [|by apply lift_some].
    erewrite bind_return; [|by apply workbook_query_ok]. rewrite Hdocs.
    erewrite try_raise; [done|]. erewrite bind_raise; [done|by apply lift_none].
Qed.

End workbook.

Lemma docs_named_file_name target w doc :
  doc ∈ docs_named target w →
  document_metadata w !! doc.1 = Some doc.2 ∧ md_file_name doc.2 = target.
Proof.
  unfold docs_named. intros Hin. apply list_elem_of_filter in Hin as [Hname Hin].
  destruct doc as [d md]. apply elem_of_map_to_list in Hin. split; [done|].
  cbn in Hname. apply andb_prop_elim in Hname as [Hname _].
  by apply bool_decide_unpack in Hname.
Qed.

(** X1: when the problems file is read, the document is found, its PDF
    downloads and no insertion raises, [process_workbook] saves exactly one
    row per problem, in the order of the problems file and whatever the
    model answers or raises: the rows carry the problem numbers of the
    file, the file name asked for and the id of the first document found
    under that name, and they are added to the rows that were there. *)
Theorem workbook_saves_one_row_per_problem {Page} (E : Env Page)
    (problems_file target : string) (problems : list Problem)
    (doc : string * Metadata) (rest : list (string * Metadata))
    (pdf_data : list Page) (w : World) :
  load_problems E problems_file = Some problems →
  raises E (Query_metadata [File_name_is target]) = false →
  docs_named target w = doc :: rest →
  download E "workbooks" (md_file_name doc.2) = Some pdf_data →
  (∀ row, raises E (Add_workbook row) = false) →
  ∃ rows,
    wb_problem_number <$> rows = problem_number <$> problems ∧
    Forall (λ row, wb_file_name row = target ∧ wb_document_id row = doc.1) rows ∧
    workbook_transcriptions (Workbook.process_workbook E problems_file target w).2 =
      add_workbook_rows rows (workbook_transcriptions w) ∧
    size (workbook_transcriptions (Workbook.process_workbook E problems_file target w).2) =
      (size (workbook_transcriptions w) + length problems)%nat ∧
    (∀ k row, workbook_transcriptions w !! k = Some row →
              workbook_transcriptions (Workbook.process_workbook E problems_file target w).2
                !! k = Some row).
Proof.
  intros Hload Hq Hdocs Hdl Hadd.
  rewrite (process_workbook_run E _ _ _ _ _ _ _ Hload Hq Hdocs Hdl).
  cbn [snd workbook_transcriptions]. rewrite accepted_workbook_all by done.
  assert (md_file_name doc.2 = target) as Hname.
  { apply (docs_named_file_name target w). rewrite Hdocs. left. }
  exists (workbook_row E pdf_data (md_file_name doc.2) doc.1 <$> problems).
  split; [|split; [|split; [done|split]]].
  - rewrite <-list_fmap_compose. apply list_fmap_ext. intros _ problem _. simpl.
    unfold workbook_row. by destruct (Workbook.problem_chunk _ _).
  - apply Forall_forall. intros row Hrow.
    apply list_elem_of_fmap in Hrow as (problem & -> & _).
    unfold workbook_row. by destruct (Workbook.problem_chunk _ _).
  - by rewrite size_add_workbook_rows, length_fmap.
  - intros k row. apply add_workbook_rows_lookup_old.
Qed.

Lemma workbook_saves_one_row_per_problem_witness :
  size (workbook_transcriptions
          (Workbook.process_workbook Workbooks.model_down "problems.json" "book.pdf"
                                     Workbooks.book).2) = 2%nat.
Proof.
  destruct (workbook_saves_one_row_per_problem Workbooks.model_down
              "problems.json" "book.pdf" Workbooks.two_problems
              ("W", mkMetadata "book.pdf" "" "workbooks" "processed" None None) []
              ["p1"; "p2"; "p3"] Workbooks.book)
    as (rows & _ & _ & _ & Hsize & _); [reflexivity|reflexivity| |reflexivity|done|].
  - vm_compute. reflexivity.
  - exact Hsize.
Defined.

(** X2: whatever the environment does, [process_workbook] returns without
    raising, leaves the documents' metadata, the page transcriptions and the
    trace as they were, and removes or changes no workbook row: it only
    adds rows to [workbook_transcriptions]. *)
Theorem workbook_only_adds_workbook_rows {Page} (E : Env Page)
    (problems_file target : string) (w : World) :
  ∃ w',
    Workbook.process_workbook E problems_file target w = (Return tt, w') ∧
    document_metadata w' = document_metadata w ∧
    document_transcriptions w' = document_transcriptions w ∧
    dispatched w' = dispatched w ∧
    (∀ k row, workbook_transcriptions w !! k = Some row →
              workbook_transcriptions w' !! k = Some row).
Proof.
  destruct (process_workbook_cases E problems_file target w)
    as [Hrun|(problems & doc & rest & pdf_data & Hload & Hq & Hdocs & Hdl)].
  - exists w. by rewrite Hrun.
  - rewrite (process_workbook_run E _ _ _ _ _ _ _ Hload Hq Hdocs Hdl).
    eexists. split; [done|]. repeat (split; [done|]).
    intros k row. apply add_workbook_rows_lookup_old.
Qed.

(** X3: [process_workbook] saves nothing and changes nothing when the
    problems file cannot be read, when the metadata query raises, when no
    document has the file name asked for, or when the download of the first
    document found under that name fails (no other document of that name is
    tried). *)
Theorem workbook_nothing_to_process {Page} (E : Env Page)
    (problems_file target : string) (w : World) :
  load_problems E problems_file = None ∨
  raises E (Query_metadata [File_name_is target]) = true ∨
  docs_named target w = [] ∨
  (∃ doc rest, docs_named target w = doc :: rest ∧
               download E "workbooks" (md_file_name doc.2) = None) →
  Workbook.process_workbook E problems_file target w = (Return tt, w).
Proof.
  intros Hcase.
  destruct (process_workbook_cases E problems_file target w)
    as [Hrun|(problems & doc & rest & pdf_data & Hload & Hq & Hdocs & Hdl)]; [done|].
  destruct Hcase as [H|[H|[H|(doc' & rest' & Hdocs' & H)]]].
  - by rewrite H in Hload.
  - by rewrite H in Hq.
  - by rewrite H in Hdocs.
  - rewrite Hdocs' in Hdocs. injection Hdocs as <- <-. by rewrite H in Hdl.
Qed.

Lemma workbook_nothing_to_process_witness :
  Workbook.process_workbook Workbooks.storage_down "problems.json" "book.pdf"
                            Workbooks.book
    = (Return tt, Workbooks.book).
Proof.
  apply workbook_nothing_to_process. right. right. right.
  exists ("W", mkMetadata "book.pdf" "" "workbooks" "processed" None None), [].
  split; [vm_compute; reflexivity|reflexivity].
Defined.

(** X4: when the transcription of a problem's pages fails (the model call
    raises, its answer cannot be parsed, or its text is empty), the problem
    is not skipped: the question and the answer are taken to be empty, the
    analysis model is asked about the empty question and answer, and the
    row saved for the problem has the empty question and answer with
    whatever analysis that gave. *)
Theorem workbook_failed_transcription_is_saved {Page} (E : Env Page)
    (reader_pages pdf_chunk : list Page) (file_name doc_id : string)
    (problem : Problem) (w : World) :
  Workbook.problem_chunk reader_pages problem = Some pdf_chunk →
  generate_question_answer E pdf_chunk = None ∨
  generate_question_answer E pdf_chunk = Some None →
  Workbook.transcribe_pdf E pdf_chunk (problem_number problem) w = (Return ("", ""), w) ∧
  Workbook.process_problem E reader_pages file_name doc_id problem w =
    Workbook.save_to_supabase E "" ""
      (default "" (generate_analysis E "" ""))
      (match generate_structure E (default "" (generate_analysis E "" "")) with
       | Some (Some result) => result
       | _ => "{}"
       end)
      (problem_number problem) file_name doc_id w.
Proof.
  intros Hchunk Hqa.
  assert (question_answer E pdf_chunk = ("", "")) as Hempty.
  { unfold question_answer. by destruct Hqa as [-> | ->]. }
  split.
  - by rewrite workbook_transcribe_pdf_returns, Hempty.
  - rewrite process_problem_run, workbook_save. unfold workbook_row.
    by rewrite Hchunk, Hempty.
Qed.

Lemma workbook_failed_transcription_witness :
  map_to_list (workbook_transcriptions
    (Workbook.process_problem Workbooks.model_down ["p1"; "p2"; "p3"] "book.pdf" "W"
                              (mkProblem 1 1 2) Workbooks.book).2)
    = [(0%nat, mkWorkbookRow "" "" "" "{}" 1 "book.pdf" "W")].
Proof.
  destruct (workbook_failed_transcription_is_saved Workbooks.model_down
              ["p1"; "p2"; "p3"] ["p1"; "p2"] "book.pdf" "W" (mkProblem 1 1 2)
              Workbooks.book) as [_ Hrun]; [reflexivity|by left|].
  rewrite Hrun. vm_compute. reflexivity.
Defined.

(** X5: [process_workbook] does not look at the rows it saved before: when
    the problems file is read, the document is found, its PDF downloads and
    no insertion raises, a second run saves the same rows once more, so
    that every problem has two rows after it. *)
Theorem workbook_rerun_duplicates {Page} (E : Env Page)
    (problems_file target : string) (problems : list Problem)
    (doc : string * Metadata) (rest : list (string * Metadata))
    (pdf_data : list Page) (w : World) :
  load_problems E problems_file = Some problems →
  raises E (Query_metadata [File_name_is target]) = false →
  docs_named target w = doc :: rest →
  download E "workbooks" (md_file_name doc.2) = Some pdf_data →
  (∀ row, raises E (Add_workbook row) = false) →
  ∃ rows,
    length rows = length problems ∧
    workbook_transcriptions (Workbook.process_workbook E problems_file target w).2 =
      add_workbook_rows rows (workbook_transcriptions w) ∧
    workbook_transcriptions
      (Workbook.process_workbook E problems_file target
         (Workbook.process_workbook E problems_file target w).2).2 =
      add_workbook_rows (rows ++ rows) (workbook_transcriptions w) ∧
    size (workbook_transcriptions
            (Workbook.process_workbook E problems_file target
               (Workbook.process_workbook E problems_file target w).2).2) =
      (size (workbook_transcriptions w) + 2 * length problems)%nat.
Proof.
  intros Hload Hq Hdocs Hdl Hadd.
  rewrite (process_workbook_run E _ _ _ _ _ _ _ Hload Hq Hdocs Hdl).
  cbn [snd]. erewrite process_workbook_run; [|done..].
  cbn [snd workbook_transcriptions]. rewrite accepted_workbook_all by done.
  exists (workbook_row E pdf_data (md_file_name doc.2) doc.1 <$> problems).
  split; [by rewrite length_fmap|]. split; [done|].
  rewrite add_workbook_rows_app. split; [done|].
  rewrite !size_add_workbook_rows, length_fmap. lia.
Qed.

Lemma workbook_rerun_duplicates_witness :
  size (workbook_transcriptions
          (Workbook.process_workbook Workbooks.model_up "problems.json" "book.pdf"
             (Workbook.process_workbook Workbooks.model_up "problems.json" "book.pdf"
                                        Workbooks.book).2).2) = 4%nat.
Proof.
  destruct (workbook_rerun_duplicates Workbooks.model_up
              "problems.json" "book.pdf" Workbooks.two_problems
              ("W", mkMetadata "book.pdf" "" "workbooks" "processed" None None) []
              ["p1"; "p2"; "p3"] Workbooks.book)
    as (rows & _ & _ & _ & Hsize); [reflexivity|reflexivity| |reflexivity|done|].
  - vm_compute. reflexivity.
  - exact Hsize.
Defined.

(** * Assigning the random numbers *)

Lemma NoDup_fst_filter {A B} (P : A * B → Prop) `{∀ x, Decision (P x)} (l : list (A * B)) :
  NoDup l.*1 → NoDup (filter P l).*1.
Proof.
  induction l as [|x l IH]; [done|]. rewrite fmap_cons, NoDup_cons. intros [Hx Hl].
  rewrite filter_cons. destruct (decide (P x)); [|by apply IH].
  rewrite fmap_cons. apply NoDup_cons. split; [|by apply IH].
  intros Hin. apply Hx. apply list_elem_of_fmap in Hin as (y & -> & Hy).
  apply list_elem_of_fmap. exists y. split; [done|].
  by apply list_elem_of_filter in Hy as [_ Hy].
Qed.

Lemma docs_with_status_NoDup status w : NoDup (docs_with_status status w).*1.
Proof. apply NoDup_fst_filter, NoDup_fst_map_to_list. Qed.

Lemma docs_with_status_lookup status w doc :
  doc ∈ docs_with_status status w →
  document_metadata w !! doc.1 = Some doc.2 ∧ md_status doc.2 = status.
Proof.
  unfold docs_with_status. intros Hin. apply list_elem_of_filter in Hin as [Hst Hin].
  destruct doc as [d md]. apply elem_of_map_to_list in Hin. split; [done|].
  cbn in Hst. apply andb_prop_elim in Hst as [Hst _]. by apply bool_decide_unpack in Hst.
Qed.

Section number_huriwake.
Context {Page : Type} (E : Env Page).
Context (getrandbits : nat → Z) (update_raises : string → Z → bool).

Lemma randint_bounds k : 1 ≤ NumberHuriwake.randint getrandbits 1 6 k ≤ 6.
Proof.
  unfold NumberHuriwake.randint.
  pose proof (Z.mod_pos_bound (getrandbits k) (6 - 1 + 1)). lia.
Qed.

Lemma assign_loop_app l1 l2 k w :
  NumberHuriwake.assign_loop getrandbits update_raises (l1 ++ l2) k w =
    (NumberHuriwake.assign_loop getrandbits update_raises l1 k ;;;
     NumberHuriwake.assign_loop getrandbits update_raises l2 (k + length l1)) w.
Proof.
  revert k w. induction l1 as [|doc l1 IH]; intros k w.
  - simpl. by rewrite Nat.add_0_r.
  - cbn [NumberHuriwake.assign_loop app length]. unfold bind.
    destruct (NumberHuriwake.update_random update_raises doc.1
                (NumberHuriwake.randint getrandbits 1 6 k) w) as [[[]|] w1]; [|reflexivity].
    rewrite IH. unfold bind.
    by replace (S k + length l1)%nat with (k + S (length l1))%nat by lia.
Qed.

(** The loop when no update raises: the document at position [i] gets the
    draw number [k + i]; nothing else changes. *)
Lemma assign_loop_ok docs k w :
  NoDup docs.*1 →
  (∀ doc, doc ∈ docs → document_metadata w !! doc.1 = Some doc.2) →
  (∀ i doc, docs !! i = Some doc →
            update_raises doc.1 (NumberHuriwake.randint getrandbits 1 6 (k + i))
              = false) →
  ∃ w',
    NumberHuriwake.assign_loop getrandbits update_raises docs k w = (Return tt, w') ∧
    document_transcriptions w' = document_transcriptions w ∧
    workbook_transcriptions w' = workbook_transcriptions w ∧
    dispatched w' = dispatched w ∧
    (∀ d, d ∉ docs.*1 → document_metadata w' !! d = document_metadata w !! d) ∧
    (∀ i doc, docs !! i = Some doc →
              document_metadata w' !! doc.1 =
                Some (NumberHuriwake.set_random
                        (NumberHuriwake.randint getrandbits 1 6 (k + i)) doc.2)).
Proof.
  revert k w. induction docs as [|doc docs IH]; intros k w Hnodup Hdocs Hok.
  - exists w. by repeat split.
  - rewrite fmap_cons in Hnodup. apply NoDup_cons in Hnodup as [Hdoc Hnodup].
    cbn [NumberHuriwake.assign_loop]. unfold bind at 1.
    unfold NumberHuriwake.update_random at 1.
    pose proof (Hok 0%nat doc eq_refl) as Hr. rewrite Nat.add_0_r in Hr. rewrite Hr.
    rewrite (Hdocs doc) by left.
    set (w1 := mkWorld _ _ _ _).
    destruct (IH (S k) w1 Hnodup) as (w' & Hrun & Ht & Hwb & Hd & Hother & Hdraw).
    + intros doc' Hdoc'. simpl. rewrite lookup_insert_ne; [apply Hdocs; by right|].
      intros Heq. apply Hdoc. rewrite Heq. apply list_elem_of_fmap. by exists doc'.
    + intros i doc' Hi. replace (S k + i)%nat with (k + S i)%nat by lia.
      by apply (Hok (S i)).
    + exists w'. split; [done|]. repeat (split; [done|]). split.
      * intros d Hd'. rewrite fmap_cons, not_elem_of_cons in Hd'.
        destruct Hd' as [Hne Hd']. rewrite Hother by done. simpl.
        by rewrite lookup_insert_ne.
      * intros [|i] doc' Hi.
        -- injection Hi as <-. rewrite Hother by done. simpl.
           by rewrite lookup_insert_eq, Nat.add_0_r.
        -- replace (k + S i)%nat with (S k + i)%nat by lia. by apply Hdraw.
Qed.

Lemma set_random_set_random n m md :
  NumberHuriwake.set_random n (NumberHuriwake.set_random m md) = NumberHuriwake.set_random n md.
Proof. done. Qed.

(** The run when the query and the updates do not raise. *)
Lemma assign_random_numbers_run w :
  raises E (Query_metadata [Status_is "unprocessed"]) = false →
  (∀ i doc, docs_with_status "unprocessed" w !! i = Some doc →
            update_raises doc.1 (NumberHuriwake.randint getrandbits 1 6 i) = false) →
  ∃ w',
    NumberHuriwake.assign_random_numbers E getrandbits update_raises w = (Return tt, w') ∧
    document_transcriptions w' = document_transcriptions w ∧
    workbook_transcriptions w' = workbook_transcriptions w ∧
    dispatched w' = dispatched w ∧
    (∀ d, status_of w d ≠ Some "unprocessed" →
          document_metadata w' !! d = document_metadata w !! d) ∧
    (∀ i doc, docs_with_status "unprocessed" w !! i = Some doc →
              document_metadata w' !! doc.1 =
                Some (NumberHuriwake.set_random
                        (NumberHuriwake.randint getrandbits 1 6 i) doc.2)).
Proof.
  intros Hq Hok.
  destruct (assign_loop_ok (docs_with_status "unprocessed" w) 0 w)
    as (w' & Hrun & Ht & Hwb & Hd & Hother & Hdraw).
  { apply docs_with_status_NoDup. }
  { intros doc Hdoc. by apply docs_with_status_lookup in Hdoc as [? _]. }
  { done. }
  exists w'. split.
  { unfold NumberHuriwake.assign_random_numbers. apply try_return.
    erewrite bind_return; [exact Hrun|].
    unfold Db.metadata_where. by erewrite bind_return; [|by apply call_ok]. }
  repeat (split; [done|]). split; [|done].
  intros d Hst. apply Hother. by rewrite elem_of_docs_with_status.
Qed.

(** Whatever raises, the loop changes nothing but the number of documents
    it was given, to a number from 1 to 6. *)
Lemma assign_loop_safe docs k w :
  ∃ r w',
    NumberHuriwake.assign_loop getrandbits update_raises docs k w = (r, w') ∧
    document_transcriptions w' = document_transcriptions w ∧
    workbook_transcriptions w' = workbook_transcriptions w ∧
    dispatched w' = dispatched w ∧
    ∀ d, match document_metadata w !! d, document_metadata w' !! d with
         | Some md, Some md' =>
             md' = md ∨
             (d ∈ docs.*1 ∧ ∃ n, 1 ≤ n ≤ 6 ∧ md' = NumberHuriwake.set_random n md)
         | None, None => True
         | _, _ => False
         end.
Proof.
  revert k w. induction docs as [|doc docs IH]; intros k w.
  - exists (Return tt), w. split; [done|]. repeat (split; [done|]).
    intros d. destruct (document_metadata w !! d); [by left|done].
  - cbn [NumberHuriwake.assign_loop]. unfold bind at 1.
    unfold NumberHuriwake.update_random at 1.
    assert (∀ d, match document_metadata w !! d, document_metadata w !! d with
                 | Some md, Some md' =>
                     md' = md ∨
                     (d ∈ (doc :: docs).*1 ∧
                      ∃ n, 1 ≤ n ≤ 6 ∧ md' = NumberHuriwake.set_random n md)
                 | None, None => True
                 | _, _ => False
                 end) as Hrefl.
    { intros d. destruct (document_metadata w !! d); [by left|done]. }
    destruct (update_raises doc.1 _); [by exists Raise, w|].
    destruct (document_metadata w !! doc.1) as [md|] eqn:Hmd; [|by exists Raise, w].
    set (w1 := mkWorld _ _ _ _).
    destruct (IH (S k) w1) as (r & w' & Hrun & Ht & Hwb & Hd & Hmeta).
    exists r, w'. split; [done|]. repeat (split; [done|]).
    intros d. specialize (Hmeta d). simpl in Hmeta.
    destruct (decide (d = doc.1)) as [->|Hne].
    + rewrite lookup_insert_eq in Hmeta. rewrite Hmd.
      destruct (document_metadata w' !! doc.1) as [md'|]; [|done].
      right. split; [rewrite fmap_cons; left|].
      destruct Hmeta as [->|(_ & n & Hn & ->)].
      * eexists. split; [apply randint_bounds|done].
      * exists n. by rewrite set_random_set_random.
    + rewrite lookup_insert_ne in Hmeta by done.
      destruct (document_metadata w !! d) as [md0|]; [|done].
      destruct (document_metadata w' !! d) as [md'|]; [|done].
      destruct Hmeta as [->|(Hin & n & Hn & ->)]; [by left|].
      right. split; [rewrite fmap_cons; by right|]. by exists n.
Qed.

End number_huriwake.

(** X6: when the query and the updates do not raise,
    [assign_random_numbers] gives every unprocessed document a number from
    1 to 6, the document at position [i] of the query's answer getting the
    [i]-th draw of the run, also when the document had a number before;
    documents of another status, the transcriptions and the trace are left
    as they were. *)
Theorem assign_random_numbers_draws {Page} (E : Env Page) (getrandbits : nat → Z)
    (update_raises : string → Z → bool) (w : World) :
  raises E (Query_metadata [Status_is "unprocessed"]) = false →
  (∀ d n, update_raises d n = false) →
  ∃ w',
    NumberHuriwake.assign_random_numbers E getrandbits update_raises w = (Return tt, w') ∧
    (∀ i doc, docs_with_status "unprocessed" w !! i = Some doc →
              document_metadata w' !! doc.1 =
                Some (NumberHuriwake.set_random
                        (NumberHuriwake.randint getrandbits 1 6 i) doc.2) ∧
              1 ≤ NumberHuriwake.randint getrandbits 1 6 i ≤ 6) ∧
    (∀ d, status_of w d = Some "unprocessed" →
          ∃ md n, document_metadata w' !! d = Some md ∧ md_status md = "unprocessed" ∧
                  md_random md = Some n ∧ 1 ≤ n ≤ 6) ∧
    (∀ d, status_of w d ≠ Some "unprocessed" →
          document_metadata w' !! d = document_metadata w !! d) ∧
    document_transcriptions w' = document_transcriptions w ∧
    workbook_transcriptions w' = workbook_transcriptions w ∧
    dispatched w' = dispatched w.
Proof.
  intros Hq Hok.
  destruct (assign_random_numbers_run E getrandbits update_raises w Hq)
    as (w' & Hrun & Ht & Hwb & Hd & Hother & Hdraw); [by intros|].
  exists w'. split; [done|]. split; [|split; [|done]].
  - intros i doc Hi. split; [by apply Hdraw|apply randint_bounds].
  - intros d Hst. apply elem_of_docs_with_status in Hst.
    apply list_elem_of_fmap in Hst as (doc & -> & Hdoc).
    pose proof (docs_with_status_lookup _ _ _ Hdoc) as [_ Hst].
    apply list_elem_of_lookup in Hdoc as [i Hi].
    eexists _, _. split; [by apply Hdraw|]. split; [done|]. split; [done|].
    apply randint_bounds.
Qed.

Lemma assign_random_numbers_draws_witness :
  raises (Scenario.echo ["p1"]) (Query_metadata [Status_is "unprocessed"]) = false ∧
  ∃ w',
    NumberHuriwake.assign_random_numbers (Scenario.echo ["p1"]) Uploads.getrandbits
                                         (λ _ _, false) Uploads.three_documents
      = (Return tt, w') ∧
    md_random <$> document_metadata w' !! "A" = Some (Some 6) ∧
    md_random <$> document_metadata w' !! "B" = Some (Some 1) ∧
    md_random <$> document_metadata w' !! "P" = Some (Some 4).
Proof.
  split; [reflexivity|].
  destruct (assign_random_numbers_draws (Scenario.echo ["p1"]) Uploads.getrandbits
              (λ _ _, false) Uploads.three_documents)
    as (w' & Hrun & Hdraw & _ & Hother & _); [reflexivity|done|].
  exists w'. split; [done|]. split; [|split].
  - destruct (Hdraw 0%nat ("A", mkMetadata "a.pdf" "docs/a.pdf" "" "unprocessed"
                                           None (Some 2))) as [HA _]; [done|].
    cbn [fst] in HA. rewrite HA. vm_compute. reflexivity.
  - destruct (Hdraw 1%nat ("B", mkMetadata "b.pdf" "docs/b.pdf" "" "unprocessed"
                                           None None)) as [HB _]; [done|].
    cbn [fst] in HB. rewrite HB. vm_compute. reflexivity.
  - rewrite Hother; [vm_compute; reflexivity|]. vm_compute. discriminate.
Defined.

(** X7: [assign_random_numbers] stops at the first update that raises:
    the documents the query listed before it keep their new numbers, the
    document whose update raised and all documents after it are left as
    they were, and no exception leaves the function. *)
Theorem assign_random_numbers_stops_at_first_failure {Page} (E : Env Page)
    (getrandbits : nat → Z) (update_raises : string → Z → bool) (w : World)
    (numbered : list (string * Metadata)) (failed : string * Metadata)
    (rest : list (string * Metadata)) :
  raises E (Query_metadata [Status_is "unprocessed"]) = false →
  docs_with_status "unprocessed" w = numbered ++ failed :: rest →
  (∀ i doc, numbered !! i = Some doc →
            update_raises doc.1 (NumberHuriwake.randint getrandbits 1 6 i) = false) →
  update_raises failed.1 (NumberHuriwake.randint getrandbits 1 6 (length numbered)) = true →
  ∃ w',
    NumberHuriwake.assign_random_numbers E getrandbits update_raises w = (Return tt, w') ∧
    (∀ i doc, numbered !! i = Some doc →
              document_metadata w' !! doc.1 =
                Some (NumberHuriwake.set_random
                        (NumberHuriwake.randint getrandbits 1 6 i) doc.2)) ∧
    (∀ d, d ∉ numbered.*1 → document_metadata w' !! d = document_metadata w !! d) ∧
    (∀ doc, doc = failed ∨ doc ∈ rest →
            document_metadata w' !! doc.1 = Some doc.2).
Proof.
  intros Hq Hdocs Hok Hfail.
  pose proof (docs_with_status_NoDup "unprocessed" w) as Hnodup.
  rewrite Hdocs, fmap_app in Hnodup. apply NoDup_app in Hnodup as (Hnd & Hdisj & _).
  destruct (assign_loop_ok getrandbits update_raises numbered 0 w)
    as (w' & Hrun & Ht & Hwb & Hd & Hother & Hdraw); [done| |done|].
  { intros doc Hdoc. apply (docs_with_status_lookup "unprocessed").
    rewrite Hdocs. apply elem_of_app. by left. }
  exists w'. split; [|split; [done|split; [done|]]].
  - unfold NumberHuriwake.assign_random_numbers.
    erewrite try_raise; [done|].
    erewrite bind_return.
    2:{ unfold Db.metadata_where. by erewrite bind_return; [|by apply call_ok]. }
    fold (docs_with_status "unprocessed" w). rewrite Hdocs, assign_loop_app.
    erewrite bind_return; [|exact Hrun].
    cbn [NumberHuriwake.assign_loop]. unfold bind, NumberHuriwake.update_random.
    by rewrite Nat.add_0_l, Hfail.
  - intros doc Hdoc. rewrite Hother.
    + apply (docs_with_status_lookup "unprocessed"). rewrite Hdocs.
      apply elem_of_app. right. by apply elem_of_cons.
    + intros Hin. apply (Hdisj doc.1 Hin). rewrite fmap_cons.
      apply elem_of_cons. destruct Hdoc as [->|Hdoc]; [by left|right].
      apply list_elem_of_fmap. by exists doc.
Qed.

Lemma assign_random_numbers_stops_witness :
  map_to_list (md_random <$> document_metadata
    (NumberHuriwake.assign_random_numbers (Scenario.echo ["p1"]) Uploads.getrandbits
       Uploads.second_update_raises Uploads.three_documents).2)
    = [("A", Some 6); ("B", None); ("P", Some 4)].
Proof.
  destruct (assign_random_numbers_stops_at_first_failure (Scenario.echo ["p1"])
              Uploads.getrandbits Uploads.second_update_raises Uploads.three_documents
              [("A", mkMetadata "a.pdf" "docs/a.pdf" "" "unprocessed" None (Some 2))]
              ("B", mkMetadata "b.pdf" "docs/b.pdf" "" "unprocessed" None None) [])
    as (w' & Hrun & _); [reflexivity|vm_compute; reflexivity| |reflexivity|].
  - intros [|i] doc Hi; [|done]. by injection Hi as <-.
  - vm_compute. reflexivity.
Defined.

(** X8: whatever raises, [assign_random_numbers] returns without raising
    and changes nothing but the number of documents that are unprocessed,
    to a number from 1 to 6: no document appears or disappears, the status
    and the other fields of every document, the transcriptions and the
    trace are as they were. *)
Theorem assign_random_numbers_changes_numbers_only {Page} (E : Env Page)
    (getrandbits : nat → Z) (update_raises : string → Z → bool) (w : World) :
  ∃ w',
    NumberHuriwake.assign_random_numbers E getrandbits update_raises w = (Return tt, w') ∧
    document_transcriptions w' = document_transcriptions w ∧
    workbook_transcriptions w' = workbook_transcriptions w ∧
    dispatched w' = dispatched w ∧
    ∀ d, match document_metadata w !! d, document_metadata w' !! d with
         | Some md, Some md' =>
             md' = md ∨
             (md_status md = "unprocessed" ∧
              ∃ n, 1 ≤ n ≤ 6 ∧ md' = NumberHuriwake.set_random n md)
         | None, None => True
         | _, _ => False
         end.
Proof.
  unfold NumberHuriwake.assign_random_numbers.
  destruct (raises E (Query_metadata [Status_is "unprocessed"])) eqn:Hq.
  { exists w. split.
    - erewrite try_raise; [done|]. erewrite bind_raise; [done|].
      unfold Db.metadata_where. erewrite bind_raise; [done|by apply call_raises].
    - repeat (split; [done|]).
      intros d. destruct (document_metadata w !! d); [by left|done]. }
  destruct (assign_loop_safe getrandbits update_raises
              (docs_with_status "unprocessed" w) 0 w)
    as (r & w' & Hrun & Ht & Hwb & Hd & Hmeta).
  unfold try_except. erewrite bind_return.
  2:{ unfold Db.metadata_where. by erewrite bind_return; [|by apply call_ok]. }
  fold (docs_with_status "unprocessed" w).
  rewrite Hrun. exists w'. split; [by destruct r as [[]|]|]. repeat (split; [done|]).
  intros d. specialize (Hmeta d).
  destruct (document_metadata w !! d) as [md|] eqn:Hmd; [|done].
  destruct (document_metadata w' !! d) as [md'|]; [|done].
  destruct Hmeta as [->|(Hin & n & Hn & ->)]; [by left|]. right.
  apply elem_of_docs_with_status in Hin. unfold status_of in Hin. rewrite Hmd in Hin.
  injection Hin as Hst. split; [done|]. by exists n.
Qed.

(** X9: the numbers decide which script instance takes a document: after
    a run of [assign_random_numbers] in which nothing raises, the query by
    which the one-page script selects its documents (unprocessed, number 6)
    lists exactly the documents that were unprocessed and whose draw was 6,
    whatever number they had before. *)
Theorem one_page_selection_after_assignment {Page} (E : Env Page)
    (getrandbits : nat → Z) (update_raises : string → Z → bool) (w : World) :
  raises E (Query_metadata [Status_is "unprocessed"]) = false →
  (∀ d n, update_raises d n = false) →
  ∀ docs w'',
    Db.metadata_where E [Status_is "unprocessed"; Random_is 6]
      (NumberHuriwake.assign_random_numbers E getrandbits update_raises w).2
      = (Return docs, w'') →
    ∀ d, d ∈ docs.*1 ↔
         ∃ i doc, docs_with_status "unprocessed" w !! i = Some doc ∧ doc.1 = d ∧
                  NumberHuriwake.randint getrandbits 1 6 i = 6.
Proof.
  intros Hq Hok docs w'' Hsel.
  destruct (assign_random_numbers_run E getrandbits update_raises w Hq)
    as (w' & Hrun & _ & _ & _ & Hother & Hdraw); [by intros|].
  rewrite Hrun in Hsel. cbn [snd] in Hsel.
  apply metadata_where_inv in Hsel as [_ ->]. intros d.
  rewrite list_elem_of_fmap. split.
  - intros ([d' md'] & -> & Hin). apply list_elem_of_filter in Hin as [Hsel Hin].
    apply elem_of_map_to_list in Hin. cbn in Hsel.
    apply andb_prop_elim in Hsel as [Hst Hsel].
    apply andb_prop_elim in Hsel as [Hrandom _].
    apply bool_decide_unpack in Hst. apply bool_decide_unpack in Hrandom. simpl.
    destruct (decide (status_of w d' = Some "unprocessed")) as [Hu|Hu].
    + apply elem_of_docs_with_status in Hu.
      apply list_elem_of_fmap in Hu as (doc & Hd & Hdoc).
      apply list_elem_of_lookup in Hdoc as [i Hi].
      exists i, doc. split; [done|]. split; [done|].
      rewrite Hd, (Hdraw i doc Hi) in Hin. injection Hin as <-.
      simpl in Hrandom. by injection Hrandom.
    + rewrite Hother in Hin by done. unfold status_of in Hu. rewrite Hin in Hu.
      simpl in Hu. by rewrite Hst in Hu.
  - intros (i & doc & Hi & <- & Hsix).
    exists (doc.1, NumberHuriwake.set_random 6 doc.2). split; [done|].
    apply list_elem_of_filter. split.
    + cbn. apply andb_prop_intro. split; [|done]. apply bool_decide_pack.
      apply list_elem_of_lookup_2 in Hi.
      by apply docs_with_status_lookup in Hi as [_ ?].
    + apply elem_of_map_to_list. rewrite <-Hsix. by apply Hdraw.
Qed.

Lemma one_page_selection_witness :
  (Db.metadata_where (Scenario.echo ["p1"]) [Status_is "unprocessed"; Random_is 6]
     (NumberHuriwake.assign_random_numbers (Scenario.echo ["p1"]) Uploads.getrandbits
        (λ _ _, false) Uploads.three_documents).2).1
    = Return [("A", mkMetadata "a.pdf" "docs/a.pdf" "" "unprocessed" None (Some 6))] ∧
  ("A" ∈ [("A", mkMetadata "a.pdf" "docs/a.pdf" "" "unprocessed" None (Some 6))].*1 ↔
   ∃ i doc, docs_with_status "unprocessed" Uploads.three_documents !! i = Some doc ∧
            doc.1 = "A" ∧ NumberHuriwake.randint Uploads.getrandbits 1 6 i = 6).
Proof.
  split; [vm_compute; reflexivity|].
  apply (one_page_selection_after_assignment (Scenario.echo ["p1"]) Uploads.getrandbits
           (λ _ _, false) Uploads.three_documents eq_refl (λ _ _, eq_refl) _
           (NumberHuriwake.assign_random_numbers (Scenario.echo ["p1"]) Uploads.getrandbits
              (λ _ _, false) Uploads.three_documents).2).
  vm_compute. reflexivity.
Defined.

(** * Batches of page groups *)

Lemma batches_chunks {A} (l : list A) (size : Z) :
  0 < size →
  batches l size =
    (λ k : nat, take (Z.to_nat size) (drop (k * Z.to_nat size) l))
      <$> seq 0 (Z.to_nat ((Py.len l + size - 1) `div` size)).
Proof.
  intros Hsize. unfold batches, Py.range_step, Py.len.
  rewrite <-list_fmap_compose.
  replace (Z.of_nat (length l) - 0 + size - 1) with (Z.of_nat (length l) + size - 1) by lia.
  set (c := (Z.of_nat (length l) + size - 1) `div` size).
  assert (0 ≤ c) as Hc by (apply Z.div_pos; lia).
  replace (seqZ 0 c) with (Z.of_nat <$> seq 0 (Z.to_nat c)).
  2:{ unfold seqZ. apply list_fmap_ext. intros; simpl; lia. }
  rewrite <-list_fmap_compose.
  apply list_fmap_ext. intros _ k _. simpl. unfold Py.slice.
  f_equal; [lia|]. f_equal. nia.
Qed.

(** X10: the batch loop cuts the list of page groups, in order, into
    batches of at most [batch_size] elements: the batches put together are
    the list, there are ceil(len / batch_size) of them, none is empty, and
    all but the last have exactly [batch_size] elements. *)
Theorem batches_cut_the_list_in_order {A} (split_pdfs : list A) (batch_size : Z) :
  0 < batch_size →
  concat (batches split_pdfs batch_size) = split_pdfs ∧
  Py.len (batches split_pdfs batch_size) =
    (Py.len split_pdfs + batch_size - 1) `div` batch_size ∧
  (∀ i batch,
     batches split_pdfs batch_size !! i = Some batch →
     0 < Py.len batch ≤ batch_size ∧
     (Z.of_nat i + 1 < Py.len (batches split_pdfs batch_size) →
      Py.len batch = batch_size)).
Proof.
  intros Hsize. split; [by apply batches_concat|].
  rewrite batches_chunks by done. unfold Py.len.
  set (n := Z.of_nat (length split_pdfs)).
  set (c := (n + batch_size - 1) `div` batch_size).
  assert (0 ≤ c) as Hc by (apply Z.div_pos; lia).
  assert ((c - 1) * batch_size < n ∧ n ≤ c * batch_size) as [Hlow Hhigh].
  { subst c. pose proof (Z.mul_succ_div_gt (n + batch_size - 1) batch_size Hsize).
    pose proof (Z.mul_div_le (n + batch_size - 1) batch_size Hsize). nia. }
  rewrite length_fmap, length_seq. split; [lia|].
  intros i batch Hi. rewrite list_lookup_fmap in Hi.
  destruct (seq 0 (Z.to_nat c) !! i) as [k|] eqn:Hk; [|done].
  apply lookup_seq in Hk as [-> Hlt]. injection Hi as <-.
  rewrite length_take, length_drop. simpl. subst n. split; [nia|]. intros Hnext. nia.
Qed.

Lemma batches_cut_witness :
  concat (batches ["g1"; "g2"; "g3"] 2) = ["g1"; "g2"; "g3"] ∧
  batches ["g1"; "g2"; "g3"] 2 = [["g1"; "g2"]; ["g3"]].
Proof.
  split; [|reflexivity].
  destruct (batches_cut_the_list_in_order ["g1"; "g2"; "g3"] 2) as [H _]; [lia|].
  exact H.
Defined.

(** * A first-pass run of the one-page script, document by document *)

Lemma map_to_list_add_rows rows (table : gmap nat Transcription) :
  (map_to_list (add_rows rows table)).*2 ≡ₚ (map_to_list table).*2 ++ rows.
Proof.
  revert table. induction rows as [|row rows IH]; intros table.
  - by rewrite app_nil_r.
  - rewrite add_rows_cons, IH, map_to_list_insert by apply fresh_id_unused.
    rewrite fmap_cons. simpl. by rewrite Permutation_middle.
Qed.

Lemma rows_of_values w d :
  (rows_of w d).*2 =
    filter (λ row, t_document_id row = Some d) (map_to_list (document_transcriptions w)).*2.
Proof.
  unfold rows_of. induction (map_to_list (document_transcriptions w)) as [|x l IH]; [done|].
  rewrite fmap_cons, !filter_cons. simpl.
  destruct (decide (t_document_id x.2 = Some d)); [rewrite fmap_cons|]; by rewrite IH.
Qed.

(** The rows of a document after an insertion of rows. *)
Lemma rows_of_add_rows w w' rows d :
  document_transcriptions w' = add_rows rows (document_transcriptions w) →
  (rows_of w' d).*2 ≡ₚ
    (rows_of w d).*2 ++ filter (λ row, t_document_id row = Some d) rows.
Proof.
  intros Htable. rewrite !rows_of_values, Htable.
  by rewrite map_to_list_add_rows, filter_app.
Qed.

Lemma filter_rows_other d d' (rows : list Transcription) :
  d' ≠ d →
  Forall (λ row, t_document_id row = Some d') rows →
  filter (λ row, t_document_id row = Some d) rows = [].
Proof.
  intros Hne Hrows. induction Hrows as [|row rows Hrow _ IH]; [done|].
  rewrite filter_cons, decide_False; [done|]. rewrite Hrow. congruence.
Qed.

Lemma batch_rows_document_id {Page} (E : Env Page) f fn d (batch : list (PagePdf Page)) :
  Forall (λ row, t_document_id row = Some d) (accepted E (batch_rows f fn d batch)).
Proof.
  apply Forall_forall. intros row Hrow. apply elem_of_accepted in Hrow as [_ Hrow].
  by apply elem_of_batch_rows in Hrow as (pdf & _ & _ & ->).
Qed.

Lemma accepted_all {Page} (E : Env Page) rows :
  (∀ c, raises E c = false) → accepted E rows = rows.
Proof. intros Hok. apply filter_all. apply Forall_forall. intros row _. apply Hok. Qed.

Lemma dispatched_pages_same w w' d :
  dispatched w' = dispatched w → dispatched_pages w' d = dispatched_pages w d.
Proof. unfold dispatched_pages. by intros ->. Qed.

Lemma rows_of_same w w' d :
  document_transcriptions w' = document_transcriptions w → rows_of w' d = rows_of w d.
Proof. unfold rows_of. by intros ->. Qed.

Section one_page_documents.
Context {Page : Type} (E : Env Page).

(** Setting the status of one document touches nothing else, whatever
    raises. *)
Lemma update_status_frame d' status w :
  document_transcriptions (Db.update_status E d' status w).2 = document_transcriptions w ∧
  workbook_transcriptions (Db.update_status E d' status w).2 = workbook_transcriptions w ∧
  dispatched (Db.update_status E d' status w).2 = dispatched w ∧
  ∀ d, d ≠ d' →
       document_metadata (Db.update_status E d' status w).2 !! d = document_metadata w !! d.
Proof.
  unfold Db.update_status, bind, Db.call. destruct (raises E _); [done|].
  destruct (document_metadata w !! d') as [md|]; [|done]. simpl.
  repeat (split; [done|]). intros d Hne. by rewrite lookup_insert_ne.
Qed.

(** Processing one document leaves every other document as it is:
    its metadata, its rows and what was dispatched for it. *)
Lemma onepage_process_doc_other doc w d :
  doc.1 ≠ d →
  document_metadata (OnePage6.process_doc E doc w).2 !! d = document_metadata w !! d ∧
  (rows_of (OnePage6.process_doc E doc w).2 d).*2 ≡ₚ (rows_of w d).*2 ∧
  dispatched_pages (OnePage6.process_doc E doc w).2 d = dispatched_pages w d ∧
  ∃ w', OnePage6.process_doc E doc w = (Return tt, w').
Proof.
  intros Hne.
  destruct (onepage_process_doc_cases E doc w)
    as [[_ ->]|(pdf_data & split_pdfs & _ & _ & _ & ->)]; [by eauto|].
  cbn [snd].
  set (w1 := after_batch E (first_pass_transcription E) (md_file_name doc.2) doc.1
                         split_pdfs w).
  destruct (update_status_frame doc.1 "processed" w1) as (Ht & _ & Hd & Hmeta).
  split; [by rewrite Hmeta|]. split; [|split; [|by eauto]].
  - rewrite (rows_of_same w1) by done.
    rewrite (rows_of_add_rows w w1 _ d eq_refl).
    rewrite (filter_rows_other d doc.1); [by rewrite app_nil_r|done|].
    apply batch_rows_document_id.
  - rewrite (dispatched_pages_same w1) by done. subst w1. unfold after_batch.
    rewrite dispatched_pages_app, filter_other_doc by done. by rewrite app_nil_r.
Qed.

Lemma filter_same_doc d (batch : list (PagePdf Page)) :
  snd <$> filter (λ e : string * Z, e.1 = d) ((λ pdf, (d, page pdf)) <$> batch)
    = page <$> batch.
Proof.
  induction batch as [|pdf batch IH]; [done|].
  rewrite !fmap_cons, filter_cons, decide_True by done. rewrite fmap_cons. by rewrite IH.
Qed.

Lemma filter_rows_same d (rows : list Transcription) :
  Forall (λ row, t_document_id row = Some d) rows →
  filter (λ row, t_document_id row = Some d) rows = rows.
Proof. apply filter_all. Qed.

(** Processing a document whose PDF downloads, when no database call
    raises. *)
Lemma onepage_process_doc_self d md pdf_data w :
  (∀ c, raises E c = false) →
  document_metadata w !! d = Some md →
  download E firebase_bucket (md_path md) = Some pdf_data →
  ∃ split_pdfs w',
    OnePage6.split_pdf_in_memory pdf_data = Some split_pdfs ∧
    OnePage6.process_doc E (d, md) w = (Return tt, w') ∧
    document_metadata w' !! d = Some (Db.set_status "processed" md) ∧
    (rows_of w' d).*2 ≡ₚ
      (rows_of w d).*2 ++ batch_rows (first_pass_transcription E) (md_file_name md) d
                                      split_pdfs ∧
    dispatched_pages w' d = dispatched_pages w d ++ seqZ 1 (Py.len pdf_data).
Proof.
  intros Hok Hmd Hdl.
  destruct (onepage_process_doc_cases E (d, md) w)
    as [[Hnone _]|(pdf_data' & split_pdfs & Hdl' & Hsplit & Hpages & Hrun)].
  { simpl in Hnone. by rewrite Hnone in Hdl. }
  simpl in Hdl', Hrun. rewrite Hdl in Hdl'. injection Hdl' as <-.
  set (w1 := after_batch E (first_pass_transcription E) (md_file_name md) d split_pdfs w)
    in Hrun.
  rewrite (update_status_ok E Hok d "processed" w1) in Hrun by (by exists md).
  eexists split_pdfs, _. split; [done|]. split; [exact Hrun|]. cbn [snd].
  split; [|split].
  - simpl. by rewrite lookup_alter_eq, Hmd.
  - rewrite (rows_of_same w1) by done.
    rewrite (rows_of_add_rows w w1 _ d eq_refl), accepted_all by done.
    rewrite filter_rows_same; [done|].
    pose proof (batch_rows_document_id E (first_pass_transcription E) (md_file_name md) d
                  split_pdfs) as Hrows.
    by rewrite accepted_all in Hrows.
  - rewrite (dispatched_pages_same w1) by done. subst w1. unfold after_batch.
    by rewrite dispatched_pages_app, filter_same_doc, Hpages.
Qed.

(** A loop over other documents leaves a document as it is. *)
Lemma onepage_loop_others docs w d :
  d ∉ docs.*1 →
  ∃ w',
    for_each docs (OnePage6.process_doc E) w = (Return tt, w') ∧
    document_metadata w' !! d = document_metadata w !! d ∧
    (rows_of w' d).*2 ≡ₚ (rows_of w d).*2 ∧
    dispatched_pages w' d = dispatched_pages w d.
Proof.
  intros Hd.
  apply (for_each_invariant
           (λ w', document_metadata w' !! d = document_metadata w !! d ∧
                  (rows_of w' d).*2 ≡ₚ (rows_of w d).*2 ∧
                  dispatched_pages w' d = dispatched_pages w d)); [done|].
  intros doc w1 Hdoc (Hm & Hr & Hdp).
  destruct (onepage_process_doc_other doc w1 d) as (Hm' & Hr' & Hdp' & w2 & Hrun).
  { intros Heq. apply Hd. rewrite <-Heq. apply list_elem_of_fmap. by exists doc. }
  exists w2. split; [done|]. rewrite Hrun in Hm', Hr', Hdp'. cbn [snd] in *.
  split; [congruence|]. split; [by rewrite Hr'|congruence].
Qed.

(** The second part of a run, for a document it selects and downloads. *)
Lemma onepage_process_unprocessed_selected d md pdf_data w :
  (∀ c, raises E c = false) →
  document_metadata w !! d = Some md →
  md_status md = "unprocessed" → md_random md = Some 6 →
  download E firebase_bucket (md_path md) = Some pdf_data →
  ∃ split_pdfs w',
    OnePage6.split_pdf_in_memory pdf_data = Some split_pdfs ∧
    OnePage6.process_unprocessed E w = (Return tt, w') ∧
    document_metadata w' !! d = Some (Db.set_status "processed" md) ∧
    (rows_of w' d).*2 ≡ₚ
      (rows_of w d).*2 ++ batch_rows (first_pass_transcription E) (md_file_name md) d
                                      split_pdfs ∧
    dispatched_pages w' d = dispatched_pages w d ++ seqZ 1 (Py.len pdf_data).
Proof.
  intros Hok Hmd Hst Hrandom Hdl. unfold OnePage6.process_unprocessed.
  erewrite bind_return; [|by apply metadata_where_ok]. rewrite for_each_guard.
  pose proof (NoDup_fst_filter
                (λ doc : string * Metadata,
                   forallb (λ c, holds c doc.2) [Status_is "unprocessed"; Random_is 6])
                (map_to_list (document_metadata w))
                (NoDup_fst_map_to_list _)) as Hnodup.
  set (docs := filter _ (map_to_list (document_metadata w))) in *.
  assert ((d, md) ∈ docs) as Hin.
  { apply list_elem_of_filter. split; [|by apply elem_of_map_to_list].
    simpl. by rewrite Hst, Hrandom. }
  apply list_elem_of_split in Hin as (l1 & l2 & Hdocs). rewrite Hdocs in Hnodup |- *.
  rewrite fmap_app, fmap_cons in Hnodup.
  apply NoDup_app in Hnodup as (_ & Hl1 & Hl2). apply NoDup_cons in Hl2 as [Hl2 _].
  rewrite for_each_app.
  destruct (onepage_loop_others l1 w d) as (w1 & Hrun1 & Hm1 & Hr1 & Hd1).
  { intros Hd. apply (Hl1 d Hd). left. }
  erewrite bind_return; [|exact Hrun1]. cbn [for_each].
  destruct (onepage_process_doc_self d md pdf_data w1 Hok) as
    (split_pdfs & w2 & Hsplit & Hrun2 & Hm2 & Hr2 & Hd2); [congruence|done|].
  erewrite bind_return; [|exact Hrun2].
  destruct (onepage_loop_others l2 w2 d Hl2) as (w3 & Hrun3 & Hm3 & Hr3 & Hd3).
  exists split_pdfs, w3. split; [done|]. split; [done|].
  split; [congruence|]. split; [by rewrite Hr3, Hr2, Hr1|congruence].
Qed.

(** The second part of a run, for a document it does not select or cannot
    download, whatever raises. *)
Lemma onepage_process_unprocessed_passed_over d md w :
  document_metadata w !! d = Some md →
  md_status md ≠ "unprocessed" ∨ md_random md ≠ Some 6 ∨
  download E firebase_bucket (md_path md) = None →
  document_metadata (OnePage6.process_unprocessed E w).2 !! d = Some md ∧
  (rows_of (OnePage6.process_unprocessed E w).2 d).*2 ≡ₚ (rows_of w d).*2 ∧
  dispatched_pages (OnePage6.process_unprocessed E w).2 d = dispatched_pages w d.
Proof.
  intros Hmd Hcase. unfold OnePage6.process_unprocessed, bind.
  destruct (Db.metadata_where E _ w) as [[docs|] w1] eqn:Hq.
  2:{ unfold Db.metadata_where, bind, Db.call in Hq. destruct (raises E _); [|done].
      by injection Hq as <-. }
  apply metadata_where_inv in Hq as [-> Hdocs]. rewrite for_each_guard.
  destruct (for_each_invariant
              (λ w', document_metadata w' !! d = Some md ∧
                     (rows_of w' d).*2 ≡ₚ (rows_of w d).*2 ∧
                     dispatched_pages w' d = dispatched_pages w d)
              docs (OnePage6.process_doc E) w) as (w' & -> & Hinv); [done| |done].
  intros doc w1 Hdoc (Hm & Hr & Hdp). rewrite Hdocs in Hdoc.
  apply queried_doc in Hdoc as [Hdoc Hsel].
  destruct (decide (doc.1 = d)) as [Heq|Hne].
  - rewrite Heq, Hmd in Hdoc. injection Hdoc as Hdoc2.
    cbn in Hsel. apply andb_prop_elim in Hsel as [Hst Hsel].
    apply andb_prop_elim in Hsel as [Hrandom _].
    apply bool_decide_unpack in Hst. apply bool_decide_unpack in Hrandom.
    rewrite <-Hdoc2 in Hst, Hrandom.
    destruct Hcase as [?|[?|Hdl]]; [done..|].
    destruct (onepage_process_doc_cases E doc w1)
      as [[_ Hrun]|(pdf_data & _ & Hdl' & _)].
    + exists w1. by rewrite Hrun.
    + rewrite <-Hdoc2, Hdl in Hdl'. done.
  - destruct (onepage_process_doc_other doc w1 d Hne) as (Hm' & Hr' & Hdp' & w2 & Hrun).
    exists w2. split; [done|]. rewrite Hrun in Hm', Hr', Hdp'. cbn [snd] in *.
    split; [congruence|]. split; [by rewrite Hr'|congruence].
Qed.

End one_page_documents.

Lemma rows_of_perm w w' d :
  (∀ k row, t_document_id row = Some d →
            document_transcriptions w' !! k = Some row ↔
            document_transcriptions w !! k = Some row) →
  rows_of w' d ≡ₚ rows_of w d.
Proof.
  intros Hrows. unfold rows_of.
  apply NoDup_Permutation; [apply NoDup_filter, NoDup_map_to_list..|].
  intros [k row]. rewrite !list_elem_of_filter, !elem_of_map_to_list. simpl.
  split; intros [Hd Hk]; (split; [done|]); by apply (Hrows k row Hd).
Qed.

Lemma onepage_swept_metadata w d :
  status_of w d ≠ Some "deleted" →
  document_metadata (onepage_swept w) !! d = document_metadata w !! d.
Proof.
  intros Hst. unfold onepage_swept. simpl. apply lookup_swept_metadata_ne.
  by rewrite elem_of_docs_with_status.
Qed.

Lemma onepage_swept_kept w d :
  status_of w d ≠ Some "deleted" → status_of w d ≠ Some "unprocessed" →
  rows_of (onepage_swept w) d ≡ₚ rows_of w d.
Proof.
  intros Hdel Hun. apply rows_of_perm. intros k row Hd. rewrite onepage_swept_rows.
  split; [by intros [? _]|]. intros Hk. split; [done|].
  intros d' Hd'. rewrite Hd in Hd'. by injection Hd' as <-.
Qed.

Lemma try_except_unit_snd (m : M unit) w : (try_except m (ret tt) w).2 = (m w).2.
Proof. unfold try_except. by destruct (m w) as [[[]|] ?]. Qed.

Section one_page_run_documents.
Context {Page : Type} (E : Env Page).
Hypothesis no_raise : ∀ c, raises E c = false.

Lemma onepage_process_documents_run w :
  OnePage6.process_documents E w =
    try_except (OnePage6.process_unprocessed E) (ret tt) (onepage_swept w).
Proof.
  unfold OnePage6.process_documents, try_except.
  by rewrite (bind_return _ _ _ _ _ (onepage_deletion_sweep_run E no_raise w)).
Qed.

End one_page_run_documents.

(** X11: a first-pass run of the one-page script in which no database call
    raises settles every document it selects (unprocessed, number 6) and can
    download: the document is marked processed, its pages 1..n are handed
    to the workers in order, and afterwards its rows are exactly the rows of
    the pages whose transcription is not empty; rows it had before the run
    are gone. *)
Theorem one_page_run_settles_selected_document {Page} (E : Env Page) (w : World)
    (d : string) (md : Metadata) (pdf_data : list Page) :
  (∀ c, raises E c = false) →
  document_metadata w !! d = Some md →
  md_status md = "unprocessed" →
  md_random md = Some 6 →
  download E firebase_bucket (md_path md) = Some pdf_data →
  ∃ split_pdfs,
    OnePage6.split_pdf_in_memory pdf_data = Some split_pdfs ∧
    page <$> split_pdfs = seqZ 1 (Py.len pdf_data) ∧
    document_metadata (OnePage6.process_documents E w).2 !! d =
      Some (Db.set_status "processed" md) ∧
    (rows_of (OnePage6.process_documents E w).2 d).*2 ≡ₚ
      batch_rows (first_pass_transcription E) (md_file_name md) d split_pdfs ∧
    dispatched_pages (OnePage6.process_documents E w).2 d =
      dispatched_pages w d ++ seqZ 1 (Py.len pdf_data).
Proof.
  intros Hok Hmd Hst Hrandom Hdl.
  assert (status_of w d = Some "unprocessed") as Hstatus.
  { unfold status_of. by rewrite Hmd, <-Hst. }
  destruct (onepage_process_unprocessed_selected E d md pdf_data (onepage_swept w) Hok)
    as (split_pdfs & w' & Hsplit & Hrun & Hm & Hr & Hdp); [|done..|].
  { rewrite onepage_swept_metadata; [done|]. by rewrite Hstatus. }
  exists split_pdfs. split; [done|]. split.
  { destruct (onepage_split_pages pdf_data) as (split_pdfs' & Hsplit' & Hpages).
    rewrite Hsplit in Hsplit'. by injection Hsplit' as <-. }
  rewrite (onepage_process_documents_run E Hok), (try_return _ _ _ _ _ Hrun). cbn [snd].
  split; [done|]. split; [|done].
  rewrite Hr, onepage_swept_purged; [done|by right].
Qed.

Lemma one_page_run_settles_witness :
  status_of (OnePage6.process_documents (Scenario.echo ["p1"]) FirstPass.mixed).2 "C"
    = Some "processed" ∧
  (rows_of (OnePage6.process_documents (Scenario.echo ["p1"]) FirstPass.mixed).2 "C").*2
    ≡ₚ [mkTranscription "p1" (Some 1) None None "c.pdf" (Some "C")].
Proof.
  destruct (one_page_run_settles_selected_document (Scenario.echo ["p1"]) FirstPass.mixed
              "C" FirstPass.doc_C ["p1"])
    as (split_pdfs & Hsplit & _ & Hm & Hr & _); [done|reflexivity..|].
  injection Hsplit as <-. split; [|exact Hr].
  unfold status_of. by rewrite Hm.
Defined.

(** X12: in a first-pass run of the one-page script in which no database
    call raises, an unprocessed document that the run does not select (its
    number is not 6) or cannot download loses the rows it had: after the
    run it has no row, it is still unprocessed, and none of its pages was
    handed to the workers. *)
Theorem one_page_run_purges_documents_it_passes_over {Page} (E : Env Page) (w : World)
    (d : string) (md : Metadata) :
  (∀ c, raises E c = false) →
  document_metadata w !! d = Some md →
  md_status md = "unprocessed" →
  md_random md ≠ Some 6 ∨ download E firebase_bucket (md_path md) = None →
  document_metadata (OnePage6.process_documents E w).2 !! d = Some md ∧
  rows_of (OnePage6.process_documents E w).2 d = [] ∧
  dispatched_pages (OnePage6.process_documents E w).2 d = dispatched_pages w d.
Proof.
  intros Hok Hmd Hst Hcase.
  assert (status_of w d = Some "unprocessed") as Hstatus.
  { unfold status_of. by rewrite Hmd, <-Hst. }
  destruct (onepage_process_unprocessed_passed_over E d md (onepage_swept w))
    as (Hm & Hr & Hdp); [|by right|].
  { rewrite onepage_swept_metadata; [done|]. by rewrite Hstatus. }
  rewrite (onepage_process_documents_run E Hok).
  rewrite try_except_unit_snd.
  split; [done|]. split; [|done].
  rewrite onepage_swept_purged in Hr by (by right).
  apply Permutation_nil_r in Hr. by apply fmap_nil_inv in Hr.
Qed.

Lemma one_page_run_purges_witness :
  rows_of FirstPass.mixed "E" = [(2%nat, Scenario.row "begun" 1 "E")] ∧
  rows_of (OnePage6.process_documents (Scenario.echo ["p1"]) FirstPass.mixed).2 "E" = [] ∧
  status_of (OnePage6.process_documents (Scenario.echo ["p1"]) FirstPass.mixed).2 "E"
    = Some "unprocessed".
Proof.
  split; [vm_compute; reflexivity|].
  destruct (one_page_run_purges_documents_it_passes_over (Scenario.echo ["p1"])
              FirstPass.mixed "E" FirstPass.doc_E) as (Hm & Hr & _);
    [done|reflexivity|reflexivity|by left|].
  split; [done|]. unfold status_of. by rewrite Hm.
Defined.

(** X13: in a first-pass run of the one-page script in which no database
    call raises, a document that is neither unprocessed nor marked deleted
    is left alone: its metadata and its rows are what they were,
    and none of its pages is handed to the workers. *)
Theorem one_page_run_leaves_settled_documents {Page} (E : Env Page) (w : World)
    (d : string) (md : Metadata) :
  (∀ c, raises E c = false) →
  document_metadata w !! d = Some md →
  md_status md ≠ "unprocessed" →
  md_status md ≠ "deleted" →
  document_metadata (OnePage6.process_documents E w).2 !! d = Some md ∧
  (rows_of (OnePage6.process_documents E w).2 d).*2 ≡ₚ (rows_of w d).*2 ∧
  dispatched_pages (OnePage6.process_documents E w).2 d = dispatched_pages w d.
Proof.
  intros Hok Hmd Hun Hdel.
  assert (status_of w d ≠ Some "deleted" ∧ status_of w d ≠ Some "unprocessed")
    as [Hdel' Hun'].
  { unfold status_of. rewrite Hmd. simpl. split; congruence. }
  destruct (onepage_process_unprocessed_passed_over E d md (onepage_swept w))
    as (Hm & Hr & Hdp); [|by left|].
  { by rewrite onepage_swept_metadata. }
  rewrite (onepage_process_documents_run E Hok).
  rewrite try_except_unit_snd.
  split; [done|]. split; [|done].
  by rewrite Hr, (onepage_swept_kept w d).
Qed.

Lemma one_page_run_leaves_witness :
  rows_of (OnePage6.process_documents (Scenario.echo ["p1"]) FirstPass.mixed).2 "A"
    = [(0%nat, Scenario.row "one" 1 "A")] ∧
  document_metadata (OnePage6.process_documents (Scenario.echo ["p1"]) FirstPass.mixed).2
    !! "A" = Some FirstPass.doc_A.
Proof.
  split; [vm_compute; reflexivity|].
  destruct (one_page_run_leaves_settled_documents (Scenario.echo ["p1"])
              FirstPass.mixed "A" FirstPass.doc_A) as (Hm & _);
    [done|reflexivity|done|done|].
  exact Hm.
Defined.

(** * Documents without pages, and the status update of the Supabase scripts *)

(** X14: a PDF without pages.  The one-page script finds no page group,
    saves and dispatches nothing and marks the document processed; the two
    Supabase scripts fail on the cover page, inside the per-document
    [try], and leave everything as it was, so that the document stays
    unprocessed and is taken up again by every later run. *)
Theorem documents_without_pages {Page} (E : Env Page) (doc : string * Metadata)
    (w : World) :
  download E firebase_bucket (md_path doc.2) = Some [] →
  download E (md_bucket doc.2) (md_file_name doc.2) = Some [] →
  download E "documents" (md_file_name doc.2) = Some [] →
  document_metadata w !! doc.1 = Some doc.2 →
  raises E (Update_status doc.1 "processed") = false →
  OnePage6.process_doc E doc w =
    (Return tt,
     mkWorld (<[doc.1 := Db.set_status "processed" doc.2]> (document_metadata w))
             (document_transcriptions w) (workbook_transcriptions w) (dispatched w)) ∧
  TwoPage.process_doc E doc w = (Return tt, w) ∧
  Document.process_doc E doc w = (Return tt, w).
Proof.
  intros Hfire Htwo Hdoc Hmd Hupd. split; [|split].
  - unfold OnePage6.process_doc. apply try_return.
    erewrite bind_return; [|by apply lift_some].
    erewrite bind_return; [|by apply lift_some].
    erewrite bind_return; [|reflexivity].
    unfold Db.update_status. erewrite bind_return; [|by apply call_ok].
    by rewrite Hmd.
  - unfold TwoPage.process_doc. erewrite try_raise; [done|].
    erewrite bind_return; [|by apply lift_some].
    erewrite bind_raise; [done|]. by apply lift_none.
  - unfold Document.process_doc. erewrite try_raise; [done|].
    erewrite bind_return; [|by apply lift_some].
    erewrite bind_raise; [done|]. by apply lift_none.
Qed.

Lemma documents_without_pages_witness :
  status_of (OnePage6.process_doc (Scenario.echo []) ("C", FirstPass.doc_C)
                                  FirstPass.mixed).2 "C" = Some "processed" ∧
  TwoPage.process_doc (Scenario.echo []) ("C", FirstPass.doc_C) FirstPass.mixed
    = (Return tt, FirstPass.mixed).
Proof.
  destruct (documents_without_pages (Scenario.echo []) ("C", FirstPass.doc_C)
              FirstPass.mixed) as (Hone & Htwo & _); [reflexivity..|].
  split; [|exact Htwo]. rewrite Hone. vm_compute. reflexivity.
Defined.

Lemma lookup_marked (file_name : string) (metadata : gmap string Metadata) d :
  ((λ md, if bool_decide (md_file_name md = file_name)
          then Db.set_status "processed" md else md) <$> metadata) !! d =
    (λ md, if bool_decide (md_file_name md = file_name)
           then Db.set_status "processed" md else md) <$> metadata !! d.
Proof. apply lookup_fmap. Qed.

(** X15: the Supabase scripts mark a document processed by its file name:
    when the pages of a document have been transcribed and the update does
    not raise, every document that has the same file name is set to
    processed, whatever its status was, and the documents of other file
    names keep their metadata. *)
Theorem supabase_marks_documents_by_file_name {Page} (E : Env Page)
    (doc : string * Metadata) (pdf_data : list Page) (w : World) :
  pdf_data ≠ [] →
  download E (md_bucket doc.2) (md_file_name doc.2) = Some pdf_data →
  download E "documents" (md_file_name doc.2) = Some pdf_data →
  raises E (Update_status (md_file_name doc.2) "processed") = false →
  ∀ d md,
    document_metadata w !! d = Some md →
    (md_file_name md = md_file_name doc.2 →
     document_metadata (TwoPage.process_doc E doc w).2 !! d =
       Some (Db.set_status "processed" md) ∧
     document_metadata (Document.process_doc E doc w).2 !! d =
       Some (Db.set_status "processed" md)) ∧
    (md_file_name md ≠ md_file_name doc.2 →
     document_metadata (TwoPage.process_doc E doc w).2 !! d = Some md ∧
     document_metadata (Document.process_doc E doc w).2 !! d = Some md).
Proof.
  intros Hne Htwo Hdoc Hupd d md Hmd.
  destruct (twopage_split_partition pdf_data Hne) as (split_two & Hsplit_two & _).
  destruct (document_split_partition pdf_data Hne) as (split_doc & Hsplit_doc & _).
  rewrite (twopage_process_doc_run E doc pdf_data split_two w Htwo Hsplit_two Hupd).
  rewrite (document_process_doc_run E doc pdf_data split_doc w Hdoc Hsplit_doc Hupd).
  cbn [snd document_metadata]. rewrite !lookup_marked, Hmd. simpl.
  split; intros Hname.
  - by rewrite bool_decide_eq_true_2.
  - by rewrite bool_decide_eq_false_2.
Qed.

Lemma supabase_marks_documents_witness :
  status_of Scenario.reupload "A" = Some "deleted_applied" ∧
  status_of (TwoPage.process_doc (Scenario.echo ["p1"])
               ("B", mkMetadata "x.pdf" "docs/x.pdf" "documents" "unprocessed" None None)
               Scenario.reupload).2 "A" = Some "processed".
Proof.
  split; [reflexivity|].
  destruct (supabase_marks_documents_by_file_name (Scenario.echo ["p1"])
              ("B", mkMetadata "x.pdf" "docs/x.pdf" "documents" "unprocessed" None None)
              ["p1"] Scenario.reupload) with
    (d := "A")
    (md := mkMetadata "x.pdf" "docs/x.pdf" "documents" "deleted_applied" None None)
    as [Hsame _]; [done|reflexivity..|].
  destruct Hsame as [Htwo _]; [reflexivity|].
  unfold status_of. by rewrite Htwo.
Defined.

(** * The shape of the cover-and-pairs split *)

Section cover_and_pairs.
Context {Page : Type}.

Lemma twopage_loop_shape (pdf_data : list Page) (c : nat) (j : Z) acc :
  0 ≤ j → j + Z.of_nat c = Py.len pdf_data `div` 2 →
  ∃ groups,
    Py.for_ ((λ k, 1 + k * 2) <$> seqZ j (Z.of_nat c)) (λ split_pdfs i,
      pg ← Py.getitem pdf_data i;
      writer ← (if bool_decide (i + 1 < Py.len pdf_data) then
                  pg' ← Py.getitem pdf_data (i + 1); Some ([pg] ++ [pg'])
                else Some [pg]);
      Some (split_pdfs ++ [mkPagePdf ("pages_" +:+ pretty (i + 1)) writer (i + 1)])) acc
      = Some (acc ++ groups) ∧
    (λ g, (name g, page g, Py.len (data g))) <$> groups =
      (λ k, ("pages_" +:+ pretty (2 * k + 2), 2 * k + 2,
             if bool_decide (2 * k + 2 < Py.len pdf_data) then 2 else 1))
        <$> seqZ j (Z.of_nat c).
Proof.
  revert j acc. induction c as [|c IH]; intros j acc Hj Hc.
  - exists []. simpl. by rewrite app_nil_r.
  - pose proof (Z.mul_div_le (Py.len pdf_data) 2).
    rewrite seqZ_succ, !fmap_cons. cbn [Py.for_].
    destruct (getitem_in_range pdf_data (1 + j * 2)) as (pg & -> & Hpg); [lia|]. simpl.
    replace (1 + j * 2 + 1) with (2 * j + 2) by lia.
    case_bool_decide as Hlast.
    + destruct (getitem_in_range pdf_data (2 * j + 2)) as (pg' & -> & Hpg'); [lia|]. simpl.
      destruct (IH (j + 1)
        (acc ++ [mkPagePdf ("pages_" +:+ pretty (2 * j + 2)) [pg; pg'] (2 * j + 2)]))
        as (groups & Hrun & Hshape); [lia..|].
      exists (mkPagePdf ("pages_" +:+ pretty (2 * j + 2)) [pg; pg'] (2 * j + 2) :: groups).
      split; [rewrite <-app_assoc in Hrun; exact Hrun|].
      rewrite fmap_cons. by rewrite Hshape.
    + simpl.
      destruct (IH (j + 1)
        (acc ++ [mkPagePdf ("pages_" +:+ pretty (2 * j + 2)) [pg] (2 * j + 2)]))
        as (groups & Hrun & Hshape); [lia..|].
      exists (mkPagePdf ("pages_" +:+ pretty (2 * j + 2)) [pg] (2 * j + 2) :: groups).
      split; [rewrite <-app_assoc in Hrun; exact Hrun|].
      rewrite fmap_cons. by rewrite Hshape.
Qed.

Lemma document_loop_shape (pdf_data : list Page) (c : nat) (j : Z) acc :
  0 ≤ j → j + Z.of_nat c = Py.len pdf_data `div` 2 →
  ∃ groups,
    Py.for_ ((λ k, 1 + k * 2) <$> seqZ j (Z.of_nat c)) (λ split_pdfs i,
      pg ← Py.getitem pdf_data i;
      '(writer, page_end) ←
        (if bool_decide (i + 1 < Py.len pdf_data) then
           pg' ← Py.getitem pdf_data (i + 1); Some ([pg] ++ [pg'], i + 2)
         else Some ([pg], i + 1));
      Some (split_pdfs ++
            [mkRangePdf ("pages_" +:+ pretty (i + 1) +:+ "-" +:+ pretty page_end)
                        writer (i + 1) page_end])) acc
      = Some (acc ++ groups) ∧
    (λ g, (rname g, page_start g, page_end g, Py.len (rdata g))) <$> groups =
      (λ k, if bool_decide (2 * k + 2 < Py.len pdf_data)
            then ("pages_" +:+ pretty (2 * k + 2) +:+ "-" +:+ pretty (2 * k + 3),
                  2 * k + 2, 2 * k + 3, 2)
            else ("pages_" +:+ pretty (2 * k + 2) +:+ "-" +:+ pretty (2 * k + 2),
                  2 * k + 2, 2 * k + 2, 1))
        <$> seqZ j (Z.of_nat c).
Proof.
  revert j acc. induction c as [|c IH]; intros j acc Hj Hc.
  - exists []. simpl. by rewrite app_nil_r.
  - pose proof (Z.mul_div_le (Py.len pdf_data) 2).
    rewrite seqZ_succ, !fmap_cons. cbn [Py.for_].
    destruct (getitem_in_range pdf_data (1 + j * 2)) as (pg & -> & Hpg); [lia|]. simpl.
    replace (1 + j * 2 + 1) with (2 * j + 2) by lia.
    replace (1 + j * 2 + 2) with (2 * j + 3) by lia.
    case_bool_decide as Hlast.
    + destruct (getitem_in_range pdf_data (2 * j + 2)) as (pg' & -> & Hpg'); [lia|]. simpl.
      destruct (IH (j + 1)
        (acc ++ [mkRangePdf ("pages_" +:+ pretty (2 * j + 2) +:+ "-" +:+ pretty (2 * j + 3))
                            [pg; pg'] (2 * j + 2) (2 * j + 3)]))
        as (groups & Hrun & Hshape); [lia..|].
      eexists (_ :: groups).
      split; [rewrite <-app_assoc in Hrun; exact Hrun|].
      rewrite fmap_cons. by rewrite Hshape.
    + simpl.
      destruct (IH (j + 1)
        (acc ++ [mkRangePdf ("pages_" +:+ pretty (2 * j + 2) +:+ "-" +:+ pretty (2 * j + 2))
                            [pg] (2 * j + 2) (2 * j + 2)]))
        as (groups & Hrun & Hshape); [lia..|].
      eexists (_ :: groups).
      split; [rewrite <-app_assoc in Hrun; exact Hrun|].
      rewrite fmap_cons. by rewrite Hshape.
Qed.

End cover_and_pairs.

(** X16: the cover-and-pairs split of a document of n ≥ 1 pages gives
    1 + n div 2 page groups: the cover page alone, named cover, and then
    for k = 0, 1, ... the group that starts at page 2k + 2, named after its
    first page (and, in [transcribe_document.py], its last page); such a
    group has two pages, except the last group of a document with an even
    number of pages, which has one. *)
Theorem cover_and_pairs_shape {Page} (pdf_data : list Page) :
  pdf_data ≠ [] →
  ∃ two_page ranges,
    TwoPage.split_pdf_in_memory pdf_data = Some two_page ∧
    Document.split_pdf_in_memory pdf_data = Some ranges ∧
    Py.len two_page = 1 + Py.len pdf_data `div` 2 ∧
    Py.len ranges = 1 + Py.len pdf_data `div` 2 ∧
    (λ g, (name g, page g, Py.len (data g))) <$> two_page =
      ("cover", 1, 1) ::
      ((λ k, ("pages_" +:+ pretty (2 * k + 2), 2 * k + 2,
              if bool_decide (2 * k + 2 < Py.len pdf_data) then 2 else 1))
         <$> seqZ 0 (Py.len pdf_data `div` 2)) ∧
    (λ g, (rname g, page_start g, page_end g, Py.len (rdata g))) <$> ranges =
      ("cover", 1, 1, 1) ::
      ((λ k, if bool_decide (2 * k + 2 < Py.len pdf_data)
             then ("pages_" +:+ pretty (2 * k + 2) +:+ "-" +:+ pretty (2 * k + 3),
                   2 * k + 2, 2 * k + 3, 2)
             else ("pages_" +:+ pretty (2 * k + 2) +:+ "-" +:+ pretty (2 * k + 2),
                   2 * k + 2, 2 * k + 2, 1))
         <$> seqZ 0 (Py.len pdf_data `div` 2)).
Proof.
  intros Hne. destruct pdf_data as [|cover rest] eqn:Hpdf; [done|]. rewrite <-Hpdf in *.
  assert (1 ≤ Py.len pdf_data) as Hlen by (rewrite Hpdf; unfold Py.len; simpl; lia).
  assert (0 ≤ Py.len pdf_data `div` 2) as Hdiv by (apply Z.div_pos; lia).
  destruct (twopage_loop_shape pdf_data (Z.to_nat (Py.len pdf_data `div` 2)) 0
              [mkPagePdf "cover" [cover] 1]) as (groups & Hrun & Hshape); [done|lia|].
  destruct (document_loop_shape pdf_data (Z.to_nat (Py.len pdf_data `div` 2)) 0
              [mkRangePdf "cover" [cover] 1 1]) as (rgroups & Hrrun & Hrshape); [done|lia|].
  rewrite Z2Nat.id in Hrun, Hshape, Hrrun, Hrshape by done.
  assert (Py.getitem pdf_data 0 = Some cover) as Hcover by (by rewrite Hpdf).
  exists (mkPagePdf "cover" [cover] 1 :: groups),
         (mkRangePdf "cover" [cover] 1 1 :: rgroups).
  split; [|split; [|split; [|split; [|split]]]].
  - unfold TwoPage.split_pdf_in_memory. rewrite range_step_two, Hcover. apply Hrun.
  - unfold Document.split_pdf_in_memory. rewrite range_step_two, Hcover. apply Hrrun.
  - apply (f_equal length) in Hshape. rewrite !length_fmap, length_seqZ in Hshape.
    unfold Py.len in *. simpl. lia.
  - apply (f_equal length) in Hrshape. rewrite !length_fmap, length_seqZ in Hrshape.
    unfold Py.len in *. simpl. lia.
  - rewrite fmap_cons. by rewrite Hshape.
  - rewrite fmap_cons. by rewrite Hrshape.
Qed.

Lemma cover_and_pairs_witness :
  ∃ two_page ranges,
    TwoPage.split_pdf_in_memory ["p1"; "p2"; "p3"; "p4"] = Some two_page ∧
    Document.split_pdf_in_memory ["p1"; "p2"; "p3"; "p4"] = Some ranges ∧
    Py.len two_page = 3 ∧
    (λ g, (rname g, page_start g, page_end g, Py.len (rdata g))) <$> ranges
      = [("cover", 1, 1, 1); ("pages_2-3", 2, 3, 2); ("pages_4-4", 4, 4, 1)].
Proof.
  destruct (cover_and_pairs_shape ["p1"; "p2"; "p3"; "p4"])
    as (two_page & ranges & Htwo & Hranges & Hlen & _ & _ & Hrshape); [done|].
  exists two_page, ranges. split; [done|]. split; [done|]. split; [exact Hlen|].
  rewrite Hrshape. vm_compute. reflexivity.
Defined.

(** * A failed status update in the Supabase scripts *)

Section supabase_retry.
Context {Page : Type} (E : Env Page).

Lemma update_status_eq_file_name_raises file_name status w :
  raises E (Update_status file_name status) = true →
  Db.update_status_eq_file_name E file_name status w = (Raise, w).
Proof.
  intros Hr. unfold Db.update_status_eq_file_name.
  erewrite bind_raise; [done|by apply call_raises].
Qed.

Lemma twopage_process_doc_update_raises doc pdf_data split_pdfs w :
  download E (md_bucket doc.2) (md_file_name doc.2) = Some pdf_data →
  TwoPage.split_pdf_in_memory pdf_data = Some split_pdfs →
  raises E (Update_status (md_file_name doc.2) "processed") = true →
  TwoPage.process_doc E doc w =
    (Return tt,
     mkWorld (document_metadata w)
             (add_rows (accepted E (twopage_rows E (md_file_name doc.2) doc.1 split_pdfs))
                       (document_transcriptions w))
             (workbook_transcriptions w) (dispatched w)).
Proof.
  intros Hdl Hsplit Hup. unfold TwoPage.process_doc.
  erewrite try_raise; [done|].
  erewrite bind_return; [|by apply lift_some].
  erewrite bind_return; [|by apply lift_some].
  erewrite bind_return; [|apply twopage_save_all].
  by apply update_status_eq_file_name_raises.
Qed.

Lemma document_process_doc_update_raises doc pdf_data split_pdfs w :
  download E "documents" (md_file_name doc.2) = Some pdf_data →
  Document.split_pdf_in_memory pdf_data = Some split_pdfs →
  raises E (Update_status (md_file_name doc.2) "processed") = true →
  Document.process_doc E doc w =
    (Return tt,
     mkWorld (document_metadata w)
             (add_rows (accepted E (document_rows E (md_file_name doc.2) split_pdfs))
                       (document_transcriptions w))
             (workbook_transcriptions w) (dispatched w)).
Proof.
  intros Hdl Hsplit Hup. unfold Document.process_doc.
  erewrite try_raise; [done|].
  erewrite bind_return; [|by apply lift_some].
  erewrite bind_return; [|by apply lift_some].
  erewrite bind_return; [|apply document_save_all].
  by apply update_status_eq_file_name_raises.
Qed.

Lemma accepted_rows_all rows :
  (∀ row, raises E (Add_transcription row) = false) → accepted E rows = rows.
Proof. intros Hok. apply filter_all. apply Forall_forall. intros row _. apply Hok. Qed.

End supabase_retry.

(** X17: the Supabase scripts save the rows of a document before they
    update its status, and they do not remove rows of unprocessed
    documents.  When the status update raises, the rows stay and the
    document stays unprocessed; processing it again adds the same rows a
    second time, so that every page group has two rows (one row per page
    group: [length rows = length split_pdfs]). *)
Theorem supabase_retry_duplicates_rows {Page} (E : Env Page) (doc : string * Metadata)
    (pdf_data : list Page) (split_pdfs : list (PagePdf Page))
    (ranges : list (RangePdf Page)) (w : World) :
  download E (md_bucket doc.2) (md_file_name doc.2) = Some pdf_data →
  download E "documents" (md_file_name doc.2) = Some pdf_data →
  TwoPage.split_pdf_in_memory pdf_data = Some split_pdfs →
  Document.split_pdf_in_memory pdf_data = Some ranges →
  (∀ row, raises E (Add_transcription row) = false) →
  raises E (Update_status (md_file_name doc.2) "processed") = true →
  (∃ rows,
     length rows = length split_pdfs ∧
     document_metadata (TwoPage.process_doc E doc w).2 = document_metadata w ∧
     (map_to_list (document_transcriptions (TwoPage.process_doc E doc w).2)).*2 ≡ₚ
       (map_to_list (document_transcriptions w)).*2 ++ rows ∧
     (map_to_list (document_transcriptions
                     (TwoPage.process_doc E doc (TwoPage.process_doc E doc w).2).2)).*2 ≡ₚ
       (map_to_list (document_transcriptions w)).*2 ++ rows ++ rows) ∧
  (∃ rows,
     length rows = length ranges ∧
     document_metadata (Document.process_doc E doc w).2 = document_metadata w ∧
     (map_to_list (document_transcriptions (Document.process_doc E doc w).2)).*2 ≡ₚ
       (map_to_list (document_transcriptions w)).*2 ++ rows ∧
     (map_to_list (document_transcriptions
                     (Document.process_doc E doc (Document.process_doc E doc w).2).2)).*2 ≡ₚ
       (map_to_list (document_transcriptions w)).*2 ++ rows ++ rows).
Proof.
  intros Htwo Hdoc Hsplit Hranges Hadd Hupd. split.
  - exists (twopage_rows E (md_file_name doc.2) doc.1 split_pdfs).
    split; [unfold twopage_rows; by rewrite length_fmap|].
    rewrite !(twopage_process_doc_update_raises E doc pdf_data split_pdfs) by done.
    cbn [snd document_metadata document_transcriptions].
    rewrite accepted_rows_all by done. split; [done|].
    rewrite !map_to_list_add_rows. split; [done|]. by rewrite <-app_assoc.
  - exists (document_rows E (md_file_name doc.2) ranges).
    split; [unfold document_rows; by rewrite length_fmap|].
    rewrite !(document_process_doc_update_raises E doc pdf_data ranges) by done.
    cbn [snd document_metadata document_transcriptions].
    rewrite accepted_rows_all by done. split; [done|].
    rewrite !map_to_list_add_rows. split; [done|]. by rewrite <-app_assoc.
Qed.

Lemma supabase_retry_witness :
  document_metadata
    (TwoPage.process_doc (update_down ["p1"])
       ("B", mkMetadata "b.pdf" "docs/b.pdf" "documents" "unprocessed" None None)
       Scenario.fresh_upload).2 = document_metadata Scenario.fresh_upload ∧
  size (document_transcriptions
          (TwoPage.process_doc (update_down ["p1"])
             ("B", mkMetadata "b.pdf" "docs/b.pdf" "documents" "unprocessed" None None)
             (TwoPage.process_doc (update_down ["p1"])
                ("B", mkMetadata "b.pdf" "docs/b.pdf" "documents" "unprocessed" None None)
                Scenario.fresh_upload).2).2) = 2%nat.
Proof.
  destruct (supabase_retry_duplicates_rows (update_down ["p1"])
              ("B", mkMetadata "b.pdf" "docs/b.pdf" "documents" "unprocessed" None None)
              ["p1"] [mkPagePdf "cover" ["p1"] 1] [mkRangePdf "cover" ["p1"] 1 1]
              Scenario.fresh_upload)
    as [(rows & _ & Hmeta & _) _]; [reflexivity..|done|reflexivity|].
  split; [exact Hmeta|]. vm_compute. reflexivity.
Defined.

(** * What an error-recovery run adds *)

Lemma truthy_int_Some total_pages :
  Py.truthy_int total_pages = true → ∃ N, total_pages = Some N ∧ N ≠ 0.
Proof.
  destruct total_pages as [N|]; [|done]. simpl. intros HN.
  exists N. split; [done|]. apply negb_true_iff in HN. by apply Z.eqb_neq.
Qed.

Section recovery_rows.
Context {Page : Type} (E : Env Page).

(** The loop body of the error-recovery run: the page groups it handles
    are pages of the document that are within its page count and not
    recorded. *)
Lemma error_process_doc_pages doc w :
  ∃ split_pdfs,
    ErrorPage6.process_doc E doc w =
      (Return tt, after_batch E (recovery_transcription E)
                              (md_file_name doc.2) doc.1 split_pdfs w) ∧
    ∀ pdf, pdf ∈ split_pdfs →
           ∃ N, md_total_pages doc.2 = Some N ∧ 1 ≤ page pdf ≤ N ∧
                page pdf ∉ recorded_pages w doc.1.
Proof.
  assert (∃ split_pdfs : list (PagePdf Page),
            (Return tt, w) =
              (Return tt, after_batch E (recovery_transcription E)
                                      (md_file_name doc.2) doc.1 split_pdfs w) ∧
            ∀ pdf, pdf ∈ split_pdfs →
                   ∃ N, md_total_pages doc.2 = Some N ∧ 1 ≤ page pdf ≤ N ∧
                        page pdf ∉ recorded_pages w doc.1) as Hskip.
  { exists []. split; [by rewrite after_batch_nil|]. intros pdf Hpdf.
    by apply elem_of_nil in Hpdf. }
  unfold ErrorPage6.process_doc.
  destruct (Py.truthy_int (md_total_pages doc.2)) eqn:Htruthy; simpl; [|done].
  apply truthy_int_Some in Htruthy as (N & Htotal & HN). rewrite Htotal in Hskip |- *.
  simpl.
  destruct (raises E (Query_transcriptions doc.1)) eqn:Hr.
  { erewrite bind_return; [|by apply get_missing_pages_raises]. exact Hskip. }
  destruct (get_missing_pages_ok E doc.1 N w Hr) as (missing & Hmiss & _ & Hin).
  erewrite bind_return; [|done].
  destruct missing as [|p missing]; [exact Hskip|].
  assert (Forall (λ p, 1 ≤ p) (p :: missing)) as Hpos.
  { apply Forall_forall. intros q Hq. apply Hin in Hq. lia. }
  destruct (download E firebase_bucket (md_path doc.2)) as [pdf_data|] eqn:Hdl.
  - destruct (transcribe_missing_run E (md_file_name doc.2) doc.1 _ _ _ w Hpos Hdl)
      as (split_pdfs & Hex & Hrun).
    rewrite Hdl in Hrun. exists split_pdfs. split; [done|].
    destruct (extract_positive_pages pdf_data (p :: missing) Hpos)
      as (split_pdfs' & Hex' & Hpages & _).
    rewrite Hex in Hex'. injection Hex' as <-.
    intros pdf Hpdf. exists N. split; [done|].
    assert (page pdf ∈ p :: missing) as Hq.
    { assert (page pdf ∈ page <$> split_pdfs) as Hpage
        by (apply list_elem_of_fmap; by exists pdf).
      rewrite Hpages in Hpage. by apply list_elem_of_filter in Hpage as [_ ?]. }
    by apply Hin in Hq.
  - erewrite try_raise; [exact Hskip|]. erewrite bind_raise; [done|]. by apply lift_none.
Qed.

(** A row is a gap filled for world [w]: it belongs to a document of [w]
    that the error-recovery run selects, and it records a page within the
    document's page count that [w] has no record of. *)
Lemma error_recovery_rows w :
  ∃ w',
    ErrorPage6.process_error_pages E w = (Return tt, w') ∧
    (∀ k row, document_transcriptions w !! k = Some row →
              document_transcriptions w' !! k = Some row) ∧
    (∀ k row, document_transcriptions w' !! k = Some row →
              document_transcriptions w !! k = None →
              ∃ d md N p,
                document_metadata w !! d = Some md ∧
                md_status md = "processed" ∧ md_random md = Some 6 ∧
                md_total_pages md = Some N ∧ 1 ≤ p ≤ N ∧ (p ∉ recorded_pages w d) ∧
                t_document_id row = Some d ∧ t_page row = Some p ∧
                t_file_name row = md_file_name md ∧ t_transcription row ≠ "").
Proof.
  set (gap := λ row : Transcription,
         ∃ d md N p,
           document_metadata w !! d = Some md ∧
           md_status md = "processed" ∧ md_random md = Some 6 ∧
           md_total_pages md = Some N ∧ 1 ≤ p ≤ N ∧ (p ∉ recorded_pages w d) ∧
           t_document_id row = Some d ∧ t_page row = Some p ∧
           t_file_name row = md_file_name md ∧ t_transcription row ≠ "").
  unfold ErrorPage6.process_error_pages, try_except, bind.
  destruct (Db.metadata_where E _ w) as [[docs|] w1] eqn:Hq.
  2:{ unfold Db.metadata_where, bind, Db.call in Hq. destruct (raises E _); [|done].
      injection Hq as <-. exists w. split; [done|]. split; [done|].
      intros k row Hk Hnone. by rewrite Hk in Hnone. }
  apply metadata_where_inv in Hq as [-> Hdocs]. rewrite for_each_guard.
  destruct (for_each_invariant
              (λ w', (∀ k row, document_transcriptions w !! k = Some row →
                               document_transcriptions w' !! k = Some row) ∧
                     (∀ k row, document_transcriptions w' !! k = Some row →
                               document_transcriptions w !! k = Some row ∨ gap row))
              docs (ErrorPage6.process_doc E) w) as (w' & Hrun & Hkept & Hnew).
  { split; [done|]. intros k row Hk. by left. }
  { intros doc w1 Hdoc [Hkept Hnew]. rewrite Hdocs in Hdoc.
    apply queried_doc in Hdoc as [Hmd Hsel].
    cbn in Hsel. apply andb_prop_elim in Hsel as [Hst Hsel].
    apply andb_prop_elim in Hsel as [Hrandom _].
    apply bool_decide_unpack in Hst. apply bool_decide_unpack in Hrandom.
    destruct (error_process_doc_pages doc w1) as (split_pdfs & Hrun & Hpages).
    eexists. split; [exact Hrun|]. unfold after_batch. simpl. split.
    - intros k row Hk. by apply add_rows_lookup_old, Hkept.
    - intros k row Hk. apply add_rows_lookup_inv in Hk as [Hk|Hrow]; [by apply Hnew|].
      right. apply elem_of_accepted in Hrow as [_ Hrow].
      apply elem_of_batch_rows in Hrow as (pdf & Hpdf & Htruthy & ->).
      destruct (Hpages pdf Hpdf) as (N & Htotal & HN & Hrec).
      exists doc.1, doc.2, N, (page pdf). repeat (split; [done|]).
      split; [|split; [done|split; [done|split; [done|]]]].
      + intros Hin. apply Hrec. apply elem_of_recorded_pages in Hin
          as (id & row & Hid & Hd & Hp).
        apply elem_of_recorded_pages. exists id, row. split; [by apply Hkept|done].
      + simpl. intros Hempty. by rewrite Hempty in Htruthy. }
  exists w'. split; [by rewrite Hrun|]. split; [done|].
  intros k row Hk Hnone. destruct (Hnew k row Hk) as [Hold|Hgap]; [|done].
  by rewrite Hold in Hnone.
Qed.

End recovery_rows.

(** X18: whatever raises, an error-recovery run returns without raising,
    removes and changes no transcription row, and every row it adds fills a
    gap: the row belongs to a document that is processed and has number 6,
    it records a page between 1 and the document's page count that had no
    record before the run, under the document's file name, and its text is
    not empty. *)
Theorem error_recovery_only_fills_gaps {Page} (E : Env Page) (w : World) :
  ∃ w',
    ErrorPage6.process_error_pages E w = (Return tt, w') ∧
    (∀ k row, document_transcriptions w !! k = Some row →
              document_transcriptions w' !! k = Some row) ∧
    (∀ k row, document_transcriptions w' !! k = Some row →
              document_transcriptions w !! k = None →
              ∃ d md N p,
                document_metadata w !! d = Some md ∧
                md_status md = "processed" ∧ md_random md = Some 6 ∧
                md_total_pages md = Some N ∧ 1 ≤ p ≤ N ∧ (p ∉ recorded_pages w d) ∧
                t_document_id row = Some d ∧ t_page row = Some p ∧
                t_file_name row = md_file_name md ∧ t_transcription row ≠ "").
Proof. apply error_recovery_rows. Qed.

(** * Pages the model blocks, and documents the run passes over *)

Lemma batch_rows_nil {Page} (f : list Page → string) fn d (batch : list (PagePdf Page)) :
  Forall (λ pdf, f (data pdf) = "") batch → batch_rows f fn d batch = [].
Proof.
  induction 1 as [|pdf batch Hpdf _ IH]; [done|].
  by rewrite batch_rows_cons, Hpdf, IH.
Qed.

Lemma recovery_transcription_blocked {Page} (E : Env Page) pdf_data response :
  generate_content E pdf_data = Some response →
  candidates response = [] →
  recovery_transcription E pdf_data = "".
Proof. unfold recovery_transcription. by intros -> ->. Qed.

Section blocked_pages.
Context {Page : Type} (E : Env Page).

(** The loop body on a document all of whose missing pages are blocked. *)
Lemma error_process_doc_blocked doc N pdf_data w :
  md_total_pages doc.2 = Some N →
  raises E (Query_transcriptions doc.1) = false →
  download E firebase_bucket (md_path doc.2) = Some pdf_data →
  (∀ p pg, 1 ≤ p ≤ N → p ∉ recorded_pages w doc.1 →
           pdf_data !! Z.to_nat (p - 1) = Some pg →
           ∃ response, generate_content E [pg] = Some response ∧
                       candidates response = []) →
  ∃ missing,
    ErrorPage6.get_missing_pages E doc.1 N w = (Return missing, w) ∧
    (∀ p, p ∈ missing ↔ 1 ≤ p ≤ N ∧ p ∉ recorded_pages w doc.1) ∧
    StronglySorted Z.lt missing ∧
    ErrorPage6.process_doc E doc w =
      (Return tt,
       mkWorld (document_metadata w) (document_transcriptions w)
               (workbook_transcriptions w)
               (dispatched w ++
                ((λ p, (doc.1, p)) <$> filter (λ p, p ≤ Py.len pdf_data) missing))).
Proof.
  intros Htotal Hr Hdl Hblocked.
  destruct (get_missing_pages_ok E doc.1 N w Hr) as (missing & Hmiss & Hsorted & Hin).
  exists missing. split; [done|]. split; [done|]. split; [done|].
  destruct (decide (N = 0)) as [->|HN].
  { assert (missing = []) as ->.
    { destruct missing as [|p ?]; [done|]. destruct (proj1 (Hin p)); [left|lia]. }
    unfold ErrorPage6.process_doc. rewrite Htotal. simpl.
    unfold ret. by rewrite app_nil_r, world_eta. }
  destruct (error_process_doc_run E doc N pdf_data w Htotal HN Hr Hdl)
    as (missing' & split_pdfs & Hmiss' & Hex & Hrun).
  rewrite Hmiss in Hmiss'. injection Hmiss' as <-.
  destruct (extract_positive_pages pdf_data missing) as (split_pdfs' & Hex' & Hpages & Hdata).
  { apply Forall_forall. intros p Hp. apply Hin in Hp. lia. }
  rewrite Hex in Hex'. injection Hex' as <-.
  rewrite Hrun. f_equal. unfold after_batch.
  rewrite batch_rows_nil.
  - rewrite <-Hpages, <-list_fmap_compose. done.
  - apply Forall_forall. intros pdf Hpdf.
    pose proof (proj1 (Forall_forall _ _) Hdata pdf Hpdf) as (_ & pg & Hpg & Hd).
    assert (page pdf ∈ missing) as Hp.
    { assert (page pdf ∈ page <$> split_pdfs) as Hpage
        by (apply list_elem_of_fmap; by exists pdf).
      rewrite Hpages in Hpage. by apply list_elem_of_filter in Hpage as [_ ?]. }
    apply Hin in Hp as [Hrange Hrec].
    destruct (Hblocked (page pdf) pg Hrange Hrec Hpg) as (response & Hgen & Hcand).
    rewrite Hd. by apply (recovery_transcription_blocked E [pg] response).
Qed.

End blocked_pages.

(** X19: pages for which the model returns no candidate make no progress.
    When the lookup and the download succeed and the model returns no
    candidate for any missing page of a document, the loop body of the
    error-recovery run hands every missing page that the PDF has to the
    workers and records nothing; the next run finds the same pages missing
    and hands them to the workers once more. *)
Theorem blocked_pages_are_dispatched_again {Page} (E : Env Page)
    (doc : string * Metadata) (N : Z) (pdf_data : list Page) (w : World) :
  md_total_pages doc.2 = Some N →
  raises E (Query_transcriptions doc.1) = false →
  download E firebase_bucket (md_path doc.2) = Some pdf_data →
  (∀ p pg, 1 ≤ p ≤ N → p ∉ recorded_pages w doc.1 →
           pdf_data !! Z.to_nat (p - 1) = Some pg →
           ∃ response, generate_content E [pg] = Some response ∧
                       candidates response = []) →
  ∃ missing,
    ErrorPage6.get_missing_pages E doc.1 N w = (Return missing, w) ∧
    document_transcriptions (ErrorPage6.process_doc E doc w).2 = document_transcriptions w ∧
    dispatched (ErrorPage6.process_doc E doc w).2 =
      dispatched w ++ ((λ p, (doc.1, p)) <$> filter (λ p, p ≤ Py.len pdf_data) missing) ∧
    (ErrorPage6.get_missing_pages E doc.1 N (ErrorPage6.process_doc E doc w).2).1 =
      Return missing ∧
    dispatched (ErrorPage6.process_doc E doc (ErrorPage6.process_doc E doc w).2).2 =
      dispatched w ++
      ((λ p, (doc.1, p)) <$> filter (λ p, p ≤ Py.len pdf_data) missing) ++
      ((λ p, (doc.1, p)) <$> filter (λ p, p ≤ Py.len pdf_data) missing).
Proof.
  intros Htotal Hr Hdl Hblocked.
  destruct (error_process_doc_blocked E doc N pdf_data w Htotal Hr Hdl Hblocked)
    as (missing & Hmiss & Hin & Hsorted & Hrun).
  exists missing. split; [done|]. rewrite Hrun. cbn [snd].
  set (w1 := mkWorld _ _ _ _).
  assert (∀ d, recorded_pages w1 d = recorded_pages w d) as Hrec by done.
  destruct (error_process_doc_blocked E doc N pdf_data w1 Htotal Hr Hdl)
    as (missing' & Hmiss' & Hin' & Hsorted' & Hrun').
  { intros p pg Hp Hnot. apply Hblocked; [done|]. by rewrite <-Hrec. }
  assert (missing' = missing) as ->.
  { apply StronglySorted_lt_unique; [done..|]. intros p. by rewrite Hin, Hin', Hrec. }
  split; [done|]. split; [done|]. split; [by rewrite Hmiss'|].
  rewrite Hrun'. simpl. by rewrite <-app_assoc.
Qed.

Lemma blocked_pages_witness :
  ∃ missing,
    ErrorPage6.get_missing_pages (blocked Scenario.five_pages) "A" 5 Scenario.gaps
      = (Return missing, Scenario.gaps) ∧
    document_transcriptions
      (ErrorPage6.process_doc (blocked Scenario.five_pages) Scenario.doc_A Scenario.gaps).2
      = document_transcriptions Scenario.gaps ∧
    dispatched
      (ErrorPage6.process_doc (blocked Scenario.five_pages) Scenario.doc_A Scenario.gaps).2
      = [("A", 2); ("A", 5)].
Proof.
  destruct (blocked_pages_are_dispatched_again (blocked Scenario.five_pages)
              Scenario.doc_A 5 Scenario.five_pages Scenario.gaps)
    as (missing & Hmiss & Htable & Hdispatched & _); [reflexivity..| |].
  - intros p pg _ _ _. by eexists.
  - exists missing. split; [exact Hmiss|]. split; [exact Htable|].
    vm_compute. reflexivity.
Defined.

Section passed_over.
Context {Page : Type} (E : Env Page).

(** The error-recovery run, seen from one document. *)
Lemma error_recovery_dispatch_frame w d md :
  document_metadata w !! d = Some md →
  md_status md ≠ "processed" ∨ md_random md ≠ Some 6 ∨
  md_total_pages md = None ∨ (∃ N, md_total_pages md = Some N ∧ N ≤ 0) →
  dispatched_pages (ErrorPage6.process_error_pages E w).2 d = dispatched_pages w d.
Proof.
  intros Hmd Hcase. unfold ErrorPage6.process_error_pages, try_except, bind.
  destruct (Db.metadata_where E _ w) as [[docs|] w1] eqn:Hq.
  2:{ unfold Db.metadata_where, bind, Db.call in Hq. destruct (raises E _); [|done].
      by injection Hq as <-. }
  apply metadata_where_inv in Hq as [-> Hdocs]. rewrite for_each_guard.
  destruct (for_each_invariant
              (λ w', dispatched_pages w' d = dispatched_pages w d)
              docs (ErrorPage6.process_doc E) w) as (w' & -> & Hinv); [done| |done].
  intros doc w1 Hdoc Hdp. rewrite Hdocs in Hdoc.
  apply queried_doc in Hdoc as [Hdoc Hsel].
  destruct (error_process_doc_pages E doc w1) as (split_pdfs & Hrun & Hpages).
  eexists. split; [exact Hrun|].
  destruct (decide (doc.1 = d)) as [Heq|Hne].
  - rewrite Heq, Hmd in Hdoc. injection Hdoc as Hdoc2.
    cbn in Hsel. apply andb_prop_elim in Hsel as [Hst Hsel].
    apply andb_prop_elim in Hsel as [Hrandom _].
    apply bool_decide_unpack in Hst. apply bool_decide_unpack in Hrandom.
    rewrite <-Hdoc2 in Hst, Hrandom, Hpages.
    assert (split_pdfs = []) as ->.
    { destruct split_pdfs as [|pdf ?]; [done|].
      destruct (Hpages pdf) as (N & Htotal & HN & _); [left|].
      destruct Hcase as [?|[?|[Hnone|(N' & Htotal' & HN')]]]; [done..| |].
      - by rewrite Hnone in Htotal.
      - rewrite Htotal' in Htotal. injection Htotal as ->. lia. }
    by rewrite after_batch_nil.
  - rewrite <-Hdp. unfold after_batch.
    rewrite dispatched_pages_app, filter_other_doc by done. by rewrite app_nil_r.
Qed.

End passed_over.

(** X20: whatever raises, an error-recovery run passes over every document
    that is not processed, does not have number 6, or has no positive page
    count ([total_pages] missing, 0 or negative): none of its pages is
    handed to the workers and its rows are what they were, also when pages
    of it are not recorded. *)
Theorem error_recovery_passes_over {Page} (E : Env Page) (w : World) (d : string)
    (md : Metadata) :
  document_metadata w !! d = Some md →
  md_status md ≠ "processed" ∨ md_random md ≠ Some 6 ∨
  md_total_pages md = None ∨ (∃ N, md_total_pages md = Some N ∧ N ≤ 0) →
  dispatched_pages (ErrorPage6.process_error_pages E w).2 d = dispatched_pages w d ∧
  (∀ k row, t_document_id row = Some d →
            document_transcriptions (ErrorPage6.process_error_pages E w).2 !! k = Some row ↔
            document_transcriptions w !! k = Some row) ∧
  recorded_pages (ErrorPage6.process_error_pages E w).2 d = recorded_pages w d.
Proof.
  intros Hmd Hcase. split; [by apply (error_recovery_dispatch_frame E w d md)|].
  destruct (error_recovery_rows E w) as (w' & Hrun & Hkept & Hnew). rewrite Hrun. cbn [snd].
  assert (∀ k row, t_document_id row = Some d →
            document_transcriptions w' !! k = Some row ↔
            document_transcriptions w !! k = Some row) as Hrows.
  { intros k row Hd. split; [|apply Hkept]. intros Hk.
    destruct (document_transcriptions w !! k) as [row'|] eqn:Hold.
    { apply Hkept in Hold. congruence. }
    destruct (Hnew k row Hk Hold)
      as (d' & md' & N & p & Hmd' & Hst & Hrandom & Htotal & HN & _ & Hd' & _).
    rewrite Hd in Hd'. injection Hd' as <-. rewrite Hmd in Hmd'. injection Hmd' as <-.
    destruct Hcase as [?|[?|[Hnone|(N' & Htotal' & HN')]]]; [done..| |].
    - by rewrite Hnone in Htotal.
    - rewrite Htotal' in Htotal. injection Htotal as ->. lia. }
  split; [done|]. apply set_eq. intros p. rewrite !elem_of_recorded_pages.
  split; intros (id & row & Hid & Hd & Hp); exists id, row; (split; [|done]);
    by apply (Hrows id row Hd).
Qed.

Lemma error_recovery_passes_over_witness :
  document_metadata Scenario.deleted_with_rows !! "D"
    = Some (mkMetadata "d.pdf" "docs/d.pdf" "" "deleted" (Some 1) (Some 6)) ∧
  recorded_pages (ErrorPage6.process_error_pages (Scenario.echo ["p1"])
                                                 Scenario.deleted_with_rows).2 "D"
    = recorded_pages Scenario.deleted_with_rows "D".
Proof.
  split; [reflexivity|].
  destruct (error_recovery_passes_over (Scenario.echo ["p1"]) Scenario.deleted_with_rows
              "D" (mkMetadata "d.pdf" "docs/d.pdf" "" "deleted" (Some 1) (Some 6)))
    as (_ & _ & Hrec); [reflexivity|by left|].
  exact Hrec.
Defined.

(** * Problems without pages *)

(** X21: a problem whose pages all lie beyond the end of the workbook, or
    whose last page comes before its first page, is not skipped: its chunk
    is the empty PDF, the empty chunk is sent to the model like any other,
    and a row is saved for the problem with whatever the model made of
    it. *)
Theorem workbook_problem_without_pages {Page} (E : Env Page) (reader_pages : list Page)
    (file_name doc_id : string) (problem : Problem) (w : World) :
  1 ≤ start_page problem →
  Py.len reader_pages < start_page problem ∨ end_page problem < start_page problem →
  Workbook.problem_chunk reader_pages problem = Some [] ∧
  Workbook.process_problem E reader_pages file_name doc_id problem w =
    Workbook.save_to_supabase E
      (question_answer E []).1 (question_answer E []).2
      (analysis_of E (question_answer E []).1 (question_answer E []).2)
      (structure_of E (analysis_of E (question_answer E []).1 (question_answer E []).2))
      (problem_number problem) file_name doc_id w.
Proof.
  intros Hstart Hcase.
  destruct (problem_chunk_pages reader_pages problem Hstart) as (chunk & Hchunk & Hcontent).
  assert (pages_of_problem (Py.len reader_pages) problem = []) as Hnone.
  { unfold pages_of_problem, requested_pages.
    destruct (filter _ _) as [|p l] eqn:Hfilter; [done|].
    assert (p ∈ p :: l) as Hp by left. rewrite <-Hfilter in Hp.
    apply list_elem_of_filter in Hp as [Hle Hp]. apply elem_of_seqZ in Hp. lia. }
  rewrite Hnone in Hcontent. injection Hcontent as <-. split; [done|].
  rewrite process_problem_run, workbook_save. unfold workbook_row. by rewrite Hchunk.
Qed.

Lemma workbook_problem_without_pages_witness :
  Workbook.problem_chunk ["p1"; "p2"; "p3"] (mkProblem 7 4 5) = Some [] ∧
  map_to_list (workbook_transcriptions
    (Workbook.process_problem Workbooks.model_up ["p1"; "p2"; "p3"] "book.pdf" "W"
                              (mkProblem 7 4 5) Workbooks.book).2)
    = [(0%nat, mkWorkbookRow "" "answer" "analysis of " "{}" 7 "book.pdf" "W")].
Proof.
  destruct (workbook_problem_without_pages Workbooks.model_up ["p1"; "p2"; "p3"]
              "book.pdf" "W" (mkProblem 7 4 5) Workbooks.book) as [Hchunk Hrun].
  - simpl. lia.
  - left. simpl. unfold Py.len. simpl. lia.
  - split; [exact Hchunk|]. rewrite Hrun. vm_compute. reflexivity.
Defined.

(** * The missing pages over a whole error-recovery run *)

Lemma dispatched_own_pages (d : string) (pages : list Z) :
  snd <$> filter (λ e : string * Z, e.1 = d) ((λ p, (d, p)) <$> pages) = pages.
Proof.
  induction pages as [|p pages IH]; [done|].
  rewrite fmap_cons, filter_cons_True by done. by rewrite fmap_cons, IH.
Qed.

Section missing_pages_run.
Context {Page : Type} (E : Env Page).

(** The loop body on another document leaves the recorded pages of [d] as
    they are. *)
Lemma error_process_doc_recorded_other doc w d :
  doc.1 ≠ d →
  recorded_pages (ErrorPage6.process_doc E doc w).2 d = recorded_pages w d.
Proof.
  intros Hne. destruct (error_process_doc_total E doc w) as (groups & ->). cbn [snd].
  apply set_eq. intros p. rewrite recorded_pages_after_batch. split; [|by left].
  intros [Hp|[Heq _]]; [done|]. by destruct Hne.
Qed.

(** The loop body on a document whose lookup and download succeed:
    the missing pages that the PDF has are dispatched, in order. *)
Lemma error_process_doc_dispatch doc N pdf_data w :
  md_total_pages doc.2 = Some N →
  raises E (Query_transcriptions doc.1) = false →
  download E firebase_bucket (md_path doc.2) = Some pdf_data →
  ∃ missing,
    ErrorPage6.get_missing_pages E doc.1 N w = (Return missing, w) ∧
    StronglySorted Z.lt missing ∧
    (∀ p, p ∈ missing ↔ 1 ≤ p ≤ N ∧ p ∉ recorded_pages w doc.1) ∧
    dispatched (ErrorPage6.process_doc E doc w).2 =
      dispatched w ++ ((λ p, (doc.1, p)) <$> filter (λ p, p ≤ Py.len pdf_data) missing).
Proof.
  intros Htotal Hr Hdl.
  destruct (get_missing_pages_ok E doc.1 N w Hr) as (missing & Hmiss & Hsorted & Hin).
  exists missing. split; [done|]. split; [done|]. split; [done|].
  destruct (decide (N = 0)) as [->|HN].
  { assert (missing = []) as ->.
    { destruct missing as [|p ?]; [done|]. destruct (proj1 (Hin p)); [left|lia]. }
    unfold ErrorPage6.process_doc. rewrite Htotal. simpl. by rewrite app_nil_r. }
  destruct (error_process_doc_run E doc N pdf_data w Htotal HN Hr Hdl)
    as (missing' & split_pdfs & Hmiss' & Hex & Hrun).
  rewrite Hmiss in Hmiss'. injection Hmiss' as <-.
  destruct (extract_positive_pages pdf_data missing) as (split_pdfs' & Hex' & Hpages & _).
  { apply Forall_forall. intros p Hp. apply Hin in Hp. lia. }
  rewrite Hex in Hex'. injection Hex' as <-.
  rewrite Hrun. cbn [snd after_batch dispatched]. f_equal.
  by rewrite <-Hpages, <-list_fmap_compose.
Qed.

Lemma metadata_where_returns conds w :
  raises E (Query_metadata conds) = false →
  Db.metadata_where E conds w =
    (Return (filter (λ doc, forallb (λ c, holds c doc.2) conds)
                    (map_to_list (document_metadata w))), w).
Proof.
  intros Hq. unfold Db.metadata_where. by erewrite bind_return; [|by apply call_ok].
Qed.

(** A run over documents other than [d] touches neither the recorded nor
    the dispatched pages of [d]. *)
Lemma error_loop_others docs w d :
  d ∉ docs.*1 →
  ∃ w',
    for_each docs (ErrorPage6.process_doc E) w = (Return tt, w') ∧
    recorded_pages w' d = recorded_pages w d ∧
    dispatched_pages w' d = dispatched_pages w d.
Proof.
  intros Hd.
  apply (for_each_invariant
           (λ w', recorded_pages w' d = recorded_pages w d ∧
                  dispatched_pages w' d = dispatched_pages w d)); [done|].
  intros doc w1 Hdoc [Hrec Hdp].
  assert (doc.1 ≠ d) as Hne.
  { intros Heq. apply Hd. rewrite <-Heq. apply list_elem_of_fmap. by exists doc. }
  destruct (error_process_doc_total E doc w1) as (groups & Hrun).
  eexists. split; [exact Hrun|].
  pose proof (error_process_doc_recorded_other doc w1 d Hne) as Hrec'.
  pose proof (error_process_doc_other E doc w1 d Hne) as Hdp'.
  rewrite Hrun in Hrec', Hdp'. cbn [snd] in *. split; congruence.
Qed.

(** A whole run, seen from a document it selects: the pages dispatched for
    the document are the missing pages of the start of the run that its PDF
    has. *)
Lemma error_recovery_run_dispatch w d md N pdf_data :
  raises E (Query_metadata [Status_is "processed"; Random_is 6]) = false →
  raises E (Query_transcriptions d) = false →
  document_metadata w !! d = Some md →
  md_status md = "processed" → md_random md = Some 6 →
  md_total_pages md = Some N →
  download E firebase_bucket (md_path md) = Some pdf_data →
  ∃ missing,
    ErrorPage6.get_missing_pages E d N w = (Return missing, w) ∧
    StronglySorted Z.lt missing ∧
    (∀ p, p ∈ missing ↔ 1 ≤ p ≤ N ∧ p ∉ recorded_pages w d) ∧
    dispatched_pages (ErrorPage6.process_error_pages E w).2 d =
      dispatched_pages w d ++ filter (λ p, p ≤ Py.len pdf_data) missing.
Proof.
  intros Hq Hr Hmd Hst Hrandom Htotal Hdl.
  destruct (get_missing_pages_ok E d N w Hr) as (missing & Hmiss & Hsorted & Hin).
  exists missing. split; [done|]. split; [done|]. split; [done|].
  unfold ErrorPage6.process_error_pages.
  pose proof (NoDup_fst_filter
                (λ doc : string * Metadata,
                   forallb (λ c, holds c doc.2) [Status_is "processed"; Random_is 6])
                (map_to_list (document_metadata w))
                (NoDup_fst_map_to_list _)) as Hnodup.
  assert ((d, md) ∈ filter (λ doc : string * Metadata,
                              forallb (λ c, holds c doc.2)
                                      [Status_is "processed"; Random_is 6])
                           (map_to_list (document_metadata w))) as Hsel.
  { apply list_elem_of_filter. split; [|by apply elem_of_map_to_list].
    simpl. by rewrite Hst, Hrandom. }
  apply list_elem_of_split in Hsel as (l1 & l2 & Hdocs). rewrite Hdocs in Hnodup.
  rewrite fmap_app, fmap_cons in Hnodup.
  apply NoDup_app in Hnodup as (_ & Hl1 & Hl2). apply NoDup_cons in Hl2 as [Hl2 _].
  destruct (error_loop_others l1 w d) as (w1 & Hrun1 & Hrec1 & Hdp1).
  { intros Hd. apply (Hl1 d Hd). left. }
  destruct (error_process_doc_dispatch (d, md) N pdf_data w1 Htotal Hr Hdl)
    as (missing1 & _ & Hsorted1 & Hin1 & Hdisp).
  assert (missing1 = missing) as ->.
  { apply StronglySorted_lt_unique; [done..|]. intros p.
    rewrite Hin, Hin1. cbn [fst]. by rewrite Hrec1. }
  destruct (error_process_doc_total E (d, md) w1) as (groups & Hrun2).
  rewrite Hrun2 in Hdisp. cbn [snd fst] in Hdisp.
  set (w2 := after_batch _ _ _ _ _ _) in *.
  destruct (error_loop_others l2 w2 d Hl2) as (w3 & Hrun3 & _ & Hdp3).
  erewrite try_return.
  2:{ erewrite bind_return; [|by apply metadata_where_returns].
      rewrite for_each_guard, Hdocs, for_each_app.
      erewrite bind_return; [|exact Hrun1]. cbn [for_each].
      erewrite bind_return; [|exact Hrun2]. exact Hrun3. }
  cbn [snd]. rewrite Hdp3, <-Hdp1. unfold dispatched_pages at 1.
  rewrite Hdisp, filter_app, fmap_app. by rewrite dispatched_own_pages.
Qed.

End missing_pages_run.

(** C1 (as stated) fails when the PDF is shorter than the stored page count:
    for N = 5, recorded pages {1,3,4} and a four-page PDF the missing pages
    are [2; 5], no call raises, and the run dispatches page 2 only. *)
Lemma missing_page_beyond_the_pdf_is_not_dispatched :
  recorded_pages Scenario.gaps "A" = {[1; 3; 4]} ∧
  md_total_pages <$> document_metadata Scenario.gaps !! "A" = Some (Some 5) ∧
  ErrorPage6.get_missing_pages (Scenario.echo ["p1"; "p2"; "p3"; "p4"]) "A" 5 Scenario.gaps
    = (Return [2; 5], Scenario.gaps) ∧
  dispatched (ErrorPage6.process_error_pages (Scenario.echo ["p1"; "p2"; "p3"; "p4"])
                                             Scenario.gaps).2
    = [("A", 2)] ∧
  ¬ (dispatched_pages (ErrorPage6.process_error_pages (Scenario.echo ["p1"; "p2"; "p3"; "p4"])
                                                      Scenario.gaps).2 "A"
       = [2; 5]).
Proof.
  split.
  { apply (bool_decide_unpack _). vm_compute. exact I. }
  split; [reflexivity|]. split; [vm_compute; reflexivity|].
  split; [vm_compute; reflexivity|].
  vm_compute. discriminate.
Qed.

(** C1 (amended): when listing the document's transcriptions does not raise,
    the missing-page computation returns, in ascending order, exactly the
    pages of 1..N that are not recorded for the document, [2; 5] for N = 5
    and recorded pages {1,3,4}; and in a run of the error-recovery script
    whose selection query does not raise, for a document that is processed,
    has random number 6 and total page count N and whose download succeeds,
    the pages dispatched for the document are the missing pages that are
    not beyond the last page of the PDF, in order: all the missing pages
    when the PDF has at least N pages. *)
Theorem missing_pages_computed_and_dispatched {Page} (E : Env Page)
    (document_id : string) (total_pages : Z) (w : World) :
  raises E (Query_transcriptions document_id) = false →
  ∃ missing,
    ErrorPage6.get_missing_pages E document_id total_pages w = (Return missing, w) ∧
    StronglySorted Z.lt missing ∧
    (∀ p, p ∈ missing ↔ 1 ≤ p ≤ total_pages ∧ p ∉ recorded_pages w document_id) ∧
    (total_pages = 5 → recorded_pages w document_id = {[1; 3; 4]} → missing = [2; 5]) ∧
    (∀ md pdf_data,
       raises E (Query_metadata [Status_is "processed"; Random_is 6]) = false →
       document_metadata w !! document_id = Some md →
       md_status md = "processed" → md_random md = Some 6 →
       md_total_pages md = Some total_pages →
       download E firebase_bucket (md_path md) = Some pdf_data →
       dispatched_pages (ErrorPage6.process_error_pages E w).2 document_id =
         dispatched_pages w document_id ++ filter (λ p, p ≤ Py.len pdf_data) missing ∧
       (total_pages ≤ Py.len pdf_data →
        dispatched_pages (ErrorPage6.process_error_pages E w).2 document_id =
          dispatched_pages w document_id ++ missing)).
Proof.
  intros Hok.
  destruct (get_missing_pages_ok E document_id total_pages w Hok)
    as (missing & Hrun & Hsorted & Hin).
  exists missing. split; [done|]. split; [done|]. split; [done|]. split.
  - intros -> HR. apply StronglySorted_lt_unique; [done|repeat constructor; lia|].
    intros p. rewrite Hin, HR.
    rewrite !elem_of_cons, elem_of_nil, !elem_of_union, !elem_of_singleton. lia.
  - intros md pdf_data Hq Hmd Hst Hrandom Htotal Hdl.
    destruct (error_recovery_run_dispatch E w document_id md total_pages pdf_data)
      as (missing' & Hrun' & _ & _ & Hdisp); [done..|].
    rewrite Hrun in Hrun'. injection Hrun' as <-.
    split; [done|]. intros Hlen. rewrite Hdisp. f_equal.
    apply filter_all, Forall_forall. intros p Hp. apply Hin in Hp. lia.
Qed.

Lemma missing_pages_computed_witness :
  raises (Scenario.echo Scenario.five_pages) (Query_transcriptions "A") = false ∧
  ∃ missing,
    ErrorPage6.get_missing_pages (Scenario.echo Scenario.five_pages) "A" 5 Scenario.gaps
      = (Return missing, Scenario.gaps) ∧
    missing = [2; 5] ∧
    dispatched_pages (ErrorPage6.process_error_pages (Scenario.echo Scenario.five_pages)
                                                     Scenario.gaps).2 "A"
      = dispatched_pages Scenario.gaps "A" ++ missing.
Proof.
  split; [reflexivity|].
  destruct (missing_pages_computed_and_dispatched (Scenario.echo Scenario.five_pages)
              "A" 5 Scenario.gaps) as (missing & Hrun & _ & _ & Hfive & Hdisp);
    [reflexivity|].
  exists missing. split; [exact Hrun|]. split.
  - apply Hfive; [reflexivity|]. apply (bool_decide_unpack _). vm_compute. exact I.
  - destruct (Hdisp (mkMetadata "a.pdf" "docs/a.pdf" "" "processed" (Some 5) (Some 6))
                    Scenario.five_pages) as [_ Hall]; try reflexivity.
    apply Hall. vm_compute. discriminate.
Defined.

(** * Empty answers over whole runs *)

Section empty_text_run.
Context {Page : Type} (E : Env Page).

Lemma onepage_loop_data (pdf_data : list Page) (m : nat) (k : Z) acc :
  0 ≤ k → k + Z.of_nat m ≤ Py.len pdf_data →
  ∃ groups,
    Py.for_ (seqZ k (Z.of_nat m)) (λ split_pdfs i,
      pg ← Py.getitem pdf_data i;
      Some (split_pdfs ++ [mkPagePdf ("page_" +:+ pretty (i + 1)) [pg] (i + 1)])) acc
      = Some (acc ++ groups) ∧
    Forall (λ g, ∃ pg, pdf_data !! Z.to_nat (page g - 1) = Some pg ∧ data g = [pg]) groups.
Proof.
  revert k acc. induction m as [|m IH]; intros k acc Hk Hlen.
  - exists []. simpl. by rewrite app_nil_r.
  - rewrite seqZ_succ. cbn [Py.for_].
    destruct (getitem_in_range pdf_data k) as (pg & -> & Hpg); [lia|]. simpl.
    destruct (IH (k + 1) (acc ++ [mkPagePdf ("page_" +:+ pretty (k + 1)) [pg] (k + 1)]))
      as (groups & Hrun & Hdata); [lia..|].
    exists (mkPagePdf ("page_" +:+ pretty (k + 1)) [pg] (k + 1) :: groups).
    split; [rewrite <-app_assoc in Hrun; exact Hrun|].
    constructor; [|done]. exists pg. simpl. split; [|done].
    by replace (k + 1 - 1) with k by lia.
Qed.

(** Every group of the one-page split holds the page of its number. *)
Lemma onepage_split_data (pdf_data : list Page) :
  ∃ split_pdfs,
    OnePage6.split_pdf_in_memory pdf_data = Some split_pdfs ∧
    Forall (λ g, ∃ pg, pdf_data !! Z.to_nat (page g - 1) = Some pg ∧ data g = [pg])
           split_pdfs.
Proof.
  destruct (onepage_loop_data pdf_data (length pdf_data) 0 []) as (groups & Hrun & Hdata);
    [done|unfold Py.len; lia|].
  exists groups. split; [|done].
  unfold OnePage6.split_pdf_in_memory, Py.range, Py.len. by rewrite Z.sub_0_r.
Qed.

(** The rows the Supabase scripts save do not depend on the status update
    that follows. *)
Lemma twopage_process_doc_rows doc whole split_pdfs w :
  download E (md_bucket doc.2) (md_file_name doc.2) = Some whole →
  TwoPage.split_pdf_in_memory whole = Some split_pdfs →
  document_transcriptions (TwoPage.process_doc E doc w).2 =
    add_rows (accepted E (twopage_rows E (md_file_name doc.2) doc.1 split_pdfs))
             (document_transcriptions w).
Proof.
  intros Hdl Hsplit.
  destruct (raises E (Update_status (md_file_name doc.2) "processed")) eqn:Hup.
  - by rewrite (twopage_process_doc_update_raises E doc whole split_pdfs).
  - by rewrite (twopage_process_doc_run E doc whole split_pdfs).
Qed.

Lemma document_process_doc_rows doc whole split_pdfs w :
  download E "documents" (md_file_name doc.2) = Some whole →
  Document.split_pdf_in_memory whole = Some split_pdfs →
  document_transcriptions (Document.process_doc E doc w).2 =
    add_rows (accepted E (document_rows E (md_file_name doc.2) split_pdfs))
             (document_transcriptions w).
Proof.
  intros Hdl Hsplit.
  destruct (raises E (Update_status (md_file_name doc.2) "processed")) eqn:Hup.
  - by rewrite (document_process_doc_update_raises E doc whole split_pdfs).
  - by rewrite (document_process_doc_run E doc whole split_pdfs).
Qed.

(** A selected document in a first-pass run of the one-page script, seen
    from one of its pages that the model answers with the empty string: the
    page is dispatched, nothing is recorded for it and the document is set
    to processed. *)
Lemma onepage_run_empty_page w d md whole p pg :
  first_pass_transcription E [pg] = "" →
  (∀ c, raises E c = false) →
  document_metadata w !! d = Some md →
  md_status md = "unprocessed" → md_random md = Some 6 →
  download E firebase_bucket (md_path md) = Some whole →
  1 ≤ p → whole !! Z.to_nat (p - 1) = Some pg →
  p ∈ dispatched_pages (OnePage6.process_documents E w).2 d ∧
  (p ∉ recorded_pages (OnePage6.process_documents E w).2 d) ∧
  document_metadata (OnePage6.process_documents E w).2 !! d =
    Some (Db.set_status "processed" md).
Proof.
  intros Hempty Hok Hmd Hst Hrandom Hdl Hp Hpg.
  assert (status_of w d = Some "unprocessed") as Hstatus.
  { unfold status_of. by rewrite Hmd, <-Hst. }
  destruct (onepage_process_unprocessed_selected E d md whole (onepage_swept w) Hok)
    as (split_pdfs & w' & Hsplit & Hrun & Hm & Hr & Hdp); [|done..|].
  { rewrite onepage_swept_metadata; [done|]. by rewrite Hstatus. }
  rewrite (onepage_process_documents_run E Hok), (try_return _ _ _ _ _ Hrun). cbn [snd].
  rewrite onepage_swept_purged in Hr by (by right). simpl in Hr.
  split; [|split; [|done]].
  - rewrite Hdp. apply elem_of_app. right. apply elem_of_seqZ.
    apply lookup_lt_Some in Hpg. unfold Py.len. lia.
  - intros Hrec. apply elem_of_recorded_pages in Hrec as (id & row & Hrow & Hd & Hpage).
    assert (row ∈ (rows_of w' d).*2) as Hin.
    { apply list_elem_of_fmap. exists (id, row). split; [done|].
      apply list_elem_of_filter. split; [done|]. by apply elem_of_map_to_list. }
    rewrite Hr in Hin. apply elem_of_batch_rows in Hin as (pdf & Hpdf & Htruthy & ->).
    simpl in Hpage. injection Hpage as Hpage.
    destruct (onepage_split_data whole) as (split_pdfs' & Hsplit' & Hdata).
    rewrite Hsplit in Hsplit'. injection Hsplit' as <-.
    pose proof (proj1 (Forall_forall _ _) Hdata pdf Hpdf) as (pg' & Hpg' & Hd').
    rewrite Hpage, Hpg in Hpg'. injection Hpg' as <-.
    by rewrite Hd', Hempty in Htruthy.
Qed.

End empty_text_run.

(** C3 (amended): when the model returns a candidate with empty text, the
    error-recovery script transcribes the page group as the placeholder,
    records it (if the insertion does not raise) and never computes the page
    as missing again.  The one-page first-pass script transcribes it as the
    empty string and persists nothing for it: in a run in which no database
    call raises, for a selected document whose download succeeds, the page
    is dispatched, is not among the recorded pages after the run, and the
    document is set to processed.  A later error-recovery run dispatches
    nothing for that document when its metadata has no total page count or
    one that is not positive (the one-page script never writes it); when the
    metadata has a total page count N with the page within 1..N, its
    selection query and the listing of the transcriptions do not raise, the
    download succeeds and the PDF has the page, the later run dispatches the
    page again.  The two Supabase first-pass scripts transcribe it as the
    empty string and, when the download and the split succeed, persist a row
    with the empty transcription (if the insertion does not raise), whether
    or not the status update raises. *)
Theorem empty_text_outcome {Page} (E : Env Page) (pdf_data : list Page)
    (response : Response) :
  generate_content E pdf_data = Some response →
  candidates response ≠ [] →
  text response = "" →
  (∀ page w, ErrorPage6.transcribe_pdf E pdf_data page w = (Return "内容なし", w)) ∧
  (∀ name page batch file_name doc_id w,
     mkPagePdf name pdf_data page ∈ batch →
     raises E (Add_transcription
                 (mkTranscription "内容なし" (Some page) None None file_name (Some doc_id)))
       = false →
     (∃ id, document_transcriptions
              (ErrorPage6.process_page_batch E batch file_name doc_id w).2 !! id =
              Some (mkTranscription "内容なし" (Some page) None None file_name (Some doc_id))) ∧
     page ∈ recorded_pages (ErrorPage6.process_page_batch E batch file_name doc_id w).2 doc_id ∧
     (∀ (E' : Env Page) total_pages missing w'',
        ErrorPage6.get_missing_pages E' doc_id total_pages
          (ErrorPage6.process_page_batch E batch file_name doc_id w).2 = (Return missing, w'') →
        page ∉ missing)) ∧
  (∀ page w, OnePage6.transcribe_pdf E pdf_data page w = (Return "", w)) ∧
  (∀ name page b1 b2 file_name doc_id w,
     document_transcriptions
       (OnePage6.process_page_batch E (b1 ++ mkPagePdf name pdf_data page :: b2)
                                    file_name doc_id w).2 =
     document_transcriptions
       (OnePage6.process_page_batch E (b1 ++ b2) file_name doc_id w).2) ∧
  (∀ pg w d md whole p,
     pdf_data = [pg] →
     (∀ c, raises E c = false) →
     document_metadata w !! d = Some md →
     md_status md = "unprocessed" → md_random md = Some 6 →
     download E firebase_bucket (md_path md) = Some whole →
     1 ≤ p → whole !! Z.to_nat (p - 1) = Some pg →
     p ∈ dispatched_pages (OnePage6.process_documents E w).2 d ∧
     (p ∉ recorded_pages (OnePage6.process_documents E w).2 d) ∧
     document_metadata (OnePage6.process_documents E w).2 !! d =
       Some (Db.set_status "processed" md) ∧
     (∀ E' : Env Page,
        md_total_pages md = None ∨ (∃ N, md_total_pages md = Some N ∧ N ≤ 0) →
        dispatched_pages
          (ErrorPage6.process_error_pages E' (OnePage6.process_documents E w).2).2 d =
        dispatched_pages (OnePage6.process_documents E w).2 d) ∧
     (∀ (E' : Env Page) N whole',
        md_total_pages md = Some N → p ≤ N →
        raises E' (Query_metadata [Status_is "processed"; Random_is 6]) = false →
        raises E' (Query_transcriptions d) = false →
        download E' firebase_bucket (md_path md) = Some whole' →
        p ≤ Py.len whole' →
        ∃ again,
          dispatched_pages
            (ErrorPage6.process_error_pages E' (OnePage6.process_documents E w).2).2 d =
          dispatched_pages (OnePage6.process_documents E w).2 d ++ again ∧
          p ∈ again)) ∧
  (∀ page w, TwoPage.transcribe_pdf E pdf_data page w = (Return "", w)) ∧
  (∀ name page doc whole split_pdfs w,
     download E (md_bucket doc.2) (md_file_name doc.2) = Some whole →
     TwoPage.split_pdf_in_memory whole = Some split_pdfs →
     mkPagePdf name pdf_data page ∈ split_pdfs →
     raises E (Add_transcription
                 (mkTranscription "" (Some page) None None (md_file_name doc.2)
                                  (Some doc.1))) = false →
     ∃ id, document_transcriptions (TwoPage.process_doc E doc w).2 !! id =
             Some (mkTranscription "" (Some page) None None (md_file_name doc.2)
                                   (Some doc.1))) ∧
  (∀ page_start page_end w,
     Document.transcribe_pdf E pdf_data page_start page_end w = (Return "", w)) ∧
  (∀ name page_start page_end doc whole split_pdfs w,
     download E "documents" (md_file_name doc.2) = Some whole →
     Document.split_pdf_in_memory whole = Some split_pdfs →
     mkRangePdf name pdf_data page_start page_end ∈ split_pdfs →
     raises E (Add_transcription
                 (mkTranscription "" None (Some page_start) (Some page_end)
                                  (md_file_name doc.2) None)) = false →
     ∃ id, document_transcriptions (Document.process_doc E doc w).2 !! id =
             Some (mkTranscription "" None (Some page_start) (Some page_end)
                                   (md_file_name doc.2) None)).
Proof.
  intros Hgen Hcand Htext.
  pose proof (recovery_transcription_empty_text E _ _ Hgen Hcand Htext) as Hrec.
  pose proof (first_pass_transcription_empty_text E _ _ Hgen Hcand Htext) as Hfirst.
  split; [intros; by rewrite error_transcribe_pdf_returns, Hrec|].
  split; [intros; by eapply recovery_placeholder_recorded|].
  split; [intros; by rewrite onepage_transcribe_pdf_returns, Hfirst|].
  split; [intros; by apply onepage_empty_not_persisted|].
  split.
  { intros pg w d md whole p -> Hok Hmd Hst Hrandom Hdl Hp Hpg.
    destruct (onepage_run_empty_page E w d md whole p pg Hfirst Hok Hmd Hst Hrandom Hdl
                                     Hp Hpg) as (Hdisp & Hnot & Hmd').
    split; [done|]. split; [done|]. split; [done|]. split.
    - intros E' Hnone.
      apply (error_recovery_dispatch_frame E' _ d (Db.set_status "processed" md) Hmd').
      right. right. exact Hnone.
    - intros E' N whole' Htotal HN Hq Hr Hdl' Hlen.
      destruct (error_recovery_run_dispatch E' _ d (Db.set_status "processed" md) N whole'
                  Hq Hr Hmd') as (missing & _ & _ & Hin & Hagain); [done..|].
      exists (filter (λ p, p ≤ Py.len whole') missing). split; [done|].
      apply list_elem_of_filter. split; [done|]. apply Hin. split; [lia|done]. }
  split; [intros; by rewrite twopage_transcribe_pdf_returns, Hfirst|].
  split.
  { intros name page doc whole split_pdfs w Hdl Hsplit Hin Hacc.
    rewrite (twopage_process_doc_rows E doc whole split_pdfs) by done.
    apply add_rows_elem, elem_of_accepted. split; [done|].
    unfold twopage_rows. apply list_elem_of_fmap.
    exists (mkPagePdf name pdf_data page). simpl. by rewrite Hfirst. }
  split; [intros; by rewrite document_transcribe_pdf_returns, Hfirst|].
  intros name page_start page_end doc whole split_pdfs w Hdl Hsplit Hin Hacc.
  rewrite (document_process_doc_rows E doc whole split_pdfs) by done.
  apply add_rows_elem, elem_of_accepted. split; [done|].
  unfold document_rows. apply list_elem_of_fmap.
  exists (mkRangePdf name pdf_data page_start page_end). simpl. by rewrite Hfirst.
Qed.

Lemma empty_text_outcome_witness :
  generate_content (Scenario.blank ["p1"]) ["p1"] = Some (mkResponse ["candidate"] "") ∧
  candidates (mkResponse ["candidate"] "") ≠ [] ∧
  text (mkResponse ["candidate"] "") = "" ∧
  (∀ page w, ErrorPage6.transcribe_pdf (Scenario.blank ["p1"]) ["p1"] page w
             = (Return "内容なし", w)) ∧
  (∀ page w, OnePage6.transcribe_pdf (Scenario.blank ["p1"]) ["p1"] page w = (Return "", w)) ∧
  1 ∈ dispatched_pages (OnePage6.process_documents (Scenario.blank ["p1"])
                                                   Scenario.three_pages_uploaded).2 "C" ∧
  (1 ∉ recorded_pages (OnePage6.process_documents (Scenario.blank ["p1"])
                                                  Scenario.three_pages_uploaded).2 "C") ∧
  dispatched_pages
    (ErrorPage6.process_error_pages
       (Scenario.blank ["p1"])
       (OnePage6.process_documents (Scenario.blank ["p1"])
                                   Scenario.three_pages_uploaded).2).2 "C" =
  dispatched_pages (OnePage6.process_documents (Scenario.blank ["p1"])
                                               Scenario.three_pages_uploaded).2 "C".
Proof.
  split; [reflexivity|]. split; [done|]. split; [reflexivity|].
  destruct (empty_text_outcome (Scenario.blank ["p1"]) ["p1"] (mkResponse ["candidate"] ""))
    as (H1 & _ & H3 & _ & H5 & _); [reflexivity|done|reflexivity|].
  split; [exact H1|]. split; [exact H3|].
  destruct (H5 "p1" Scenario.three_pages_uploaded "C"
               (mkMetadata "c.pdf" "docs/c.pdf" "" "unprocessed" None (Some 6))
               ["p1"] 1) as (Hd & Hn & _ & Hlater & _);
    [reflexivity|reflexivity|reflexivity|reflexivity|reflexivity|reflexivity|lia|reflexivity|].
  split; [exact Hd|]. split; [exact Hn|].
  apply (Hlater (Scenario.blank ["p1"])). by left.
Defined.

(** An empty answer, end to end: the first-pass run of the one-page script
    dispatches the page and records nothing; without a total page count the
    error-recovery run passes the document over, with a total page count of
    one it dispatches the page again and records the placeholder. *)
Example empty_page_and_the_later_run :
  let first := OnePage6.process_documents (Scenario.blank ["p1"]) in
  let later := ErrorPage6.process_error_pages (Scenario.blank ["p1"]) in
  let counted :=
    mkWorld {["C" := mkMetadata "c.pdf" "docs/c.pdf" "" "unprocessed" (Some 1) (Some 6)]}
            ∅ ∅ [] in
  map_to_list (document_transcriptions (first Scenario.three_pages_uploaded).2) = [] ∧
  dispatched (first Scenario.three_pages_uploaded).2 = [("C", 1)] ∧
  dispatched (later (first Scenario.three_pages_uploaded).2).2 = [("C", 1)] ∧
  map_to_list (document_transcriptions (first counted).2) = [] ∧
  dispatched (later (first counted).2).2 = [("C", 1); ("C", 1)] ∧
  map_to_list (document_transcriptions (later (first counted).2).2)
    = [(0%nat, mkTranscription "内容なし" (Some 1) None None "c.pdf" (Some "C"))].
Proof. repeat split; vm_compute; reflexivity. Qed.

(** * The status update comes after the batches *)

(** In the loop body of the one-page first-pass script, once the download
    has succeeded, the batch loop returns with every page of the document
    dispatched and the metadata untouched; the result of the loop body is
    the status update applied to that world, so a status update that raises
    leaves the pages dispatched, their rows saved and the status as it was. *)
Theorem one_page_status_update_comes_last {Page} (E : Env Page)
    (doc : string * Metadata) (pdf_data : list Page) (w : World) :
  download E firebase_bucket (md_path doc.2) = Some pdf_data →
  ∃ split_pdfs w1,
    OnePage6.split_pdf_in_memory pdf_data = Some split_pdfs ∧
    for_each (batches split_pdfs 100)
             (λ batch, OnePage6.process_page_batch E batch (md_file_name doc.2) doc.1) w
      = (Return tt, w1) ∧
    document_metadata w1 = document_metadata w ∧
    dispatched w1 = dispatched w ++ ((λ p, (doc.1, p)) <$> seqZ 1 (Py.len pdf_data)) ∧
    OnePage6.process_doc E doc w =
      (Return tt, (Db.update_status E doc.1 "processed" w1).2) ∧
    (raises E (Update_status doc.1 "processed") = true →
     OnePage6.process_doc E doc w = (Return tt, w1)).
Proof.
  intros Hdl.
  destruct (onepage_process_doc_cases E doc w)
    as [[Hnone _]|(pdf_data' & split_pdfs & Hdl' & Hsplit & Hpages & Hrun)];
    [by rewrite Hdl in Hnone|].
  rewrite Hdl in Hdl'. injection Hdl' as <-.
  exists split_pdfs,
    (after_batch E (first_pass_transcription E) (md_file_name doc.2) doc.1 split_pdfs w).
  split; [done|]. split.
  { rewrite (for_each_batches E _ (first_pass_transcription E) (md_file_name doc.2) doc.1).
    - by rewrite batches_concat.
    - intros. apply onepage_page_batch. }
  split; [done|]. split.
  { cbn [after_batch dispatched]. by rewrite <-Hpages, <-list_fmap_compose. }
  split; [done|]. intros Hup. rewrite Hrun. f_equal.
  unfold Db.update_status. by erewrite bind_raise; [|by apply call_raises].
Qed.

Lemma one_page_status_update_witness :
  download (update_down ["p1"; "p2"; "p3"]) firebase_bucket "docs/c.pdf"
    = Some ["p1"; "p2"; "p3"] ∧
  ∃ w1,
    OnePage6.process_doc (update_down ["p1"; "p2"; "p3"])
                         ("C", mkMetadata "c.pdf" "docs/c.pdf" "" "unprocessed" None (Some 6))
                         Scenario.three_pages_uploaded = (Return tt, w1) ∧
    dispatched w1 = [("C", 1); ("C", 2); ("C", 3)] ∧
    document_metadata w1 = document_metadata Scenario.three_pages_uploaded.
Proof.
  split; [reflexivity|].
  destruct (one_page_status_update_comes_last
              (update_down ["p1"; "p2"; "p3"])
              ("C", mkMetadata "c.pdf" "docs/c.pdf" "" "unprocessed" None (Some 6))
              ["p1"; "p2"; "p3"] Scenario.three_pages_uploaded)
    as (split_pdfs & w1 & _ & _ & Hmd & Hdisp & _ & Hraise); [reflexivity|].
  exists w1. split; [apply Hraise; reflexivity|]. split; [exact Hdisp|exact Hmd].
Defined.
